(** * PomoGG: the session cache, cooldown gates, inventory and trades of index.js

    A shallow embedding of the economic core of [index.js]: the in-memory
    session cache [userData], the three cooldown gates, the inventory
    mutations (draw, pack, pick, trash), the trade handshake carried by the
    button identifier, and the two image caches.

    Conventions of the embedding.
    - JavaScript values that the code moves around without looking inside
      (identifiers, timestamps read back from rows) are [jsval]s; [||] is
      [js_or] and [===] is equality of [jsval]s.
    - [Date.now()] values, cooldown durations and the cooldown columns of the
      [users] table are integers ([Z]); all of them stay far below [2^53],
      where JavaScript's doubles are exact.
    - The handlers are written in a state monad over [State]: the session
      cache, the log of write requests sent to the durable store, and the
      number of [Math.random()] draws consumed so far.
    - The durable store, the clock and the random source are the
      environment: reads of the store are answered by [db], a draw of
      [Math.random()] by [rnd], a download by [net].
    - [Math.random() * n] is the product of two doubles: it is rounded to
      the nearest double before [Math.floor] is taken ([double_round]).
    - A handler is modelled from the point where [isAllowedChannel] has let
      the interaction through, and runs to its end without another handler
      stepping in at an [await].  What the handlers print with
      [console.error] is left out. *)

From Stdlib Require Import ZArith Lia Ascii String.
From stdpp Require Import base numbers option list strings pretty gmap.

Local Open Scope string_scope.
Local Open Scope Z_scope.

(** ** JavaScript values *)

Inductive jsval : Type :=
  | JUndef
  | JNull
  | JNum (n : Z)
  | JStr (s : string).

#[global] Instance jsval_eq_dec : EqDecision jsval.
Proof. solve_decision. Defined.

(** [ToBoolean]: [undefined], [null], [0] and the empty string are falsy. *)
Definition truthy (v : jsval) : bool :=
  match v with
  | JUndef | JNull => false
  | JNum n => negb (n =? 0)
  | JStr s => negb (String.eqb s "")
  end.

(** [a || b] *)
Definition js_or (a b : jsval) : jsval := if truthy a then a else b.

(** [a === b] *)
Definition js_eq (a b : jsval) : bool := bool_decide (a = b).

(** ** Configuration (index.js, lines 28-35) *)

Definition DRAW_COOLDOWN (TEST_MODE : bool) : Z := if TEST_MODE then 0 else 15 * 60 * 1000.
Definition PACK_COOLDOWN (TEST_MODE : bool) : Z := if TEST_MODE then 0 else 10 * 60 * 1000.
Definition PICK_COOLDOWN (TEST_MODE : bool) : Z := if TEST_MODE then 0 else 30 * 60 * 1000.

(** ** msToNice (index.js, lines 460-466) *)

(** [Math.ceil(a / b)] on integers, [0 < b]. *)
Definition ceil_div (a b : Z) : Z := - ((- a) / b).

Definition msToNice (ms : Z) : string :=
  let totalSeconds := ceil_div ms 1000 in
  let minutes := totalSeconds / 60 in
  let seconds := Z.rem totalSeconds 60 in
  if 0 <? minutes then pretty minutes +:+ "m " +:+ pretty seconds +:+ "s"
  else pretty seconds +:+ "s".

(** ** The cooldown gate

    The same three lines guard every draw, pack and pick, in the text, the
    button and the slash form of the command:
    [const elapsed = now - data.lastX; if (elapsed < X_COOLDOWN) {
       const remaining = X_COOLDOWN - elapsed; return reply(msToNice(remaining)) }].
    [cooldown_gate] is [Some remaining] when the gate denies. *)

Definition cooldown_gate (cooldown last now : Z) : option Z :=
  let elapsed := now - last in
  if elapsed <? cooldown then Some (cooldown - elapsed) else None.

(** ** Products of doubles

    [Math.random()] is a double [m / 2^53] with [0 <= m < 2^53], and the
    catalog length, [chars.length] and [10] are integers that a double holds
    exactly, so the real product of [Math.random()] by such an [n] is
    [(m * n) / 2^53].  The product that JavaScript computes is that real
    rounded to the nearest double, ties to the even significand.
    [double_round p] is the numerator over [2^53] of the double nearest to
    [p / 2^53], for [0 <= p]: below [2^53] nothing is lost; from [2^53] on the
    [Z.log2 p - 52] low bits are rounded away. *)

Definition double_round (p : Z) : Z :=
  if p <? 2 ^ 53 then p
  else
    let e := Z.log2 p - 52 in
    let q := p / 2 ^ e in
    let r := p mod 2 ^ e in
    let half := 2 ^ (e - 1) in
    if (half <? r) || ((r =? half) && Z.odd q) then (q + 1) * 2 ^ e else q * 2 ^ e.

(** ** Data model *)

(** A card definition of the catalog ([cards], built by
    [loadCardsFromSupabase]). *)
Module Card.
Record t : Type := mk {
  id : string;
  name : string;
  rarity : string;
  set : string;
  imageUrl : string;
}.
End Card.

#[global] Instance Card_eq_dec : EqDecision Card.t.
Proof. solve_decision. Defined.

(** A row of the [inventory] table, as [select('*')] returns it. *)
Module InventoryRow.
Record t : Type := mk {
  user_id : string;
  card_id : jsval;
  obtained_at : jsval;
  instance_id : jsval;
}.
End InventoryRow.

(** A row of the [users] table; a column is [None] when it is null. *)
Module UserRow.
Record t : Type := mk {
  user_id : string;
  last_draw : option Z;
  last_pack : option Z;
  last_pick : option Z;
}.
End UserRow.

(** An entry of a session's inventory.  The source builds entries of three
    shapes: [{card_id, obtained_at, instance_id}] (rows read from the store,
    text and button draws), [{cardId, obtainedAt, instance_id}] (slash
    commands, button pack and pick) and the five-field entry of an accepted
    trade.  A property an object lacks reads as [undefined]. *)
Record Entry : Type := mkEntry {
  card_id : jsval;
  cardId : jsval;
  obtained_at : jsval;
  obtainedAt : jsval;
  instance_id : jsval;
}.

#[global] Instance Entry_eq_dec : EqDecision Entry.
Proof. solve_decision. Defined.

(** No entry has a property [instanceId]: none of the object literals of the
    source writes one and the table has no such column, so the reads
    [entry.instanceId] of the trade code yield [undefined]. *)
Definition instanceId (e : Entry) : jsval := JUndef.

(** The row object itself is the inventory entry after a load. *)
Definition entry_of_row (r : InventoryRow.t) : Entry :=
  {| card_id := InventoryRow.card_id r; cardId := JUndef;
     obtained_at := InventoryRow.obtained_at r; obtainedAt := JUndef;
     instance_id := InventoryRow.instance_id r |}.

(** [userData[userId]]; [pickChoices] is [None] when the property is missing
    (the object written by [/reset_me] has none). *)
Record Session : Type := mkSession {
  inventory : list Entry;
  lastDraw : Z;
  lastPack : Z;
  lastPick : Z;
  pickChoices : option (list Card.t);
}.

Definition Image : Type := list Byte.byte.
Definition Buffer : Type := list Byte.byte.

(** Write requests sent to the durable store. *)
Inductive DbRequest : Type :=
  | InsertUser (user_id : string) (last_draw last_pack last_pick : Z)
  | UpsertCooldowns (user_id : string) (last_draw last_pack last_pick : Z)
  | InsertInventory (user_id : string) (card_id : jsval) (obtained_at : Z) (instance_id : jsval)
  | DeleteByInstance (user_id : string) (instance_id : jsval)
  | DeleteByCardAndTime (user_id : string) (card_id : jsval) (obtained_at : jsval)
  | DeleteInventoryOf (user_id : string)
  | ResetUserRow (user_id : string).

#[global] Instance DbRequest_eq_dec : EqDecision DbRequest.
Proof. solve_decision. Defined.

(** The process-wide mutable state: [userData], [imageCache],
    [combinedImageCache], and what the process has sent out. *)
Record State : Type := mkState {
  userData : gmap string Session;
  imageCache : gmap string Image;
  combinedImageCache : gmap string Buffer;
  requests : list DbRequest;
  fetches : list string;
  draws : nat;
}.

Definition empty_state : State :=
  {| userData := ∅; imageCache := ∅; combinedImageCache := ∅;
     requests := []; fetches := []; draws := 0%nat |}.

(** ** The state monad of the handlers *)

Definition M (A : Type) : Type := State → A * State.

#[global] Instance M_ret : MRet M := λ A (a : A) st, (a, st).
#[global] Instance M_bind : MBind M :=
  λ A B (f : A → M B) (m : M A) st, let '(a, st') := m st in f a st'.

Definition set_userData (u : gmap string Session) (st : State) : State :=
  {| userData := u; imageCache := imageCache st;
     combinedImageCache := combinedImageCache st;
     requests := requests st; fetches := fetches st; draws := draws st |}.

(** A mutation of the session object stored under [userId]. *)
Definition modify_session (userId : string) (f : Session → Session) : M unit :=
  λ st, (tt, set_userData (alter f userId (userData st)) st).

Definition read_session (userId : string) : M (option Session) :=
  λ st, (userData st !! userId, st).

Definition request (r : DbRequest) : M unit :=
  λ st, (tt, {| userData := userData st; imageCache := imageCache st;
                combinedImageCache := combinedImageCache st;
                requests := requests st ++ [r]; fetches := fetches st;
                draws := draws st |}).

(** ** Responses of the durable store *)

(** A query resolves with data, resolves with an error object (and no
    data), or rejects. *)
Inductive Resp (A : Type) : Type :=
  | Data (a : A)
  | Err (code : string)
  | Throws.
Arguments Data {A} a.
Arguments Err {A} code.
Arguments Throws {A}.

Definition resp_data {A : Type} (r : Resp A) : option A :=
  match r with Data a => Some a | _ => None end.

(** What the store answers while a user is loaded: the [users] row
    ([single()] answers code PGRST116 when there is none), the [inventory]
    rows in ascending [obtained_at], and whether the insert of a fresh
    [users] row rejects. *)
Record Durable : Type := mkDurable {
  users_single : Resp UserRow.t;
  inventory_select : Resp (list InventoryRow.t);
  users_insert_rejects : bool;
}.

(** ** Strings *)

(** [s.split(sep)] for a one-character separator. *)
Fixpoint split_on (sep : ascii) (s : string) : list string :=
  match s with
  | EmptyString => [EmptyString]
  | String c s' =>
      if Ascii.eqb c sep then EmptyString :: split_on sep s'
      else match split_on sep s' with
           | [] => [String c EmptyString]
           | w :: ws => String c w :: ws
           end
  end.

(** Whether the character occurs in the string. *)
Fixpoint has_char (c : ascii) (s : string) : bool :=
  match s with
  | EmptyString => false
  | String d s' => Ascii.eqb d c || has_char c s'
  end.

(** [parts[i]] *)
Definition part (parts : list string) (i : nat) : jsval :=
  match parts !! i with Some s => JStr s | None => JUndef end.

(** A value used as a property key or spliced into a template literal. *)
Definition to_string (v : jsval) : string :=
  match v with
  | JUndef => "undefined"
  | JNull => "null"
  | JNum n => pretty n
  | JStr s => s
  end.

(** [array[i]] for an integer [i]. *)
Definition at_index {A : Type} (l : list A) (i : Z) : option A :=
  if i <? 0 then None else l !! Z.to_nat i.

(** [array.splice(i, 1)] on an index in range: the array without position [i]. *)
Definition splice1 {A : Type} (i : nat) (l : list A) : list A := delete i l.

(** [array.findIndex(p)] *)
Fixpoint findIndex {A : Type} (p : A → bool) (l : list A) : option nat :=
  match l with
  | [] => None
  | x :: l' => if p x then Some 0%nat else S <$> findIndex p l'
  end.

Section Handlers.

(** ** The environment of the handlers *)

Variable TEST_MODE : bool.
(** The catalog once [loadCardsFromSupabase] has run. *)
Variable cards : list Card.t.
(** The durable store's answers while user [userId] is loaded. *)
Variable db : string → Durable.
(** The [k]-th value of [Math.random()] is the double [rnd k / 2^53]. *)
Variable rnd : nat → Z.
(** The [k]-th download: [axios.get] then [loadImage]; [None] when either
    rejects. *)
Variable net : nat → string → option Image.
(** Drawing three images on the 1600x700 canvas and [toBuffer('image/png')]. *)
Variable canvas : Image → Image → Image → Buffer.
(** [parseInt]; [None] is [NaN]. *)
Variable parseInt : string → option Z.

(** [cardMap], filled from [cards] in order. *)
Definition cardMap : gmap string Card.t :=
  foldl (λ m c, <[Card.id c := c]> m) ∅ cards.

(** [cardMap.get(cardId) || cards.find(c => c.id === cardId)] *)
Definition find_card (cardId : jsval) : option Card.t :=
  match cardId with
  | JStr s =>
      match cardMap !! s with
      | Some c => Some c
      | None => List.find (λ c, bool_decide (Card.id c = s)) cards
      end
  | _ => None
  end.

(** [cards.find(c => c.id === cardId)] *)
Definition cards_find (cardId : jsval) : option Card.t :=
  List.find (λ c, js_eq (JStr (Card.id c)) cardId) cards.

Definition card_name (c : option Card.t) : string :=
  match c with Some c => Card.name c | None => "Unknown" end.

(** ** Randomness *)

Definition random : M Z :=
  λ st, (rnd (draws st),
         {| userData := userData st; imageCache := imageCache st;
            combinedImageCache := combinedImageCache st;
            requests := requests st; fetches := fetches st;
            draws := S (draws st) |}).

(** [Math.floor(Math.random() * n)]: the product is rounded to a double
    before [Math.floor] sees it. *)
Definition random_below (n : Z) : M Z :=
  m ← random; mret (double_round (m * n) / 2 ^ 53).

(** [randomCard] (lines 251-255); [None] is [null] or [undefined]. *)
Definition randomCard : M (option Card.t) :=
  if bool_decide (cards = []) then mret None
  else i ← random_below (Z.of_nat (length cards)); mret (at_index cards i).

Definition chars : string := "abcdefghijklmnopqrstuvwxyz0123456789".

(** [id += chars[i]] *)
Definition append_char (id : string) (i : Z) : string :=
  match (if i <? 0 then None else String.get (Z.to_nat i) chars) with
  | Some c => id +:+ String c EmptyString
  | None => id +:+ "undefined"
  end.

Fixpoint instance_id_loop (n : nat) (id : string) : M string :=
  match n with
  | O => mret id
  | S n' =>
      i ← random_below (Z.of_nat (String.length chars));
      instance_id_loop n' (append_char id i)
  end.

(** [generateCardInstanceId] (lines 258-265) *)
Definition generateCardInstanceId : M string := instance_id_loop 4 "po".

(** [`PSA ${Math.floor(Math.random() * 10) + 1}`] *)
Definition random_quality : M Z :=
  q ← random_below 10; mret (q + 1).

(** ** The session cache *)

Definition default_session : Session :=
  {| inventory := []; lastDraw := 0; lastPack := 0; lastPick := 0;
     pickChoices := Some [] |}.

(** [user?.col || 0]: zero when there is no row or the column is null. *)
Definition column_or_zero (col : UserRow.t → option Z) (user : option UserRow.t) : Z :=
  match user with
  | Some u => match col u with Some n => n | None => 0 end
  | None => 0
  end.

(** [inventory || []] *)
Definition rows_or_empty (rows : option (list InventoryRow.t)) : list Entry :=
  match rows with
  | Some rs => List.map entry_of_row rs
  | None => []
  end.

Definition rejects {A : Type} (r : Resp A) : bool :=
  match r with Throws => true | _ => false end.

Definition store_session (userId : string) (s : Session) : M unit :=
  λ st, (tt, set_userData (<[userId := s]> (userData st)) st).

(** The [catch] block of [getUserData]. *)
Definition getUserData_fallback (userId : string) : M Session :=
  store_session userId default_session;; mret default_session.

(** [getUserData] (lines 152-213).  Errors that a query returns are only
    printed; a query that rejects lands in the [catch] block. *)
Definition getUserData (userId : string) : M Session :=
  cached ← read_session userId;
  match cached with
  | Some s => mret s
  | None =>
      let userResp := users_single (db userId) in
      if rejects userResp then getUserData_fallback userId
      else
        let user := resp_data userResp in
        let invResp := inventory_select (db userId) in
        if rejects invResp then getUserData_fallback userId
        else
          let s := {| inventory := rows_or_empty (resp_data invResp);
                      lastDraw := column_or_zero UserRow.last_draw user;
                      lastPack := column_or_zero UserRow.last_pack user;
                      lastPick := column_or_zero UserRow.last_pick user;
                      pickChoices := Some [] |} in
          store_session userId s;;
          match user with
          | Some _ => mret s
          | None =>
              request (InsertUser userId 0 0 0);;
              if users_insert_rejects (db userId)
              then getUserData_fallback userId
              else mret s
          end
  end.

(** [saveUserCooldowns] (lines 216-229) *)
Definition saveUserCooldowns (userId : string) (data : Session) : M unit :=
  request (UpsertCooldowns userId (lastDraw data) (lastPack data) (lastPick data)).

(** [addCardToInventory] (lines 232-249) *)
Definition addCardToInventory (userId : string) (cardId : jsval) (obtainedAt : Z)
    (instanceId : jsval) : M unit :=
  request (InsertInventory userId cardId obtainedAt instanceId).

(** ** The image caches *)

Definition network_get (url : string) : M (option Image) :=
  λ st, (net (length (fetches st)) url,
         {| userData := userData st; imageCache := imageCache st;
            combinedImageCache := combinedImageCache st;
            requests := requests st; fetches := fetches st ++ [url];
            draws := draws st |}).

Definition imageCache_set (url : string) (image : Image) : M unit :=
  λ st, (tt, {| userData := userData st;
                imageCache := <[url := image]> (imageCache st);
                combinedImageCache := combinedImageCache st;
                requests := requests st; fetches := fetches st;
                draws := draws st |}).

Definition combinedImageCache_set (cacheKey : string) (buffer : Buffer) : M unit :=
  λ st, (tt, {| userData := userData st; imageCache := imageCache st;
                combinedImageCache := <[cacheKey := buffer]> (combinedImageCache st);
                requests := requests st; fetches := fetches st;
                draws := draws st |}).

(** [fetchAndCacheImage] (lines 331-346) against the cache as it was when
    the call started; [None] when the download or the decoding rejects. *)
Definition fetchAndCacheImage_seen (seen : gmap string Image) (url : string)
    : M (option Image) :=
  match seen !! url with
  | Some image => mret (Some image)
  | None =>
      r ← network_get url;
      match r with
      | Some image => imageCache_set url image;; mret (Some image)
      | None => mret None
      end
  end.

Definition fetchAndCacheImage (url : string) : M (option Image) :=
  λ st, fetchAndCacheImage_seen (imageCache st) url st.

(** [combineCardImages] (lines 349-392).  The three calls inside
    [Promise.all] all test the cache before any download has finished, so
    each sees the cache as it was; they are run to completion in the order
    they were issued.  [None] is the [null] of the [catch] block. *)
Definition combineCardImages (card1Url card2Url card3Url : string) : M (option Buffer) :=
  λ st,
    let cacheKey := card1Url +:+ "|" +:+ card2Url +:+ "|" +:+ card3Url in
    match combinedImageCache st !! cacheKey with
    | Some buffer => (Some buffer, st)
    | None =>
        (let seen := imageCache st in
         r1 ← fetchAndCacheImage_seen seen card1Url;
         r2 ← fetchAndCacheImage_seen seen card2Url;
         r3 ← fetchAndCacheImage_seen seen card3Url;
         match r1, r2, r3 with
         | Some img1, Some img2, Some img3 =>
             let buffer := canvas img1 img2 img3 in
             combinedImageCache_set cacheKey buffer;; mret (Some buffer)
         | _, _, _ => mret None
         end) st
    end.

(** ** Replies *)

Inductive Action : Type := Draw | Pack | Pick.

Definition cooldown_of (a : Action) : Z :=
  match a with
  | Draw => DRAW_COOLDOWN TEST_MODE
  | Pack => PACK_COOLDOWN TEST_MODE
  | Pick => PICK_COOLDOWN TEST_MODE
  end.

Definition last_of (a : Action) (data : Session) : Z :=
  match a with
  | Draw => lastDraw data
  | Pack => lastPack data
  | Pick => lastPick data
  end.

(** What a handler answers.  [OnCooldown a remaining] is the refusal of a
    gate, whose text shows [msToNice(remaining)] and nothing else of
    [remaining]. *)
Inductive Reply : Type :=
  | NoCardsConfigured
  | OnCooldown (a : Action) (remaining : Z)
  | NoCardsAvailable
  | Drew (card : Card.t) (quality : Z)
  | NoCardsForPack
  | OpenedPack (pulled : list Card.t)
  | InvalidIndex
  | Trashed (name : string) (index : Z)
  | DataReset
  | TradeWithSelf
  | TradeWithBot
  | TradeNoSuchCard (instanceId : string)
  | TradeProposed (acceptId declineId : string) (cardName : string)
  | TradeNotForYou
  | TradeDeclined (receiverId : jsval)
  | TradeFailed
  | TradeCompleted (senderId : jsval) (cardName : string) (instanceId receiverId : jsval)
  | NoActivePick
  | InvalidChoice
  | Picked (card : Card.t) (quality : Z)
  | NotEnoughCards
  | ImagesFailed
  | Uncaught (error : string)
  | Rendered
  | NoReply.

(** The object [data] as it is now. *)
Definition deref (userId : string) : M Session :=
  λ st, (default default_session (userData st !! userId), st).

Definition push_entry (e : Entry) (data : Session) : Session :=
  {| inventory := inventory data ++ [e]; lastDraw := lastDraw data;
     lastPack := lastPack data; lastPick := lastPick data;
     pickChoices := pickChoices data |}.

Definition set_inventory (inv : list Entry) (data : Session) : Session :=
  {| inventory := inv; lastDraw := lastDraw data;
     lastPack := lastPack data; lastPick := lastPick data;
     pickChoices := pickChoices data |}.

Definition set_lastDraw (now : Z) (data : Session) : Session :=
  {| inventory := inventory data; lastDraw := now;
     lastPack := lastPack data; lastPick := lastPick data;
     pickChoices := pickChoices data |}.

Definition set_lastPack (now : Z) (data : Session) : Session :=
  {| inventory := inventory data; lastDraw := lastDraw data;
     lastPack := now; lastPick := lastPick data;
     pickChoices := pickChoices data |}.

Definition set_lastPick (now : Z) (data : Session) : Session :=
  {| inventory := inventory data; lastDraw := lastDraw data;
     lastPack := lastPack data; lastPick := now;
     pickChoices := pickChoices data |}.

Definition set_pickChoices (choices : option (list Card.t)) (data : Session) : Session :=
  {| inventory := inventory data; lastDraw := lastDraw data;
     lastPack := lastPack data; lastPick := lastPick data;
     pickChoices := choices |}.

(** [{ cardId: card.id, obtainedAt: now, instance_id: instanceId }] *)
Definition camel_entry (card : Card.t) (now : Z) (instanceId : string) : Entry :=
  {| card_id := JUndef; cardId := JStr (Card.id card);
     obtained_at := JUndef; obtainedAt := JNum now;
     instance_id := JStr instanceId |}.

(** [{ card_id: card.id, obtained_at: now, instance_id: instanceId }] *)
Definition snake_entry (card : Card.t) (now : Z) (instanceId : string) : Entry :=
  {| card_id := JStr (Card.id card); cardId := JUndef;
     obtained_at := JNum now; obtainedAt := JUndef;
     instance_id := JStr instanceId |}.

(** [entry.instance_id || entry.instanceId] *)
Definition entryInstanceId (entry : Entry) : jsval :=
  js_or (instance_id entry) (instanceId entry).

(** [entry.card_id || entry.cardId] *)
Definition entryCardId (entry : Entry) : jsval :=
  js_or (card_id entry) (cardId entry).

(** ** Slash commands (lines 1105-1605)

    Every handler starts with [const now = Date.now()] and
    [const data = await getUserData(user.id)]. *)

(** The cooldown test of a handler, on the session [data]. *)
Definition gate (a : Action) (data : Session) (now : Z) : option Z :=
  cooldown_gate (cooldown_of a) (last_of a data) now.

(** [/draw] (lines 1112-1153) *)
Definition cmd_draw (user : string) (now : Z) : M Reply :=
  data ← getUserData user;
  if bool_decide (cards = []) then mret NoCardsConfigured
  else
    match gate Draw data now with
    | Some remaining => mret (OnCooldown Draw remaining)
    | None =>
        card ← randomCard;
        match card with
        | None => mret NoCardsAvailable
        | Some card =>
            instanceId ← generateCardInstanceId;
            modify_session user (push_entry (camel_entry card now instanceId));;
            modify_session user (set_lastDraw now);;
            addCardToInventory user (JStr (Card.id card)) now (JStr instanceId);;
            data ← deref user;
            saveUserCooldowns user data;;
            quality ← random_quality;
            mret (Drew card quality)
        end
    end.

(** The loop of a pack: up to [n] cards, stopping at the first failed draw. *)
Fixpoint pack_loop (mk : Card.t → Z → string → Entry) (user : string) (now : Z)
    (n : nat) (pulled : list Card.t) : M (list Card.t) :=
  match n with
  | O => mret pulled
  | S n' =>
      card ← randomCard;
      match card with
      | None => mret pulled
      | Some card =>
          instanceId ← generateCardInstanceId;
          modify_session user (push_entry (mk card now instanceId));;
          addCardToInventory user (JStr (Card.id card)) now (JStr instanceId);;
          pack_loop mk user now n' (pulled ++ [card])
      end
  end.

(** [/pack] (lines 1112-1193) *)
Definition cmd_pack (user : string) (now : Z) : M Reply :=
  data ← getUserData user;
  if bool_decide (cards = []) then mret NoCardsConfigured
  else
    match gate Pack data now with
    | Some remaining => mret (OnCooldown Pack remaining)
    | None =>
        pulled ← pack_loop camel_entry user now 5 [];
        modify_session user (set_lastPack now);;
        data ← deref user;
        saveUserCooldowns user data;;
        if bool_decide (pulled = []) then mret NoCardsForPack
        else mret (OpenedPack pulled)
    end.

(** [/trash] (lines 1228-1258); [index] is the integer option. *)
Definition cmd_trash (user : string) (now : Z) (index : Z) : M Reply :=
  data ← getUserData user;
  if (index <? 0) || (Z.of_nat (length (inventory data)) <=? index) then mret InvalidIndex
  else
    match inventory data !! Z.to_nat index with
    | None => mret (Uncaught "TypeError: removed is undefined")
    | Some removed =>
        modify_session user (set_inventory (splice1 (Z.to_nat index) (inventory data)));;
        let card := cards_find (cardId removed) in
        request (DeleteByCardAndTime user (cardId removed) (obtainedAt removed));;
        mret (Trashed (card_name card) index)
    end.

(** [/reset_me] (lines 1261-1294) *)
Definition cmd_reset_me (user : string) (now : Z) : M Reply :=
  data ← getUserData user;
  store_session user {| inventory := []; lastDraw := 0; lastPack := 0;
                        lastPick := 0; pickChoices := None |};;
  request (DeleteInventoryOf user);;
  request (ResetUserRow user);;
  mret DataReset.

(** [/trade] (lines 1442-1497): the offer lives in the two button
    identifiers only. *)
Definition cmd_trade (user : string) (now : Z) (instanceId : string)
    (targetUser : string) (targetIsBot : bool) : M Reply :=
  data ← getUserData user;
  if bool_decide (targetUser = user) then mret TradeWithSelf
  else if targetIsBot then mret TradeWithBot
  else
    match findIndex (λ entry, js_eq (entryInstanceId entry) (JStr instanceId))
                    (inventory data) with
    | None => mret (TradeNoSuchCard instanceId)
    | Some cardIndex =>
        let cardName :=
          match inventory data !! cardIndex with
          | Some cardEntry => card_name (find_card (entryCardId cardEntry))
          | None => "Unknown"
          end in
        mret (TradeProposed
                ("trade_accept_" +:+ user +:+ "_" +:+ targetUser +:+ "_" +:+ instanceId)
                ("trade_decline_" +:+ user +:+ "_" +:+ targetUser +:+ "_" +:+ instanceId)
                cardName)
    end.

(** The loop that draws the three choices of a pick. *)
Fixpoint choices_loop (n : nat) (choices : list Card.t) : M (list Card.t) :=
  match n with
  | O => mret choices
  | S n' =>
      card ← randomCard;
      match card with
      | None => mret choices
      | Some card => choices_loop n' (choices ++ [card])
      end
  end.

(** [/pick] (lines 1529-1605).  The final [editReply] reads an identifier
    [content] that this handler never declares. *)
Definition cmd_pick (user : string) (now : Z) : M Reply :=
  data ← getUserData user;
  match gate Pick data now with
  | Some remaining => mret (OnCooldown Pick remaining)
  | None =>
      choices ← choices_loop 3 [];
      match choices with
      | [c0; c1; c2] =>
          modify_session user (set_lastPick now);;
          modify_session user (set_pickChoices (Some choices));;
          combinedImageBuffer ←
            combineCardImages (Card.imageUrl c0) (Card.imageUrl c1) (Card.imageUrl c2);
          match combinedImageBuffer with
          | None => mret ImagesFailed
          | Some _ => mret (Uncaught "ReferenceError: content is not defined")
          end
      | _ => mret NotEnoughCards
      end
  end.

(** ** Buttons (lines 834-1103)

    A button handler also starts with [const now = Date.now()] and
    [const data = await getUserData(user.id)], for the user who pressed. *)

(** [btn_draw] (lines 846-875) *)
Definition btn_draw (user : string) (now : Z) : M Reply :=
  data ← getUserData user;
  match gate Draw data now with
  | Some remaining => mret (OnCooldown Draw remaining)
  | None =>
      card ← randomCard;
      match card with
      | None => mret NoCardsAvailable
      | Some card =>
          instanceId ← generateCardInstanceId;
          modify_session user (push_entry (snake_entry card now instanceId));;
          modify_session user (set_lastDraw now);;
          addCardToInventory user (JStr (Card.id card)) now (JStr instanceId);;
          data ← deref user;
          saveUserCooldowns user data;;
          quality ← random_quality;
          mret (Drew card quality)
      end
  end.

(** [btn_pack] (lines 877-902) *)
Definition btn_pack (user : string) (now : Z) : M Reply :=
  data ← getUserData user;
  match gate Pack data now with
  | Some remaining => mret (OnCooldown Pack remaining)
  | None =>
      pulled ← pack_loop camel_entry user now 5 [];
      modify_session user (set_lastPack now);;
      data ← deref user;
      saveUserCooldowns user data;;
      mret (OpenedPack pulled)
  end.

(** The entry pushed for the receiver of a trade (lines 959-965). *)
Definition traded_entry (cardId : jsval) (now : Z) (instanceId : jsval) : Entry :=
  {| card_id := cardId; cardId := cardId;
     obtained_at := JNum now; obtainedAt := JNum now;
     instance_id := instanceId |}.

(** The accept and decline buttons of a trade (lines 910-986). *)
Definition btn_trade (customId : string) (user : string) (now : Z) : M Reply :=
  data ← getUserData user;
  let parts := split_on "_" customId in
  let action := part parts 1 in
  let senderId := part parts 2 in
  let receiverId := part parts 3 in
  let instanceId := part parts 4 in
  if negb (js_eq (JStr user) receiverId) then mret TradeNotForYou
  else if js_eq action (JStr "decline") then mret (TradeDeclined receiverId)
  else
    senderData ← getUserData (to_string senderId);
    receiverData ← getUserData (to_string receiverId);
    match findIndex (λ entry, js_eq (entryInstanceId entry) instanceId)
                    (inventory senderData) with
    | None => mret TradeFailed
    | Some cardIndex =>
        match inventory senderData !! cardIndex with
        | None => mret (Uncaught "TypeError: cardEntry is undefined")
        | Some cardEntry =>
            let cardId := entryCardId cardEntry in
            let cardName := card_name (find_card cardId) in
            modify_session (to_string senderId)
              (λ d, set_inventory (splice1 cardIndex (inventory d)) d);;
            modify_session (to_string receiverId)
              (push_entry (traded_entry cardId now instanceId));;
            request (DeleteByInstance (to_string senderId) instanceId);;
            addCardToInventory (to_string receiverId) cardId now instanceId;;
            mret (TradeCompleted senderId cardName instanceId receiverId)
        end
    end.

(** The buttons of a pick (lines 1076-1102). *)
Definition btn_pick (customId : string) (user : string) (now : Z) : M Reply :=
  data ← getUserData user;
  let index := parseInt (to_string (part (split_on "_" customId) 2)) in
  match pickChoices data with
  | None | Some [] => mret NoActivePick
  | Some choices =>
      match index ≫= at_index choices with
      | None => mret InvalidChoice
      | Some card =>
          instanceId ← generateCardInstanceId;
          modify_session user (push_entry (camel_entry card now instanceId));;
          addCardToInventory user (JStr (Card.id card)) now (JStr instanceId);;
          modify_session user (set_pickChoices (Some []));;
          quality ← random_quality;
          mret (Picked card quality)
      end
  end.

(** The dispatch of a button press on its identifier.  The inventory, binder
    and search buttons only render what the session holds. *)
Definition on_button (customId : string) (user : string) (now : Z) : M Reply :=
  if String.eqb customId "btn_draw" then btn_draw user now
  else if String.eqb customId "btn_pack" then btn_pack user now
  else if String.eqb customId "btn_inventory" then getUserData user;; mret Rendered
  else if String.prefix "trade_accept_" customId || String.prefix "trade_decline_" customId
  then btn_trade customId user now
  else if String.prefix "binder_prev_" customId || String.prefix "binder_next_" customId
  then getUserData user;; mret Rendered
  else if String.prefix "search_prev_" customId || String.prefix "search_next_" customId
  then getUserData user;; mret Rendered
  else if String.prefix "btn_pick_" customId then btn_pick customId user now
  else getUserData user;; mret NoReply.

End Handlers.

(** ** Observations on states *)

(** The session a state holds for a user. *)
Definition session_at (userId : string) (st : State) : Session :=
  default default_session (userData st !! userId).

Definition inventory_at (userId : string) (st : State) : list Entry :=
  inventory (session_at userId st).

(** How many entries of an inventory carry the instance id [iid], by the
    test of the trade code. *)
Definition count_instance (iid : jsval) (inv : list Entry) : nat :=
  length (filter (λ entry, entryInstanceId entry = iid) inv).

(** ** A small world for the examples

    Three cards; alice, whose one card sits in the durable store as the row
    [example_row]; dave, whose [inventory] read fails; erin, whose [users]
    read fails; everybody else is new to the store. *)

Definition pikachu : Card.t :=
  Card.mk "pikachu" "Pikachu" "common" "Base Set 2" "https://cards.example/baseSet2/pikachu.png".
Definition onix : Card.t :=
  Card.mk "onix" "Onix" "common" "Base Set 2" "https://cards.example/baseSet2/onix.png".
Definition eevee : Card.t :=
  Card.mk "eevee" "Eevee" "common" "Evolving Skies" "https://cards.example/evolvingSkies/eevee.png".

Definition example_cards : list Card.t := [pikachu; onix; eevee].

Definition example_row : InventoryRow.t :=
  InventoryRow.mk "alice" (JStr "pikachu") (JNum 1000) (JStr "po1a2b").

Definition example_db (userId : string) : Durable :=
  if String.eqb userId "alice" then
    {| users_single := Data (UserRow.mk "alice" (Some 0) (Some 0) (Some 0));
       inventory_select := Data [example_row];
       users_insert_rejects := false |}
  else if String.eqb userId "dave" then
    {| users_single := Data (UserRow.mk "dave" (Some 1700000000000) None None);
       inventory_select := Err "57014";
       users_insert_rejects := false |}
  else if String.eqb userId "erin" then
    {| users_single := Err "PGRST301";
       inventory_select := Data [InventoryRow.mk "erin" (JStr "onix") (JNum 2000) (JStr "po9z9z")];
       users_insert_rejects := false |}
  else
    {| users_single := Err "PGRST116";
       inventory_select := Data [];
       users_insert_rejects := false |}.

(** A store in which nobody has a [users] row and the insert of one
    rejects, while the [inventory] table holds a row for everybody. *)
Definition example_db_insert_rejects (userId : string) : Durable :=
  {| users_single := Err "PGRST116";
     inventory_select :=
       Data [InventoryRow.mk userId (JStr "eevee") (JNum 3000) (JStr "po7k7k")];
     users_insert_rejects := true |}.

Definition example_rnd (k : nat) : Z := (Z.of_nat k * 1234567891234567) mod 2 ^ 53.

Definition example_net (k : nat) (url : string) : option Image :=
  if String.eqb url "" then None else Some [Byte.x89; Byte.x50].

Definition example_canvas (img1 img2 img3 : Image) : Buffer := (img1 ++ img2 ++ img3)%list.

Definition example_parseInt (s : string) : option Z :=
  if String.eqb s "0" then Some 0
  else if String.eqb s "1" then Some 1
  else if String.eqb s "2" then Some 2
  else if String.eqb s "7" then Some 7
  else None.

(** Bob with a pick session open. *)
Definition example_picking : State :=
  {| userData := {[ "bob" := {| inventory := []; lastDraw := 0; lastPack := 0;
                                lastPick := 1000;
                                pickChoices := Some [pikachu; onix; eevee] |} ]};
     imageCache := ∅; combinedImageCache := ∅;
     requests := []; fetches := []; draws := 0%nat |}.

(** Frank with one card whose instance id holds an underscore, as a row
    written by hand into the store can. *)
Definition example_underscore : State :=
  {| userData := {[ "frank" := {| inventory := [entry_of_row
                                     (InventoryRow.mk "frank" (JStr "eevee") (JNum 3000)
                                        (JStr "po_x1"))];
                                  lastDraw := 0; lastPack := 0; lastPick := 0;
                                  pickChoices := None |} ]};
     imageCache := ∅; combinedImageCache := ∅;
     requests := []; fetches := []; draws := 0%nat |}.

(** The state once the sessions of the user who pressed and of a second
    user have been brought into the cache, in that order. *)
Definition after_loads (db : string → Durable) (user other : string) (st : State) : State :=
  (getUserData db other (getUserData db user st).2).2.

(** A state after some draws of the random source, all else equal. *)
Definition with_draws (k : nat) (st : State) : State :=
  {| userData := userData st; imageCache := imageCache st;
     combinedImageCache := combinedImageCache st;
     requests := requests st; fetches := fetches st; draws := k |}.

Ltac run :=
  unfold mbind, M_bind, mret, M_ret, read_session, store_session,
    modify_session, request, deref, set_userData; simpl.

(** ** The channel restriction (lines 276-328)

    [serverConfig] maps a guild id to the one channel in which the bot
    answers.  Its keys are the [guild_id] of the rows of [server_config], a
    text primary key, and the guild ids that [/setchannel] receives. *)

(** [isAllowedChannel] (lines 322-328); [guildId] is [None] where
    [interaction.guild?.id] is [undefined]. *)
Definition isAllowedChannel (serverConfig : gmap string string)
    (guildId : option string) (channelId : string) : bool :=
  match guildId with
  | None => true
  | Some g =>
      match serverConfig !! g with
      | None => true
      | Some configured => bool_decide (configured = channelId)
      end
  end.

(** [setGuildChannel] (lines 303-319): the map is written before the upsert
    is awaited; [false] is returned when the upsert rejects. *)
Definition setGuildChannel (upsert_rejects : bool) (guildId channelId : string)
    (serverConfig : gmap string string) : bool * gmap string string :=
  (negb upsert_rejects, <[guildId := channelId]> serverConfig).

(** [loadServerConfigs] (lines 280-300) on the answer of
    [select('*')]: rows are pairs (guild_id, channel_id). *)
Definition loadServerConfigs (answer : Resp (list (string * string)))
    (serverConfig : gmap string string) : gmap string string :=
  match answer with
  | Data rows => foldl (λ m config, <[config.1 := config.2]> m) serverConfig rows
  | Err _ | Throws => serverConfig
  end.

(** What became of an interaction or a message. *)
Inductive Outcome : Type :=
  | Ignored
  | ChannelRefused
  | Answered (reply : Reply)
  | PickPrompt (choices : list Card.t)
  | InventoryText
  | BinderPage
  | HelpText
  | Silent.

Section Frontends.

Variable TEST_MODE : bool.
Variable cards : list Card.t.
Variable db : string → Durable.
Variable rnd : nat → Z.
Variable net : nat → string → option Image.
Variable canvas : Image → Image → Image → Buffer.
Variable parseInt : string → option Z.

(** A button press, from the channel check on (lines 834-1103). *)
Definition button_interaction (serverConfig : gmap string string)
    (guildId : option string) (channelId : string)
    (customId user : string) (now : Z) : M Outcome :=
  if negb (isAllowedChannel serverConfig guildId channelId) then mret ChannelRefused
  else
    reply ← on_button TEST_MODE cards db rnd parseInt customId user now;
    mret (Answered reply).

(** ** Text commands (lines 580-782)

    [command] is [message.content.toLowerCase().trim()]. *)

(** [kd], [kd draw], [kd d] (lines 598-628) *)
Definition msg_draw (user : string) (now : Z) : M Reply :=
  data ← getUserData db user;
  match gate TEST_MODE Draw data now with
  | Some remaining => mret (OnCooldown Draw remaining)
  | None =>
      card ← randomCard cards rnd;
      match card with
      | None => mret NoCardsAvailable
      | Some card =>
          instanceId ← generateCardInstanceId rnd;
          modify_session user (push_entry (snake_entry card now instanceId));;
          modify_session user (set_lastDraw now);;
          addCardToInventory user (JStr (Card.id card)) now (JStr instanceId);;
          data ← deref user;
          saveUserCooldowns user data;;
          quality ← random_quality rnd;
          mret (Drew card quality)
      end
  end.

(** [kd pack], [kd p] (lines 631-656) *)
Definition msg_pack (user : string) (now : Z) : M Reply :=
  data ← getUserData db user;
  match gate TEST_MODE Pack data now with
  | Some remaining => mret (OnCooldown Pack remaining)
  | None =>
      pulled ← pack_loop cards rnd snake_entry user now 5 [];
      modify_session user (set_lastPack now);;
      data ← deref user;
      saveUserCooldowns user data;;
      mret (OpenedPack pulled)
  end.

(** [kd pick], [kd pk], [pk], [pick] (lines 691-754) *)
Definition msg_pick (user : string) (now : Z) : M Outcome :=
  data ← getUserData db user;
  match gate TEST_MODE Pick data now with
  | Some remaining => mret (Answered (OnCooldown Pick remaining))
  | None =>
      choices ← choices_loop cards rnd 3 [];
      match choices with
      | [c0; c1; c2] =>
          modify_session user (set_lastPick now);;
          modify_session user (set_pickChoices (Some choices));;
          data ← deref user;
          saveUserCooldowns user data;;
          combinedImageBuffer ←
            combineCardImages net canvas
              (Card.imageUrl c0) (Card.imageUrl c1) (Card.imageUrl c2);
          match combinedImageBuffer with
          | None => mret (Answered ImagesFailed)
          | Some _ => mret (PickPrompt choices)
          end
      | _ => mret (Answered NotEnoughCards)
      end
  end.

Definition one_of (command : string) (names : list string) : bool :=
  bool_decide (command ∈ names).

(** [messageCreate] (lines 580-782) *)
Definition on_message (serverConfig : gmap string string) (authorIsBot : bool)
    (guildId : option string) (channelId : string)
    (command user : string) (now : Z) : M Outcome :=
  if authorIsBot then mret Ignored
  else if negb (String.prefix "kd" command) && negb (String.eqb command "pick")
          && negb (String.eqb command "pk")
  then mret Ignored
  else if negb (isAllowedChannel serverConfig guildId channelId) then mret ChannelRefused
  else if one_of command ["kd"; "kd draw"; "kd d"]
  then reply ← msg_draw user now; mret (Answered reply)
  else if one_of command ["kd pack"; "kd p"]
  then reply ← msg_pack user now; mret (Answered reply)
  else if one_of command ["kd inventory"; "kd inv"; "kd i"]
  then getUserData db user;; mret InventoryText
  else if one_of command ["kd binder"; "kd b"; "binder"]
  then getUserData db user;; mret BinderPage
  else if one_of command ["kd pick"; "kd pk"; "pk"; "pick"]
  then msg_pick user now
  else if one_of command ["kd help"; "help"]
  then getUserData db user;; mret HelpText
  else getUserData db user;; mret Silent.

(** The three ways to issue a command. *)
Inductive FrontEnd : Type := Slash | Button | Text.

(** The draw of each front end (lines 1120-1153, 846-875, 598-628). *)
Definition draw_via (fe : FrontEnd) (user : string) (now : Z) : M Reply :=
  match fe with
  | Slash => cmd_draw TEST_MODE cards db rnd user now
  | Button => btn_draw TEST_MODE cards db rnd user now
  | Text => msg_draw user now
  end.

(** The entry literal that the draw of a front end pushes. *)
Definition draw_entry (fe : FrontEnd) : Card.t → Z → string → Entry :=
  match fe with
  | Slash => camel_entry
  | Button | Text => snake_entry
  end.

(** The pack of each front end (lines 1156-1193, 877-902, 631-656). *)
Definition pack_via (fe : FrontEnd) (user : string) (now : Z) : M Reply :=
  match fe with
  | Slash => cmd_pack TEST_MODE cards db rnd user now
  | Button => btn_pack TEST_MODE cards db rnd user now
  | Text => msg_pack user now
  end.

(** The entry literal that the pack of a front end pushes. *)
Definition pack_entry (fe : FrontEnd) : Card.t → Z → string → Entry :=
  match fe with
  | Slash | Button => camel_entry
  | Text => snake_entry
  end.

End Frontends.

(** ** What a request writes *)

(** The row that [addCardToInventory] hands to [insert] (lines 236-241). *)
Definition row_written (r : DbRequest) : option InventoryRow.t :=
  match r with
  | InsertInventory user_id card_id obtained_at instance_id =>
      Some (InventoryRow.mk user_id card_id (JNum obtained_at) instance_id)
  | _ => None
  end.

(** The insert that goes with an entry pushed for [card] under [instanceId]. *)
Definition insert_of (user : string) (now : Z) (pulled : Card.t * string) : DbRequest :=
  InsertInventory user (JStr (Card.id pulled.1)) now (JStr pulled.2).

(** An entry in memory and a request agree when the row the request writes,
    read back as an entry, shows the same card id and the same instance id. *)
Definition same_ids (e : Entry) (r : DbRequest) : Prop :=
  ∃ row, row_written r = Some row ∧
         entryCardId (entry_of_row row) = entryCardId e ∧
         entryInstanceId (entry_of_row row) = entryInstanceId e.

(** A well-formed pull: a card of the catalog under a generated id. *)
Definition pulled_ok (cards : list Card.t) (p : Card.t * string) : Prop :=
  p.1 ∈ cards ∧ ∃ suffix, p.2 = "po" +:+ suffix ∧ String.length suffix = 4%nat.

(** The characters of [chars]. *)
Definition lower_alnum (c : ascii) : bool :=
  let n := nat_of_ascii c in
  ((97 <=? n)%nat && (n <=? 122)%nat) || ((48 <=? n)%nat && (n <=? 57)%nat).

(** Every value of the random source is a fraction in [0, 1). *)
Definition rnd_in_range (rnd : nat → Z) : Prop := ∀ k, 0 ≤ rnd k < 2 ^ 53.

(** * Properties *)

Section Properties.

#[local] Set Default Proof Using "Type".

Variable TEST_MODE : bool.
Variable cards : list Card.t.
Variable db : string → Durable.
Variable rnd : nat → Z.
Variable net : nat → string → option Image.
Variable canvas : Image → Image → Image → Buffer.
Variable parseInt : string → option Z.

(** ** msToNice *)

Lemma ceil_div_bounds (a b : Z) :
  0 < b → b * (ceil_div a b - 1) < a ≤ b * ceil_div a b.
Proof.
  intros Hb. unfold ceil_div.
  pose proof (Z.mul_div_le (- a) b Hb).
  pose proof (Z.mul_succ_div_gt (- a) b Hb).
  lia.
Qed.

Lemma ceil_div_unique (a b t : Z) :
  0 < b → b * (t - 1) < a ≤ b * t → ceil_div a b = t.
Proof.
  intros Hb Ht. pose proof (ceil_div_bounds a b Hb). nia.
Qed.

(** C8. For a remaining duration [ms >= 0], [msToNice] takes the ceiling of
    [ms / 1000] as the number of whole seconds [t], and prints
    ["<t / 60>m <t mod 60>s"] when [t] is at least a minute and ["<t>s"]
    otherwise. *)
Theorem msToNice_rounds_up_and_formats (ms : Z) :
  0 ≤ ms →
  ∃ t : Z,
    (1000 * (t - 1) < ms ≤ 1000 * t) ∧
    msToNice ms =
      if 60 <=? t
      then pretty (t / 60) +:+ "m " +:+ pretty (t mod 60) +:+ "s"
      else pretty t +:+ "s".
Proof.
  intros Hms. exists (ceil_div ms 1000).
  pose proof (ceil_div_bounds ms 1000 ltac:(lia)) as Hb.
  split; [exact Hb|].
  unfold msToNice.
  set (t := ceil_div ms 1000) in *.
  assert (0 ≤ t) as Ht by lia.
  rewrite Z.rem_mod_nonneg by lia.
  destruct (Z.leb_spec 60 t) as [Hge|Hlt].
  - assert (0 < t / 60) as Hm by (apply Z.div_str_pos; lia).
    apply Z.ltb_lt in Hm. rewrite Hm. reflexivity.
  - assert (t / 60 = 0) as Hm by (apply Z.div_small; lia).
    rewrite Hm. simpl. rewrite Z.mod_small by lia. reflexivity.
Qed.

(** ** The cooldown gate *)

Lemma cooldown_gate_Some (cooldown last now r : Z) :
  cooldown_gate cooldown last now = Some r ↔
  now - last < cooldown ∧ r = cooldown - (now - last).
Proof.
  unfold cooldown_gate.
  destruct (Z.ltb_spec (now - last) cooldown); split;
    intros; simplify_eq; try lia; intuition (try lia; congruence).
Qed.



(** ** The session cache *)

Lemma getUserData_cached (userId : string) (st : State) (s : Session) :
  userData st !! userId = Some s → getUserData db userId st = (s, st).
Proof. intros H. unfold getUserData. run. by rewrite H. Qed.

(** What a load leaves behind: the returned session is the one now cached
    for the user, sessions that were cached stay as they were, and the image
    caches and the random source are untouched. *)
Lemma getUserData_post (userId : string) (st : State) :
  ∃ s st',
    getUserData db userId st = (s, st') ∧
    userData st' !! userId = Some s ∧
    (∀ v s0, userData st !! v = Some s0 → userData st' !! v = Some s0) ∧
    (∀ v, v ≠ userId → userData st' !! v = userData st !! v) ∧
    imageCache st' = imageCache st ∧
    combinedImageCache st' = combinedImageCache st ∧
    fetches st' = fetches st ∧ draws st' = draws st.
Proof.
  clear TEST_MODE cards rnd net canvas parseInt.
  destruct (userData st !! userId) as [s|] eqn:Hc.
  - exists s, st. rewrite (getUserData_cached _ _ _ Hc). naive_solver.
  - unfold getUserData, getUserData_fallback. run. rewrite Hc.
    assert (∀ (x : Session) v s0, userData st !! v = Some s0 →
              <[userId:=x]> (userData st) !! v = Some s0) as Hkeep.
    { intros x v s0 Hv. destruct (decide (userId = v)) as [->|Hne].
      - rewrite Hc in Hv. discriminate.
      - by rewrite lookup_insert_ne. }
    destruct (rejects (users_single (db userId)));
      [eexists _, _; split; [reflexivity|]; simpl;
       rewrite ?lookup_insert_eq; split_and!; eauto;
       intros; by rewrite lookup_insert_ne|].
    destruct (rejects (inventory_select (db userId)));
      [eexists _, _; split; [reflexivity|]; simpl;
       rewrite ?lookup_insert_eq; split_and!; eauto;
       intros; by rewrite lookup_insert_ne|].
    destruct (resp_data (users_single (db userId))); simpl.
    + eexists _, _; split; [reflexivity|]; simpl.
      rewrite ?lookup_insert_eq; split_and!; eauto.
      intros; by rewrite lookup_insert_ne.
    + destruct (users_insert_rejects (db userId)); simpl.
      * eexists _, _; split; [reflexivity|]; simpl.
        rewrite insert_insert_eq, ?lookup_insert_eq; split_and!; eauto.
        intros; by rewrite lookup_insert_ne.
      * eexists _, _; split; [reflexivity|]; simpl.
        rewrite ?lookup_insert_eq; split_and!; eauto.
        intros; by rewrite lookup_insert_ne.
Qed.

(** The session a load returns depends on the cache entry of that user and
    on the durable store only. *)
Lemma getUserData_same_lookup (userId : string) (st1 st2 : State) :
  userData st1 !! userId = userData st2 !! userId →
  (getUserData db userId st1).1 = (getUserData db userId st2).1.
Proof.
  clear TEST_MODE cards rnd net canvas parseInt.
  intros Hsame. unfold getUserData, getUserData_fallback. run.
  rewrite <-Hsame. destruct (userData st1 !! userId) as [s|]; [done|].
  destruct (rejects (users_single (db userId))); [done|].
  destruct (rejects (inventory_select (db userId))); [done|].
  destruct (resp_data (users_single (db userId))); [done|]. simpl.
  by destruct (users_insert_rejects (db userId)).
Qed.

(** A load does not change what a later load returns, for any user. *)
Lemma getUserData_idempotent (user v : string) (st : State) :
  (getUserData db v (getUserData db user st).2).1 = (getUserData db v st).1.
Proof.
  clear TEST_MODE cards rnd net canvas parseInt.
  destruct (getUserData_post user st) as (s & st' & Heq & Hu & _ & Hother & _).
  destruct (decide (v = user)) as [->|Hne].
  - rewrite Heq. simpl. by rewrite (getUserData_cached _ _ _ Hu).
  - rewrite Heq. simpl. apply getUserData_same_lookup. by apply Hother.
Qed.

(** ** Lists *)

Lemma findIndex_None {A : Type} (p : A → bool) (l : list A) :
  findIndex p l = None ↔ ∀ x, x ∈ l → p x = false.
Proof.
  induction l as [|x l IH]; simpl.
  - split; [intros _ y Hy; by apply elem_of_nil in Hy|done].
  - destruct (p x) eqn:Hx.
    + split; [done|]. intros H. specialize (H x (list_elem_of_here _ _)). congruence.
    + rewrite fmap_None, IH. split.
      * intros H y Hy. apply elem_of_cons in Hy as [->|Hy]; auto.
      * intros H y Hy. apply H. by apply list_elem_of_further.
Qed.

Lemma findIndex_Some {A : Type} (p : A → bool) (l : list A) (i : nat) :
  findIndex p l = Some i →
  ∃ x, l !! i = Some x ∧ p x = true ∧ ∀ y, y ∈ take i l → p y = false.
Proof.
  revert i. induction l as [|x l IH]; intros i; simpl; [done|].
  destruct (p x) eqn:Hx.
  - intros [= <-]. exists x. split_and!; [done..|].
    intros y Hy. by apply elem_of_nil in Hy.
  - intros H. apply fmap_Some in H as (j & Hj & ->).
    destruct (IH _ Hj) as (y & Hl & Hp & Hpre).
    exists y. split_and!; [done..|].
    intros z Hz. simpl in Hz. apply elem_of_cons in Hz as [->|Hz]; auto.
Qed.

Lemma count_instance_app (iid : jsval) (l k : list Entry) :
  count_instance iid (l ++ k) = (count_instance iid l + count_instance iid k)%nat.
Proof. unfold count_instance. by rewrite filter_app, length_app. Qed.

Lemma count_instance_zero (iid : jsval) (l : list Entry) :
  count_instance iid l = 0%nat ↔ ∀ e, e ∈ l → entryInstanceId e ≠ iid.
Proof.
  unfold count_instance. induction l as [|x l IH].
  - split; [intros _ e He; by apply elem_of_nil in He|done].
  - rewrite filter_cons. destruct (decide (entryInstanceId x = iid)) as [Hx|Hx]; simpl.
    + split; [done|]. intros H. by destruct (H x (list_elem_of_here _ _)).
    + rewrite IH. split.
      * intros H e He. apply elem_of_cons in He as [->|He]; auto.
      * intros H e He. apply H. by apply list_elem_of_further.
Qed.

Lemma count_instance_splice1 (iid : jsval) (l : list Entry) (i : nat) (e : Entry) :
  l !! i = Some e → entryInstanceId e = iid →
  (count_instance iid (splice1 i l) + 1)%nat = count_instance iid l.
Proof.
  intros Hl He. unfold splice1.
  rewrite <-(take_drop_middle l i e Hl) at 2.
  rewrite delete_take_drop, !count_instance_app.
  unfold count_instance at 4. rewrite filter_cons_True by done. simpl.
  fold (count_instance iid (drop (S i) l)). lia.
Qed.

Lemma length_splice1 {A : Type} (l : list A) (i : nat) :
  is_Some (l !! i) → (length (splice1 i l) + 1)%nat = length l.
Proof.
  intros [x Hx]. unfold splice1.
  apply lookup_lt_Some in Hx. rewrite length_delete by (apply lookup_lt_is_Some; lia).
  lia.
Qed.

(** ** Trades *)

Lemma after_loads_cached (user other : string) (st : State) :
  is_Some (userData st !! user) → is_Some (userData st !! other) →
  after_loads db user other st = st.
Proof.
  intros [s Hs] [s' Hs']. unfold after_loads.
  rewrite (getUserData_cached _ _ _ Hs). simpl.
  by rewrite (getUserData_cached _ _ _ Hs').
Qed.

Lemma after_loads_Some (user other : string) (st : State) :
  is_Some (userData (after_loads db user other st) !! user) ∧
  is_Some (userData (after_loads db user other st) !! other).
Proof.
  unfold after_loads.
  destruct (getUserData_post user st) as (s & st0 & -> & Hu & _). simpl.
  destruct (getUserData_post other st0) as (s' & st1 & -> & Ho & Hkeep & _). simpl.
  split; [rewrite (Hkeep _ _ Hu)|rewrite Ho]; eauto.
Qed.

(** The accept branch, once the receiver check has passed: the sessions are
    loaded, then the card is looked for in the sender's inventory. *)
Lemma btn_trade_accept (customId user : string) (now : Z) (st : State) :
  let parts := split_on "_" customId in
  let sender := to_string (part parts 2) in
  let iid := part parts 4 in
  let st1 := after_loads db user sender st in
  part parts 3 = JStr user →
  part parts 1 ≠ JStr "decline" →
  btn_trade cards db customId user now st =
    match findIndex (λ entry, js_eq (entryInstanceId entry) iid)
                    (inventory_at sender st1) with
    | None => (TradeFailed, st1)
    | Some cardIndex =>
        match inventory_at sender st1 !! cardIndex with
        | None => (Uncaught "TypeError: cardEntry is undefined", st1)
        | Some cardEntry =>
            let cid := entryCardId cardEntry in
            (TradeCompleted (part parts 2) (card_name (find_card cards cid)) iid (JStr user),
             {| userData :=
                  alter (push_entry (traded_entry cid now iid)) user
                    (alter (λ d, set_inventory (splice1 cardIndex (inventory d)) d)
                       sender (userData st1));
                imageCache := imageCache st1;
                combinedImageCache := combinedImageCache st1;
                requests := requests st1 ++
                  [DeleteByInstance sender iid; InsertInventory user cid now iid];
                fetches := fetches st1; draws := draws st1 |})
        end
    end.
Proof.
  intros parts sender iid st1 Hrecv Hacc.
  unfold btn_trade. fold parts. rewrite Hrecv. fold sender iid.
  unfold st1, after_loads, inventory_at, session_at.
  unfold mbind at 1. unfold M_bind at 1.
  destruct (getUserData_post user st) as (data & st0 & -> & Hu & _). simpl.
  unfold js_eq at 1. rewrite bool_decide_eq_true_2 by done. simpl.
  unfold js_eq at 1. rewrite bool_decide_eq_false_2 by done.
  unfold mbind at 1. unfold M_bind at 1.
  destruct (getUserData_post sender st0) as (sd & st' & -> & Hs & Hkeep & _). simpl.
  unfold mbind at 1. unfold M_bind at 1.
  rewrite (getUserData_cached _ _ _ (Hkeep _ _ Hu)).
  rewrite Hs. simpl.
  destruct (findIndex _ (inventory sd)) as [i|]; [|done].
  destruct (inventory sd !! i) as [e|]; [|done].
  unfold addCardToInventory. run. by rewrite <-app_assoc.
Qed.

Lemma findIndex_instance_None (iid : jsval) (l : list Entry) :
  findIndex (λ entry, js_eq (entryInstanceId entry) iid) l = None ↔
  count_instance iid l = 0%nat.
Proof.
  rewrite findIndex_None, count_instance_zero. unfold js_eq.
  split; intros H e He; specialize (H e He).
  - by apply bool_decide_eq_false in H.
  - by apply bool_decide_eq_false.
Qed.

Lemma findIndex_instance_Some (iid : jsval) (l : list Entry) (i : nat) :
  findIndex (λ entry, js_eq (entryInstanceId entry) iid) l = Some i →
  ∃ e, l !! i = Some e ∧ entryInstanceId e = iid.
Proof.
  intros H. apply findIndex_Some in H as (e & Hl & Hp & _).
  exists e. split; [done|]. unfold js_eq in Hp. by apply bool_decide_eq_true in Hp.
Qed.

(** The id that an entry shows is never a falsy value other than
    [undefined], so the entry pushed for the receiver shows the id under
    which the sender's entry was found. *)
Lemma traded_entry_instance (e : Entry) (cid : jsval) (now : Z) :
  entryInstanceId (traded_entry cid now (entryInstanceId e)) = entryInstanceId e.
Proof.
  unfold entryInstanceId, instanceId, js_or. simpl.
  destruct (truthy (instance_id e)) eqn:Ht; simpl; by rewrite ?Ht.
Qed.

(** C1. When the receiver accepts: if no entry of the sender's in-memory
    inventory shows the offered instance id the trade fails and nothing in
    memory changes; if the sender holds exactly one such entry and the
    receiver none, the sender's inventory gets one shorter, the receiver's
    one longer, and the two inventories together hold exactly one entry with
    that id before and after. *)
Theorem trade_accept_conserves_instance (customId user : string) (now : Z) (st : State) :
  let parts := split_on "_" customId in
  let sender := to_string (part parts 2) in
  let iid := part parts 4 in
  let st1 := after_loads db user sender st in
  let result := btn_trade cards db customId user now st in
  part parts 3 = JStr user →
  part parts 1 ≠ JStr "decline" →
  (count_instance iid (inventory_at sender st1) = 0%nat →
     result.1 = TradeFailed ∧ result.2 = st1 ∧
     inventory_at sender result.2 = inventory_at sender st1 ∧
     inventory_at user result.2 = inventory_at user st1) ∧
  (count_instance iid (inventory_at sender st1) = 1%nat →
   count_instance iid (inventory_at user st1) = 0%nat →
     (∃ cardName, result.1 = TradeCompleted (part parts 2) cardName iid (JStr user)) ∧
     (length (inventory_at sender result.2) + 1 = length (inventory_at sender st1))%nat ∧
     (length (inventory_at user result.2) = length (inventory_at user st1) + 1)%nat ∧
     (count_instance iid (inventory_at sender st1)
        + count_instance iid (inventory_at user st1) = 1)%nat ∧
     (count_instance iid (inventory_at sender result.2)
        + count_instance iid (inventory_at user result.2) = 1)%nat).
Proof.
  intros parts sender iid st1 result Hrecv Hacc.
  pose proof (btn_trade_accept customId user now st Hrecv Hacc) as Hrun.
  fold parts sender iid st1 result in Hrun.
  split.
  - intros Hzero. apply findIndex_instance_None in Hzero.
    rewrite Hzero in Hrun. rewrite Hrun. done.
  - intros Hone Hnone.
    assert (sender ≠ user) as Hne.
    { intros Heq. rewrite Heq in Hone. congruence. }
    destruct (findIndex _ (inventory_at sender st1)) as [i|] eqn:Hfind;
      [|apply findIndex_instance_None in Hfind; congruence].
    apply findIndex_instance_Some in Hfind as (e & Hl & He).
    rewrite Hl in Hrun.
    destruct (after_loads_Some user sender st) as [[rd Hrd] [sd Hsd]].
    fold st1 in Hrd, Hsd.
    assert (inventory_at sender result.2 = splice1 i (inventory_at sender st1)) as Hs2.
    { rewrite Hrun. unfold inventory_at, session_at. simpl.
      rewrite lookup_alter_ne by done. rewrite lookup_alter_eq, Hsd. done. }
    assert (inventory_at user result.2 =
            (inventory_at user st1 ++ [traded_entry (entryCardId e) now iid])%list) as Hr2.
    { rewrite Hrun. unfold inventory_at, session_at. simpl.
      rewrite lookup_alter_eq, lookup_alter_ne by done. rewrite Hrd. done. }
    split_and!.
    + rewrite Hrun. eauto.
    + rewrite Hs2. apply length_splice1. eauto.
    + rewrite Hr2, length_app. simpl. lia.
    + lia.
    + rewrite Hs2, Hr2, count_instance_app.
      pose proof (count_instance_splice1 iid _ i e Hl He) as Hc.
      assert (count_instance iid [traded_entry (entryCardId e) now iid] = 1%nat) as Hnew.
      { unfold count_instance. rewrite filter_cons_True; [done|].
        rewrite <-He. apply traded_entry_instance. }
      lia.
Qed.

Lemma btn_trade_not_receiver (customId user : string) (now : Z) (st : State) :
  part (split_on "_" customId) 3 ≠ JStr user →
  btn_trade cards db customId user now st =
    (TradeNotForYou, (getUserData db user st).2).
Proof.
  intros Hne. unfold btn_trade. unfold mbind at 1. unfold M_bind at 1.
  destruct (getUserData db user st) as [data st0]. simpl.
  unfold js_eq at 1. rewrite bool_decide_eq_false_2 by congruence. done.
Qed.

Lemma btn_trade_decline (customId user : string) (now : Z) (st : State) :
  part (split_on "_" customId) 3 = JStr user →
  part (split_on "_" customId) 1 = JStr "decline" →
  btn_trade cards db customId user now st =
    (TradeDeclined (JStr user), (getUserData db user st).2).
Proof.
  intros Hrecv Hdecl. unfold btn_trade. unfold mbind at 1. unfold M_bind at 1.
  destruct (getUserData db user st) as [data st0]. simpl.
  rewrite Hrecv, Hdecl.
  unfold js_eq. rewrite !bool_decide_eq_true_2 by done. done.
Qed.

Lemma prefix_cons_inv (c d : ascii) (p s : string) :
  String.prefix (String c p) (String d s) = true → c = d.
Proof.
  simpl. destruct (ascii_dec c d) as [->|]; [done|discriminate].
Qed.

(** A button whose identifier starts a trade prefix reaches the trade code. *)
Lemma on_button_trade (customId user : string) (now : Z) :
  String.prefix "trade_accept_" customId || String.prefix "trade_decline_" customId = true →
  on_button TEST_MODE cards db rnd parseInt customId user now = btn_trade cards db customId user now.
Proof.
  intros Hp. unfold on_button. rewrite Hp.
  assert (∃ s, customId = String "t" s) as [s ->].
  { destruct customId as [|d s]; [done|].
    apply orb_true_iff in Hp as [Hp|Hp]; apply prefix_cons_inv in Hp; subst; eauto. }
  done.
Qed.

(** C5. A press of a trade button, accept or decline, by anyone but the
    receiver named in the identifier is refused; beyond bringing the
    presser's own session into the cache, which every button press does, the
    press changes nothing: every session already in memory, the sender's and
    the receiver's among them, is as it was, and the session that
    [getUserData] yields for any user is the one it yielded before. *)
Theorem trade_button_only_for_receiver (customId user : string) (now : Z) (st : State) :
  let parts := split_on "_" customId in
  let result := on_button TEST_MODE cards db rnd parseInt customId user now st in
  String.prefix "trade_accept_" customId || String.prefix "trade_decline_" customId = true →
  part parts 3 ≠ JStr user →
  result.1 = TradeNotForYou ∧
  result.2 = (getUserData db user st).2 ∧
  (∀ v s, userData st !! v = Some s → userData result.2 !! v = Some s) ∧
  (∀ v, v ≠ user → userData result.2 !! v = userData st !! v) ∧
  (∀ v, (getUserData db v result.2).1 = (getUserData db v st).1) ∧
  requests result.2 = requests (getUserData db user st).2 ∧
  (is_Some (userData st !! user) → result.2 = st).
Proof.
  intros parts result Hp Hne. unfold result.
  rewrite on_button_trade by done.
  rewrite btn_trade_not_receiver by done. simpl.
  split_and!; try done.
  - destruct (getUserData_post user st) as (s & st' & -> & _ & Hkeep & _). done.
  - destruct (getUserData_post user st) as (s & st' & -> & _ & _ & Hother & _). done.
  - intros v. apply getUserData_idempotent.
  - intros [s0 Hs0]. by rewrite (getUserData_cached _ _ _ Hs0).
Qed.

(** C9. When a trade completes, the entry pushed last on the receiver's
    inventory has the card id and the instance id of the entry taken from
    the sender, written in both naming styles, and the time of acceptance as
    its acquisition time, whatever the sender's entry had there. *)
Theorem trade_accept_receiver_entry (customId user : string) (now : Z) (st : State)
    (senderId receiverId iid' : jsval) (cardName : string) :
  let parts := split_on "_" customId in
  let sender := to_string (part parts 2) in
  let iid := part parts 4 in
  let st1 := after_loads db user sender st in
  let result := btn_trade cards db customId user now st in
  result.1 = TradeCompleted senderId cardName iid' receiverId →
  ∃ (cardIndex : nat) (removed new : Entry),
    receiverId = JStr user ∧ iid' = iid ∧
    inventory_at sender st1 !! cardIndex = Some removed ∧
    entryInstanceId removed = iid ∧
    (sender ≠ user →
       inventory_at sender result.2 = splice1 cardIndex (inventory_at sender st1)) ∧
    last (inventory_at user result.2) = Some new ∧
    card_id new = entryCardId removed ∧ cardId new = entryCardId removed ∧
    entryCardId new = entryCardId removed ∧
    instance_id new = iid ∧ entryInstanceId new = entryInstanceId removed ∧
    obtained_at new = JNum now ∧ obtainedAt new = JNum now.
Proof.
  intros parts sender iid st1 result Hdone.
  destruct (decide (part parts 3 = JStr user)) as [Hrecv|Hrecv];
    [|unfold result in Hdone; rewrite btn_trade_not_receiver in Hdone by done;
      discriminate].
  destruct (decide (part parts 1 = JStr "decline")) as [Hdecl|Hacc];
    [unfold result in Hdone; rewrite btn_trade_decline in Hdone by done;
     discriminate|].
  pose proof (btn_trade_accept customId user now st Hrecv Hacc) as Hrun.
  fold parts sender iid st1 result in Hrun.
  destruct (findIndex _ (inventory_at sender st1)) as [i|] eqn:Hfind;
    [|rewrite Hrun in Hdone; discriminate].
  apply findIndex_instance_Some in Hfind as (e & Hl & He).
  rewrite Hl in Hrun. rewrite Hrun in Hdone. simpl in Hdone.
  injection Hdone as _ _ <- <-.
  destruct (after_loads_Some user sender st) as [[rd Hrd] [sd Hsd]].
  fold st1 in Hrd, Hsd.
  exists i, e, (traded_entry (entryCardId e) now iid).
  split_and!; try done.
  - intros Hne. rewrite Hrun. unfold inventory_at, session_at. simpl.
    rewrite lookup_alter_ne by done. by rewrite lookup_alter_eq, Hsd.
  - rewrite Hrun. unfold inventory_at, session_at. simpl.
    rewrite lookup_alter_eq.
    destruct (alter _ sender (userData st1) !! user) as [d|] eqn:Hd.
    + simpl. by rewrite last_snoc.
    + destruct (decide (sender = user)) as [Heq|Hne].
      * rewrite Heq, lookup_alter_eq, Hrd in Hd. done.
      * rewrite lookup_alter_ne, Hrd in Hd by done. done.
  - unfold entryCardId, js_or. simpl. by destruct (truthy _).
  - rewrite <-He. apply traded_entry_instance.
Qed.

(** ** Randomness only advances the random source *)

Lemma random_below_post (n : Z) (st : State) :
  ∃ i, random_below rnd n st = (i, with_draws (S (draws st)) st).
Proof. eexists. reflexivity. Qed.

Lemma instance_id_loop_post (n : nat) (id : string) (st : State) :
  ∃ id', instance_id_loop rnd n id st = (id', with_draws (n + draws st) st).
Proof.
  revert id st. induction n as [|n IH]; intros id st; cbn [instance_id_loop].
  - exists id. by destruct st.
  - unfold mbind, M_bind.
    destruct (random_below_post (Z.of_nat (String.length chars)) st) as [i ->].
    destruct (IH (append_char id i) (with_draws (S (draws st)) st)) as [id' ->].
    exists id'. f_equal. unfold with_draws. simpl. f_equal. lia.
Qed.

Lemma generateCardInstanceId_post (st : State) :
  ∃ id, generateCardInstanceId rnd st = (id, with_draws (4 + draws st) st).
Proof. apply instance_id_loop_post. Qed.

Lemma random_quality_post (st : State) :
  ∃ q, random_quality rnd st = (q, with_draws (S (draws st)) st).
Proof. eexists. reflexivity. Qed.

(** ** Picks *)

(** The three outcomes of a press on a pick button, on the session of the
    user as it stands after the load. *)
Lemma btn_pick_run (customId user : string) (now : Z) (st : State) :
  let st0 := (getUserData db user st).2 in
  let data := session_at user st0 in
  let index := parseInt (to_string (part (split_on "_" customId) 2)) in
  btn_pick db rnd parseInt customId user now st =
    match pickChoices data with
    | None | Some [] => (NoActivePick, st0)
    | Some choices =>
        match index ≫= at_index choices with
        | None => (InvalidChoice, st0)
        | Some card =>
            let id := (generateCardInstanceId rnd st0).1 in
            (Picked card (random_quality rnd (with_draws (4 + draws st0) st0)).1,
             {| userData :=
                  alter (set_pickChoices (Some []))
                    user (alter (push_entry (camel_entry card now id)) user (userData st0));
                imageCache := imageCache st0;
                combinedImageCache := combinedImageCache st0;
                requests := requests st0 ++
                  [InsertInventory user (JStr (Card.id card)) now (JStr id)];
                fetches := fetches st0; draws := S (4 + draws st0) |})
        end
    end.
Proof.
  intros st0 data index. unfold btn_pick. fold index.
  remember (generateCardInstanceId rnd) as gen eqn:Hgen.
  unfold mbind at 1. unfold M_bind at 1.
  unfold data, session_at, st0.
  destruct (getUserData_post user st) as (d & st' & -> & Hu & _). simpl.
  rewrite Hu. simpl.
  destruct (pickChoices d) as [[|c cs]|]; [done| |done].
  destruct (index ≫= at_index (c :: cs)) as [card|]; [|done].
  unfold mbind at 1. unfold M_bind at 1.
  destruct (generateCardInstanceId_post st') as [id Hid].
  rewrite <-Hgen in Hid. rewrite Hid. simpl.
  unfold addCardToInventory. run. done.
Qed.

Lemma getUserData_loaded (user : string) (st : State) :
  userData (getUserData db user st).2 !! user
    = Some (session_at user (getUserData db user st).2).
Proof.
  unfold session_at.
  destruct (getUserData_post user st) as (d & st' & -> & Hu & _). simpl.
  by rewrite Hu.
Qed.

Lemma at_index_in_bounds {A : Type} (l : list A) (i : Z) :
  0 ≤ i < Z.of_nat (length l) → is_Some (at_index l i).
Proof.
  intros Hi. unfold at_index.
  destruct (Z.ltb_spec i 0); [lia|]. apply lookup_lt_is_Some. lia.
Qed.

Lemma at_index_out_of_bounds {A : Type} (l : list A) (i : Z) :
  i < 0 ∨ Z.of_nat (length l) ≤ i → at_index l i = None.
Proof.
  intros Hi. unfold at_index.
  destruct (Z.ltb_spec i 0); [done|]. apply lookup_ge_None. lia.
Qed.

(** C3. With a pick session open and a slot within its bounds, a press on
    the pick button appends exactly one entry, for the chosen card, to the
    inventory and empties [pickChoices]; a second press, whatever its slot,
    is answered "No active pick session" and changes nothing, so the two
    presses together add exactly one entry. *)
Theorem pick_resolves_exactly_once (customId customId' user : string) (now now' : Z)
    (st : State) (choices : list Card.t) (i : Z) :
  let st0 := (getUserData db user st).2 in
  let first := btn_pick db rnd parseInt customId user now st in
  let second := btn_pick db rnd parseInt customId' user now' first.2 in
  pickChoices (session_at user st0) = Some choices →
  parseInt (to_string (part (split_on "_" customId) 2)) = Some i →
  0 ≤ i < Z.of_nat (length choices) →
  ∃ (card : Card.t) (quality : Z) (instanceId : string),
    at_index choices i = Some card ∧
    first.1 = Picked card quality ∧
    inventory_at user first.2
      = (inventory_at user st0 ++ [camel_entry card now instanceId])%list ∧
    pickChoices (session_at user first.2) = Some [] ∧
    second.1 = NoActivePick ∧
    second.2 = first.2 ∧
    inventory_at user second.2 = inventory_at user first.2 ∧
    length (inventory_at user second.2) = S (length (inventory_at user st0)).
Proof.
  intros st0 first second Hchoices Hparse Hi.
  destruct (at_index_in_bounds choices i Hi) as [card Hcard].
  pose proof (btn_pick_run customId user now st) as Hrun.
  fold st0 first in Hrun. simpl in Hrun.
  rewrite Hchoices, Hparse in Hrun. simpl in Hrun. rewrite Hcard in Hrun.
  destruct choices as [|c cs]; [simpl in Hi; lia|].
  pose proof (getUserData_loaded user st) as Hloaded. fold st0 in Hloaded.
  set (d := session_at user st0) in *.
  assert (userData first.2 !! user =
            Some (set_pickChoices (Some [])
                    (push_entry (camel_entry card now (generateCardInstanceId rnd st0).1) d)))
    as Hafter.
  { rewrite Hrun. simpl. by rewrite !lookup_alter_eq, Hloaded. }
  assert (second = (NoActivePick, first.2)) as Hsecond.
  { unfold second. rewrite btn_pick_run.
    rewrite (getUserData_cached _ _ _ Hafter). simpl.
    unfold session_at. rewrite Hafter. done. }
  exists card, (random_quality rnd (with_draws (4 + draws st0) st0)).1,
    (generateCardInstanceId rnd st0).1.
  assert (inventory_at user first.2
          = (inventory_at user st0 ++
               [camel_entry card now (generateCardInstanceId rnd st0).1])%list) as Hinv.
  { unfold inventory_at at 1. unfold session_at. rewrite Hafter. done. }
  split_and!; try done.
  - by rewrite Hrun.
  - unfold session_at. by rewrite Hafter.
  - by rewrite Hsecond.
  - by rewrite Hsecond.
  - by rewrite Hsecond.
  - rewrite Hsecond. simpl. rewrite Hinv, length_app. simpl. lia.
Qed.

(** C10. With a pick session open, a press whose slot has no choice (not a
    number, negative, or past the end) is answered "Invalid choice" and
    leaves the inventory and [pickChoices] as they were; the session stays
    open, and a later press on a slot that holds a card picks that card. *)
Theorem pick_invalid_slot_keeps_session (customId customId' user : string) (now now' : Z)
    (st : State) (choices : list Card.t) :
  let st0 := (getUserData db user st).2 in
  let index := parseInt (to_string (part (split_on "_" customId) 2)) in
  let index' := parseInt (to_string (part (split_on "_" customId') 2)) in
  let first := btn_pick db rnd parseInt customId user now st in
  let second := btn_pick db rnd parseInt customId' user now' first.2 in
  pickChoices (session_at user st0) = Some choices →
  choices ≠ [] →
  (∀ i, index = Some i → i < 0 ∨ Z.of_nat (length choices) ≤ i) →
  first.1 = InvalidChoice ∧
  first.2 = st0 ∧
  inventory_at user first.2 = inventory_at user st0 ∧
  pickChoices (session_at user first.2) = Some choices ∧
  (∀ i' card, index' = Some i' → at_index choices i' = Some card →
     ∃ quality instanceId,
       second.1 = Picked card quality ∧
       inventory_at user second.2
         = (inventory_at user st0 ++ [camel_entry card now' instanceId])%list).
Proof.
  intros st0 index index' first second Hchoices Hne Hout.
  pose proof (btn_pick_run customId user now st) as Hrun.
  fold st0 first index in Hrun. simpl in Hrun.
  rewrite Hchoices in Hrun.
  assert (index ≫= at_index choices = None) as Hnone.
  { destruct index as [i|]; [|done]. simpl. apply at_index_out_of_bounds. eauto. }
  rewrite Hnone in Hrun.
  destruct choices as [|c cs]; [done|].
  pose proof (getUserData_loaded user st) as Hloaded. fold st0 in Hloaded.
  split_and!; try by rewrite Hrun.
  intros i' card Hi' Hcard.
  unfold second. rewrite btn_pick_run. rewrite Hrun. simpl.
  rewrite (getUserData_cached _ _ _ Hloaded). simpl.
  rewrite Hchoices. fold index'. rewrite Hi'. simpl. rewrite Hcard.
  eexists _, _. split; [reflexivity|].
  unfold inventory_at at 1. unfold session_at at 1. simpl.
  rewrite !lookup_alter_eq, Hloaded. done.
Qed.

(** ** The image caches *)

Lemma fetchAndCacheImage_seen_combined (seen : gmap string Image) (url : string) (st : State) :
  combinedImageCache (fetchAndCacheImage_seen net seen url st).2 = combinedImageCache st.
Proof.
  unfold fetchAndCacheImage_seen.
  destruct (seen !! url); [done|].
  unfold mbind, M_bind, network_get. simpl.
  by destruct (net (length (fetches st)) url).
Qed.

(** A composite that is in the cache is returned as it is: no download, no
    drawing, no change of state. *)
Lemma combineCardImages_hit (card1Url card2Url card3Url : string) (st : State) (buffer : Buffer) :
  combinedImageCache st !! (card1Url +:+ "|" +:+ card2Url +:+ "|" +:+ card3Url)
    = Some buffer →
  combineCardImages net canvas card1Url card2Url card3Url st = (Some buffer, st).
Proof. intros H. unfold combineCardImages. by rewrite H. Qed.

(** A call that returns bytes leaves them in the cache under the key of the
    three URLs. *)
Lemma combineCardImages_caches (card1Url card2Url card3Url : string) (st : State) (buffer : Buffer) :
  (combineCardImages net canvas card1Url card2Url card3Url st).1 = Some buffer →
  combinedImageCache (combineCardImages net canvas card1Url card2Url card3Url st).2
    !! (card1Url +:+ "|" +:+ card2Url +:+ "|" +:+ card3Url) = Some buffer.
Proof.
  unfold combineCardImages.
  destruct (combinedImageCache st !! _) as [b|] eqn:Hhit; simpl.
  - by intros [= <-].
  - unfold mbind, M_bind.
    destruct (fetchAndCacheImage_seen net (imageCache st) card1Url st) as [[img1|] st1];
      destruct (fetchAndCacheImage_seen net (imageCache st) card2Url st1) as [[img2|] st2];
      destruct (fetchAndCacheImage_seen net (imageCache st) card3Url st2) as [[img3|] st3];
      simpl; try discriminate.
    intros [= <-]. by rewrite lookup_insert_eq.
Qed.

(** A download that succeeded is in the cache under its URL: asking for the
    same URL again starts no download. *)
Lemma fetchAndCacheImage_second_call (url : string) (st : State) (image : Image) :
  let first := fetchAndCacheImage net url st in
  first.1 = Some image →
  fetchAndCacheImage net url first.2 = (Some image, first.2).
Proof.
  unfold fetchAndCacheImage, fetchAndCacheImage_seen.
  destruct (imageCache st !! url) as [img|] eqn:Hc; simpl.
  - intros [= <-]. by rewrite Hc.
  - unfold mbind, M_bind, network_get. simpl.
    destruct (net (length (fetches st)) url) as [img|]; simpl; [|done].
    intros [= <-]. by rewrite lookup_insert_eq.
Qed.

(** A composite, once cached, is never replaced by a later call. *)
Lemma combineCardImages_keeps (card1Url card2Url card3Url key : string) (st : State)
    (buffer : Buffer) :
  combinedImageCache st !! key = Some buffer →
  combinedImageCache (combineCardImages net canvas card1Url card2Url card3Url st).2 !! key
    = Some buffer.
Proof.
  intros Hkey. unfold combineCardImages.
  destruct (combinedImageCache st !! (card1Url +:+ _)) as [b|] eqn:Hhit; simpl; [done|].
  unfold mbind, M_bind.
  pose proof (fetchAndCacheImage_seen_combined (imageCache st) card1Url st) as H1.
  destruct (fetchAndCacheImage_seen net (imageCache st) card1Url st) as [r1 st1].
  pose proof (fetchAndCacheImage_seen_combined (imageCache st) card2Url st1) as H2.
  destruct (fetchAndCacheImage_seen net (imageCache st) card2Url st1) as [r2 st2].
  pose proof (fetchAndCacheImage_seen_combined (imageCache st) card3Url st2) as H3.
  destruct (fetchAndCacheImage_seen net (imageCache st) card3Url st2) as [r3 st3].
  simpl in *.
  assert (combinedImageCache st3 = combinedImageCache st) as Hsame by congruence.
  destruct r1, r2, r3; simpl; rewrite ?Hsame; try done.
  rewrite lookup_insert_ne; [done|]. intros <-. congruence.
Qed.

(** C7. When a call of [combineCardImages] has returned bytes, a second call
    with the same three URLs, in the same order, returns those same bytes
    from the composite cache, which holds them under the key of the three
    URLs; it starts no download and leaves the state as it is.  Likewise a
    URL that has been downloaded once is served from the image cache. *)
Theorem combineCardImages_second_call_cached (card1Url card2Url card3Url : string)
    (st : State) (buffer : Buffer) :
  let first := combineCardImages net canvas card1Url card2Url card3Url st in
  let second := combineCardImages net canvas card1Url card2Url card3Url first.2 in
  first.1 = Some buffer →
  combinedImageCache first.2 !! (card1Url +:+ "|" +:+ card2Url +:+ "|" +:+ card3Url)
    = Some buffer ∧
  second.1 = Some buffer ∧
  fetches second.2 = fetches first.2 ∧
  second.2 = first.2 ∧
  (∀ url st0 image,
     (fetchAndCacheImage net url st0).1 = Some image →
     fetchAndCacheImage net url (fetchAndCacheImage net url st0).2
       = (Some image, (fetchAndCacheImage net url st0).2)).
Proof.
  intros first second Hfirst.
  apply combineCardImages_caches in Hfirst. fold first in Hfirst.
  unfold second. rewrite (combineCardImages_hit _ _ _ _ _ Hfirst).
  split_and!; try done.
  intros url st0 image. apply fetchAndCacheImage_second_call.
Qed.

(** ** Loading a session when the durable store fails *)

(** C6, as amended. On a cache miss [getUserData] never propagates a
    failure: it always returns a session and caches it.  That session is the
    default one (empty inventory, the three cooldown timestamps at zero) when
    a read rejects, when the user has no [users] row and the insert of one
    rejects, when both reads come back without data, and for a user with no
    row in either table.  Otherwise the two reads degrade separately.  With
    both reads answered, the session holds the rows of the [inventory] read
    and the timestamps of the [users] row, a null column counting as zero.
    When only the [inventory] read returns an error, the inventory is empty
    and the timestamps are still those of the [users] row.  When only the
    [users] read returns an error, "no row" included, and the insert does
    not reject, the timestamps are zero and the inventory still holds the
    rows of the [inventory] read. *)
Theorem getUserData_degrades_per_read (userId : string) (st : State) :
  let d := db userId in
  let s := (getUserData db userId st).1 in
  userData st !! userId = None →
  userData (getUserData db userId st).2 !! userId = Some s ∧
  (users_single d = Throws ∨ inventory_select d = Throws ∨
   (resp_data (users_single d) = None ∧ users_insert_rejects d = true) →
     s = default_session) ∧
  (resp_data (users_single d) = None → resp_data (inventory_select d) = None →
     s = default_session) ∧
  (resp_data (users_single d) = None →
     lastDraw s = 0 ∧ lastPack s = 0 ∧ lastPick s = 0) ∧
  (resp_data (inventory_select d) = None → inventory s = []) ∧
  (users_single d = Err "PGRST116" → inventory_select d = Data [] →
     s = default_session) ∧
  (∀ u rows, users_single d = Data u → inventory_select d = Data rows →
     s = {| inventory := List.map entry_of_row rows;
            lastDraw := default 0 (UserRow.last_draw u);
            lastPack := default 0 (UserRow.last_pack u);
            lastPick := default 0 (UserRow.last_pick u);
            pickChoices := Some [] |}) ∧
  (∀ u code, users_single d = Data u → inventory_select d = Err code →
     s = {| inventory := [];
            lastDraw := default 0 (UserRow.last_draw u);
            lastPack := default 0 (UserRow.last_pack u);
            lastPick := default 0 (UserRow.last_pick u);
            pickChoices := Some [] |}) ∧
  (∀ code rows, users_single d = Err code → inventory_select d = Data rows →
     users_insert_rejects d = false →
     s = {| inventory := List.map entry_of_row rows;
            lastDraw := 0; lastPack := 0; lastPick := 0;
            pickChoices := Some [] |}).
Proof.
  intros d s Hmiss. split.
  - unfold s. destruct (getUserData_post userId st) as (s' & st' & -> & Hu & _). done.
  - unfold s, getUserData, getUserData_fallback. run. rewrite Hmiss. fold d.
    destruct (users_single d) as [u|code|] eqn:Hu;
      destruct (inventory_select d) as [rows|code'|] eqn:Hi;
      destruct (users_insert_rejects d) eqn:Hins; simpl;
      split_and!; try done;
      try (intros [?|[?|[? ?]]]; discriminate);
      try (intros; discriminate);
      try (by intros _ [= ->]);
      try (by intros ? ? [= <-] [= <-]);
      try (by intros ? ? [= <-] _);
      try (by intros ? ? _ [= <-] _).
Qed.

(** ** Trash *)

Lemma cmd_trash_run (user : string) (now index : Z) (st : State) :
  let st0 := (getUserData db user st).2 in
  let data := session_at user st0 in
  cmd_trash cards db user now index st =
    if (index <? 0) || (Z.of_nat (length (inventory data)) <=? index)
    then (InvalidIndex, st0)
    else
      match inventory data !! Z.to_nat index with
      | None => (Uncaught "TypeError: removed is undefined", st0)
      | Some removed =>
          (Trashed (card_name (cards_find cards (cardId removed))) index,
           {| userData :=
                alter (set_inventory (splice1 (Z.to_nat index) (inventory data)))
                  user (userData st0);
              imageCache := imageCache st0;
              combinedImageCache := combinedImageCache st0;
              requests := requests st0 ++
                [DeleteByCardAndTime user (cardId removed) (obtainedAt removed)];
              fetches := fetches st0; draws := draws st0 |})
      end.
Proof.
  intros st0 data. unfold cmd_trash, data, session_at, st0.
  unfold mbind at 1. unfold M_bind at 1.
  destruct (getUserData_post user st) as (d & st' & -> & Hu & _). simpl.
  rewrite Hu. simpl.
  destruct ((index <? 0) || (Z.of_nat (length (inventory d)) <=? index)); [done|].
  destruct (inventory d !! Z.to_nat index); [|done].
  run. done.
Qed.

(** The part of the trash command that lives in memory: the index is refused
    exactly when it is outside [0, length), and then nothing changes;
    otherwise exactly the entry at that position leaves the inventory, and
    the one request sent to the store filters on the user and on the
    [cardId] and [obtainedAt] properties of that entry. *)
Lemma cmd_trash_in_memory (user : string) (now index : Z) (st : State) :
  let st0 := (getUserData db user st).2 in
  let inv := inventory_at user st0 in
  let result := cmd_trash cards db user now index st in
  (result.1 = InvalidIndex ↔ index < 0 ∨ Z.of_nat (length inv) ≤ index) ∧
  (result.1 = InvalidIndex → result.2 = st0) ∧
  (0 ≤ index < Z.of_nat (length inv) →
     ∃ removed,
       inv !! Z.to_nat index = Some removed ∧
       inventory_at user result.2
         = (take (Z.to_nat index) inv ++ drop (S (Z.to_nat index)) inv)%list ∧
       requests result.2 = (requests st0 ++
         [DeleteByCardAndTime user (cardId removed) (obtainedAt removed)])%list).
Proof.
  intros st0 inv result.
  pose proof (cmd_trash_run user now index st) as Hrun.
  fold st0 result in Hrun. simpl in Hrun. fold (inventory_at user st0) in Hrun.
  fold inv in Hrun.
  pose proof (getUserData_loaded user st) as Hloaded. fold st0 in Hloaded.
  destruct (Z.ltb_spec index 0) as [Hneg|Hpos]; simpl in Hrun.
  { rewrite Hrun. simpl. split_and!; [split; [lia|done]|done|lia]. }
  destruct (Z.leb_spec (Z.of_nat (length inv)) index) as [Hbig|Hin].
  { rewrite Hrun. simpl. split_and!; [split; [lia|done]|done|lia]. }
  destruct (lookup_lt_is_Some_2 inv (Z.to_nat index) ltac:(lia)) as [removed Hrem].
  rewrite Hrem in Hrun. rewrite Hrun. simpl.
  split_and!; [split; [done|lia]|done|].
  intros _. exists removed. split_and!; [done| |done].
  unfold inventory_at at 1. unfold session_at at 1. simpl.
  rewrite lookup_alter_eq, Hloaded. simpl.
  unfold splice1. apply delete_take_drop.
Qed.

(** ** The gate inside the slash commands *)

#[local] Arguments gate : simpl never.
#[local] Arguments pack_loop : simpl never.
#[local] Arguments choices_loop : simpl never.
#[local] Arguments combineCardImages : simpl never.

Ltac step_monad :=
  repeat (unfold mbind at 1; unfold M_bind at 1;
          match goal with
          | |- context [let '(_, _) := ?m in _] =>
              let a := fresh "a" in let st := fresh "st" in
              destruct m as [a st]; try destruct a
          end; simpl).

(** Enter a handler: run its load and name the session it works on. *)
Ltac enter_handler user st Hg :=
  unfold mbind at 1; unfold M_bind at 1;
  unfold session_at in Hg;
  let d := fresh "d" in let st' := fresh "st'" in
  let Heq := fresh "Heq" in let Hu := fresh "Hu" in
  destruct (getUserData_post user st) as (d & st' & Heq & Hu & _);
  rewrite Heq in *; simpl in Hg; rewrite Hu in Hg; simpl in Hg; simpl.

Lemma cmd_draw_gate (user : string) (now : Z) (st : State) :
  let st0 := (getUserData db user st).2 in
  let data := session_at user st0 in
  let result := cmd_draw TEST_MODE cards db rnd user now st in
  cards ≠ [] →
  (∀ r, gate TEST_MODE Draw data now = Some r → result = (OnCooldown Draw r, st0)) ∧
  (gate TEST_MODE Draw data now = None → ∀ a r, result.1 ≠ OnCooldown a r).
Proof.
  intros st0 data result Hcards.
  split; [intros r Hg|intros Hg a r];
    unfold result, cmd_draw, data, st0 in *; enter_handler user st Hg;
    rewrite bool_decide_eq_false_2 by done; rewrite Hg; [done|].
  step_monad; done.
Qed.

Lemma cmd_pack_gate (user : string) (now : Z) (st : State) :
  let st0 := (getUserData db user st).2 in
  let data := session_at user st0 in
  let result := cmd_pack TEST_MODE cards db rnd user now st in
  cards ≠ [] →
  (∀ r, gate TEST_MODE Pack data now = Some r → result = (OnCooldown Pack r, st0)) ∧
  (gate TEST_MODE Pack data now = None → ∀ a r, result.1 ≠ OnCooldown a r).
Proof.
  intros st0 data result Hcards.
  split; [intros r Hg|intros Hg a r];
    unfold result, cmd_pack, data, st0 in *; enter_handler user st Hg;
    rewrite bool_decide_eq_false_2 by done; rewrite Hg; [done|].
  unfold mbind at 1. unfold M_bind at 1.
  match goal with
  | |- context [pack_loop ?c ?r ?m ?u ?t ?n ?p ?s] =>
      destruct (pack_loop c r m u t n p s) as [pulled st2]
  end.
  run. by destruct (bool_decide (pulled = [])).
Qed.


(** ** The identifiers of the trade buttons *)

Lemma split_on_free (sep : ascii) (a : string) :
  has_char sep a = false → split_on sep a = [a].
Proof.
  induction a as [|c a IH]; simpl; [done|].
  intros H. apply orb_false_iff in H as [Hc Ha].
  rewrite Hc, (IH Ha). done.
Qed.

Lemma split_on_app (sep : ascii) (a b : string) :
  has_char sep a = false →
  split_on sep (a +:+ String sep b) = a :: split_on sep b.
Proof.
  induction a as [|c a IH]; simpl.
  - intros _. by rewrite Ascii.eqb_refl.
  - intros H. apply orb_false_iff in H as [Hc Ha].
    rewrite Hc, (IH Ha). done.
Qed.

(** The identifiers that [/trade] puts on its two buttons split back into
    the action, the sender, the receiver and the instance id, as long as
    none of the three contains an underscore (Discord ids are digits,
    generated instance ids are letters and digits). *)
Lemma trade_identifier_parts (action user targetUser instanceId : string) :
  has_char "_" action = false →
  has_char "_" user = false →
  has_char "_" targetUser = false →
  has_char "_" instanceId = false →
  split_on "_" ("trade_" +:+ action +:+ "_" +:+ user +:+ "_" +:+ targetUser
                  +:+ "_" +:+ instanceId)
    = ["trade"; action; user; targetUser; instanceId].
Proof.
  intros Ha Hu Ht Hi.
  change ("trade_" +:+ ?x) with ("trade" +:+ String "_" x).
  rewrite split_on_app by done.
  change (action +:+ "_" +:+ ?x) with (action +:+ String "_" x).
  rewrite split_on_app by done.
  change (user +:+ "_" +:+ ?x) with (user +:+ String "_" x).
  rewrite split_on_app by done.
  change (targetUser +:+ "_" +:+ ?x) with (targetUser +:+ String "_" x).
  rewrite split_on_app by done.
  by rewrite split_on_free.
Qed.

(** [/trade] proposes only a card that the sender holds, and never to the
    sender; the two identifiers it builds name the sender, the receiver and
    the instance id. *)
Lemma cmd_trade_proposes (user targetUser instanceId acceptId declineId cardName : string)
    (targetIsBot : bool) (now : Z) (st : State) :
  let st0 := (getUserData db user st).2 in
  let result := cmd_trade cards db user now instanceId targetUser targetIsBot st in
  result.1 = TradeProposed acceptId declineId cardName →
  result.2 = st0 ∧ targetUser ≠ user ∧
  count_instance (JStr instanceId) (inventory_at user st0) ≠ 0%nat ∧
  acceptId = "trade_accept_" +:+ user +:+ "_" +:+ targetUser +:+ "_" +:+ instanceId ∧
  declineId = "trade_decline_" +:+ user +:+ "_" +:+ targetUser +:+ "_" +:+ instanceId.
Proof.
  intros st0 result Hreply.
  destruct result as [reply st2] eqn:Hres. simpl in Hreply. subst reply.
  unfold result, cmd_trade in Hres.
  unfold mbind at 1 in Hres. unfold M_bind at 1 in Hres.
  unfold inventory_at, session_at, st0.
  destruct (getUserData_post user st) as (d & st' & Heq & Hu & _).
  rewrite Heq in *. simpl. rewrite Hu. simpl.
  destruct (bool_decide_reflect (targetUser = user)); [done|].
  destruct targetIsBot; [done|].
  destruct (findIndex _ (inventory d)) as [i|] eqn:Hfind; [|done].
  injection Hres as <- <- _ <-. split_and!; try done.
  intros Hzero. apply findIndex_instance_None in Hzero. congruence.
Qed.

End Properties.

(** * The properties on the example world *)

(** The product is rounded before the floor: the exact quotients of these
    three are 8, 33 and 1. *)
Example double_round_examples :
  double_round (8106479329266892 * 10) / 2 ^ 53 = 9 ∧
  double_round (8506799296144270 * 36) / 2 ^ 53 = 34 ∧
  double_round (6004799503160661 * 3) / 2 ^ 53 = 2 ∧
  (8106479329266892 * 10) / 2 ^ 53 = 8 ∧
  (8506799296144270 * 36) / 2 ^ 53 = 33 ∧
  (6004799503160661 * 3) / 2 ^ 53 = 1.
Proof. vm_compute. done. Qed.

Example msToNice_examples :
  msToNice 0 = "0s" ∧ msToNice 1 = "1s" ∧ msToNice 59001 = "1m 0s" ∧
  msToNice 61500 = "1m 2s" ∧ msToNice 900000 = "15m 0s".
Proof. vm_compute. done. Qed.

Lemma msToNice_rounds_up_and_formats_witness :
  0 ≤ 61500 ∧
  ∃ t : Z,
    (1000 * (t - 1) < 61500 ≤ 1000 * t) ∧
    msToNice 61500 =
      if 60 <=? t
      then pretty (t / 60) +:+ "m " +:+ pretty (t mod 60) +:+ "s"
      else pretty t +:+ "s".
Proof.
  split; [lia|]. apply (msToNice_rounds_up_and_formats 61500). lia.
Defined.


Lemma trade_accept_conserves_instance_witness :
  let customId := "trade_accept_alice_bob_po1a2b" in
  let st1 := after_loads example_db "bob" "alice" empty_state in
  let result := btn_trade example_cards example_db customId "bob" 5000 empty_state in
  part (split_on "_" customId) 3 = JStr "bob" ∧
  part (split_on "_" customId) 1 ≠ JStr "decline" ∧
  count_instance (JStr "po1a2b") (inventory_at "alice" st1) = 1%nat ∧
  count_instance (JStr "po1a2b") (inventory_at "bob" st1) = 0%nat ∧
  (length (inventory_at "alice" result.2) + 1 = length (inventory_at "alice" st1))%nat ∧
  (length (inventory_at "bob" result.2) = length (inventory_at "bob" st1) + 1)%nat ∧
  (count_instance (JStr "po1a2b") (inventory_at "alice" result.2)
     + count_instance (JStr "po1a2b") (inventory_at "bob" result.2) = 1)%nat.
Proof.
  intros customId st1 result.
  assert (part (split_on "_" customId) 3 = JStr "bob") as Hrecv by reflexivity.
  assert (part (split_on "_" customId) 1 ≠ JStr "decline") as Hacc by discriminate.
  assert (count_instance (JStr "po1a2b") (inventory_at "alice" st1) = 1%nat) as Hone
    by (vm_compute; reflexivity).
  assert (count_instance (JStr "po1a2b") (inventory_at "bob" st1) = 0%nat) as Hnone
    by (vm_compute; reflexivity).
  destruct (trade_accept_conserves_instance example_cards example_db
              customId "bob" 5000 empty_state Hrecv Hacc) as [_ Hok].
  destruct (Hok Hone Hnone) as (_ & Hs & Hr & _ & Hc).
  split_and!; assumption.
Defined.

Lemma trade_button_only_for_receiver_witness :
  let customId := "trade_accept_alice_bob_po1a2b" in
  let result := on_button false example_cards example_db example_rnd example_parseInt
                  customId "alice" 5000 empty_state in
  String.prefix "trade_accept_" customId || String.prefix "trade_decline_" customId = true ∧
  part (split_on "_" customId) 3 ≠ JStr "alice" ∧
  result.1 = TradeNotForYou ∧
  result.2 = (getUserData example_db "alice" empty_state).2.
Proof.
  intros customId result.
  assert (String.prefix "trade_accept_" customId
          || String.prefix "trade_decline_" customId = true) as Hp by reflexivity.
  assert (part (split_on "_" customId) 3 ≠ JStr "alice") as Hne by discriminate.
  destruct (trade_button_only_for_receiver false example_cards example_db example_rnd
              example_parseInt customId "alice" 5000 empty_state Hp Hne)
    as (Hreply & Hstate & _).
  split_and!; assumption.
Defined.

Lemma trade_accept_receiver_entry_witness :
  let customId := "trade_accept_alice_bob_po1a2b" in
  let result := btn_trade example_cards example_db customId "bob" 5000 empty_state in
  result.1 = TradeCompleted (JStr "alice") "Pikachu" (JStr "po1a2b") (JStr "bob") ∧
  ∃ new : Entry,
    last (inventory_at "bob" result.2) = Some new ∧
    card_id new = JStr "pikachu" ∧ instance_id new = JStr "po1a2b" ∧
    obtained_at new = JNum 5000.
Proof.
  intros customId result.
  assert (result.1 = TradeCompleted (JStr "alice") "Pikachu" (JStr "po1a2b") (JStr "bob"))
    as Hdone by (vm_compute; reflexivity).
  split; [exact Hdone|].
  destruct (trade_accept_receiver_entry example_cards example_db customId "bob" 5000
              empty_state _ _ _ _ Hdone)
    as (i & removed & new & _ & _ & Hrem & _ & _ & Hlast & Hcid & _ & _ & Hiid & _ & Hat & _).
  exists new. split_and!; try assumption.
  rewrite Hcid.
  assert (inventory_at "alice" (after_loads example_db "bob" "alice" empty_state)
          = [entry_of_row example_row]) as Hinv by (vm_compute; reflexivity).
  change (to_string (part (split_on "_" customId) 2)) with "alice" in Hrem.
  rewrite Hinv in Hrem.
  destruct i as [|i]; simpl in Hrem; [|by destruct i].
  injection Hrem as <-. reflexivity.
Defined.

Lemma pick_resolves_exactly_once_witness :
  let first := btn_pick example_db example_rnd example_parseInt "btn_pick_1" "bob" 7000
                 example_picking in
  let second := btn_pick example_db example_rnd example_parseInt "btn_pick_1" "bob" 7001
                  first.2 in
  pickChoices (session_at "bob" (getUserData example_db "bob" example_picking).2)
    = Some [pikachu; onix; eevee] ∧
  example_parseInt (to_string (part (split_on "_" "btn_pick_1") 2)) = Some 1 ∧
  (∃ quality, first.1 = Picked onix quality) ∧
  second.1 = NoActivePick ∧
  length (inventory_at "bob" second.2) = 1%nat.
Proof.
  intros first second.
  assert (pickChoices (session_at "bob" (getUserData example_db "bob" example_picking).2)
          = Some [pikachu; onix; eevee]) as Hchoices by (vm_compute; reflexivity).
  assert (example_parseInt (to_string (part (split_on "_" "btn_pick_1") 2)) = Some 1)
    as Hparse by reflexivity.
  destruct (pick_resolves_exactly_once example_db example_rnd example_parseInt
              "btn_pick_1" "btn_pick_1" "bob" 7000 7001 example_picking
              [pikachu; onix; eevee] 1 Hchoices Hparse ltac:(simpl; lia))
    as (card & quality & iid & Hcard & Hfirst & _ & _ & Hsecond & _ & _ & Hlen).
  injection Hcard as <-.
  split_and!; [exact Hchoices|exact Hparse|eauto|exact Hsecond|exact Hlen].
Defined.

Lemma pick_invalid_slot_keeps_session_witness :
  let first := btn_pick example_db example_rnd example_parseInt "btn_pick_7" "bob" 7000
                 example_picking in
  pickChoices (session_at "bob" (getUserData example_db "bob" example_picking).2)
    = Some [pikachu; onix; eevee] ∧
  first.1 = InvalidChoice ∧
  inventory_at "bob" first.2 = [] ∧
  pickChoices (session_at "bob" first.2) = Some [pikachu; onix; eevee].
Proof.
  intros first.
  assert (pickChoices (session_at "bob" (getUserData example_db "bob" example_picking).2)
          = Some [pikachu; onix; eevee]) as Hchoices by (vm_compute; reflexivity).
  assert (∀ i, example_parseInt (to_string (part (split_on "_" "btn_pick_7") 2)) = Some i →
               i < 0 ∨ Z.of_nat (length [pikachu; onix; eevee]) ≤ i) as Hout.
  { intros i [= <-]. right. simpl. lia. }
  destruct (pick_invalid_slot_keeps_session example_db example_rnd example_parseInt
              "btn_pick_7" "btn_pick_0" "bob" 7000 7001 example_picking
              [pikachu; onix; eevee] Hchoices ltac:(discriminate) Hout)
    as (Hreply & _ & Hinv & Hpick & _).
  split_and!; [exact Hchoices|exact Hreply|exact Hinv|exact Hpick].
Defined.

Lemma getUserData_degrades_per_read_witness :
  userData empty_state !! "dave" = None ∧
  inventory_select (example_db "dave") = Err "57014" ∧
  (getUserData example_db "dave" empty_state).1
    = {| inventory := []; lastDraw := 1700000000000; lastPack := 0; lastPick := 0;
         pickChoices := Some [] |} ∧
  userData empty_state !! "erin" = None ∧
  users_single (example_db "erin") = Err "PGRST301" ∧
  (getUserData example_db "erin" empty_state).1
    = {| inventory := [entry_of_row
                         (InventoryRow.mk "erin" (JStr "onix") (JNum 2000) (JStr "po9z9z"))];
         lastDraw := 0; lastPack := 0; lastPick := 0; pickChoices := Some [] |} ∧
  userData empty_state !! "gina" = None ∧
  resp_data (users_single (example_db_insert_rejects "gina")) = None ∧
  users_insert_rejects (example_db_insert_rejects "gina") = true ∧
  (getUserData example_db_insert_rejects "gina" empty_state).1 = default_session.
Proof.
  assert (userData empty_state !! "dave" = None) as Hdave by reflexivity.
  assert (userData empty_state !! "erin" = None) as Herin by reflexivity.
  assert (userData empty_state !! "gina" = None) as Hgina by reflexivity.
  destruct (getUserData_degrades_per_read example_db "dave" empty_state Hdave)
    as (_ & _ & _ & _ & _ & _ & _ & Hinv & _).
  destruct (getUserData_degrades_per_read example_db "erin" empty_state Herin)
    as (_ & _ & _ & _ & _ & _ & _ & _ & Husers).
  destruct (getUserData_degrades_per_read example_db_insert_rejects "gina" empty_state
              Hgina) as (_ & Hcatch & _).
  split_and!;
    [exact Hdave|reflexivity|exact (Hinv _ _ eq_refl eq_refl)
    |exact Herin|reflexivity|exact (Husers _ _ eq_refl eq_refl eq_refl)
    |exact Hgina|reflexivity|reflexivity|].
  apply Hcatch. right. right. split; reflexivity.
Defined.

(** C6 as the specification words it fails when only one of the two reads
    fails:
    dave's [inventory] read fails and his session keeps the draw timestamp of
    his [users] row; erin's [users] read fails and her session keeps the
    rows of her inventory. *)
Lemma getUserData_one_failed_read_is_not_default :
  (userData empty_state !! "dave" = None ∧
   inventory_select (example_db "dave") = Err "57014" ∧
   lastDraw (getUserData example_db "dave" empty_state).1 = 1700000000000 ∧
   (getUserData example_db "dave" empty_state).1 ≠ default_session) ∧
  (userData empty_state !! "erin" = None ∧
   users_single (example_db "erin") = Err "PGRST301" ∧
   inventory (getUserData example_db "erin" empty_state).1
     = [entry_of_row (InventoryRow.mk "erin" (JStr "onix") (JNum 2000) (JStr "po9z9z"))] ∧
   (getUserData example_db "erin" empty_state).1 ≠ default_session).
Proof.
  split; split_and!; try reflexivity; vm_compute; discriminate.
Qed.

Lemma combineCardImages_second_call_cached_witness :
  let u1 := Card.imageUrl pikachu in
  let u2 := Card.imageUrl onix in
  let u3 := Card.imageUrl eevee in
  let first := combineCardImages example_net example_canvas u1 u2 u3 empty_state in
  let second := combineCardImages example_net example_canvas u1 u2 u3 first.2 in
  first.1 = Some [Byte.x89; Byte.x50; Byte.x89; Byte.x50; Byte.x89; Byte.x50] ∧
  fetches first.2 = [u1; u2; u3] ∧
  second.1 = Some [Byte.x89; Byte.x50; Byte.x89; Byte.x50; Byte.x89; Byte.x50] ∧
  fetches second.2 = [u1; u2; u3].
Proof.
  intros u1 u2 u3 first second.
  assert (first.1 = Some [Byte.x89; Byte.x50; Byte.x89; Byte.x50; Byte.x89; Byte.x50])
    as Hfirst by (vm_compute; reflexivity).
  assert (fetches first.2 = [u1; u2; u3]) as Hfetch by (vm_compute; reflexivity).
  destruct (combineCardImages_second_call_cached example_net example_canvas u1 u2 u3
              empty_state _ Hfirst) as (_ & Hsecond & Hsame & _).
  split_and!; [exact Hfirst|exact Hfetch|exact Hsecond|].
  fold first second in Hsame. rewrite Hsame. exact Hfetch.
Defined.

(** C4 at a card that came back from the durable store.  Alice's one card is
    the row (alice, pikachu, 1000, po1a2b).  [/trash 0] takes it out of her
    in-memory inventory, finds no name for it, and sends a delete filtered on
    [card_id = undefined] and [obtained_at = undefined]: the row stays in
    the store. *)
Theorem trash_of_stored_row_filters_on_undefined :
  let st0 := (getUserData example_db "alice" empty_state).2 in
  let result := cmd_trash example_cards example_db "alice" 9000 0 empty_state in
  inventory_at "alice" st0 = [entry_of_row example_row] ∧
  entryCardId (entry_of_row example_row) = JStr "pikachu" ∧
  obtained_at (entry_of_row example_row) = JNum 1000 ∧
  result.1 = Trashed "Unknown" 0 ∧
  inventory_at "alice" result.2 = [] ∧
  requests result.2 = [DeleteByCardAndTime "alice" JUndef JUndef].
Proof. vm_compute. done. Qed.

(** * Further properties of the code *)

Section MoreProperties.

#[local] Set Default Proof Using "Type".

Variable TEST_MODE : bool.
Variable cards : list Card.t.
Variable db : string → Durable.
Variable rnd : nat → Z.
Variable net : nat → string → option Image.
Variable canvas : Image → Image → Image → Buffer.
Variable parseInt : string → option Z.

(** ** The random source *)

(** Rounding the product to a double never carries it up to [n]: the
    product stays at least [n / 2^53] below [n], and where that is no more
    than half a unit in the last place the product is already at least [n]. *)
Lemma double_round_below (m n : Z) :
  0 ≤ m < 2 ^ 53 → 0 < n → 0 ≤ double_round (m * n) < n * 2 ^ 53.
Proof.
  clear TEST_MODE cards db rnd net canvas parseInt.
  intros Hm Hn. unfold double_round.
  assert (0 ≤ m * n) as Hp0 by nia.
  assert (m * n + n ≤ n * 2 ^ 53) as Hgap by nia.
  set (p := m * n) in *.
  destruct (Z.ltb_spec p (2 ^ 53)) as [Hsmall|Hbig]; [nia|].
  assert (0 < p) as Hpos by lia.
  destruct (Z.log2_spec p Hpos) as [Hlow Hhigh].
  assert (53 ≤ Z.log2 p) as Hlog.
  { apply Z.log2_le_pow2; [done|]. lia. }
  set (e := Z.log2 p - 52) in *.
  assert (Z.log2 p = e + 52) as Hl by (unfold e; lia).
  assert (1 ≤ e) as He by lia.
  rewrite Hl in Hlow.
  assert (2 ^ (e + 52) = 2 ^ (e - 1) * 2 ^ 53) as Hsplit.
  { rewrite <-Z.pow_add_r by lia. f_equal. lia. }
  assert (2 ^ e = 2 * 2 ^ (e - 1)) as Hdouble.
  { rewrite <-(Z.pow_succ_r 2 (e - 1)) by lia. f_equal. lia. }
  assert (0 < 2 ^ (e - 1)) as Hhalf by (apply Z.pow_pos_nonneg; lia).
  set (half := 2 ^ (e - 1)) in *.
  assert (0 < 2 ^ e) as He2 by lia.
  pose proof (Z.div_mod p (2 ^ e) ltac:(lia)) as Hdiv.
  pose proof (Z.mod_pos_bound p (2 ^ e) He2) as Hrem.
  assert (0 ≤ p / 2 ^ e) as Hq by (apply Z.div_pos; lia).
  set (q := p / 2 ^ e) in *. set (r := p mod 2 ^ e) in *.
  assert (q * 2 ^ e = p - r) as Hdown by lia.
  assert ((q + 1) * 2 ^ e = p - r + 2 ^ e) as Hup by lia.
  destruct ((half <? r) || ((r =? half) && Z.odd q)) eqn:Hround.
  - assert (half ≤ r) as Hr.
    { apply orb_true_iff in Hround as [H|H].
      - apply Z.ltb_lt in H. lia.
      - apply andb_true_iff in H as [H _]. apply Z.eqb_eq in H. lia. }
    rewrite Hup. split; [lia|].
    destruct (Z.lt_ge_cases half n) as [Hlt|Hge]; [lia|].
    assert (n * 2 ^ 53 ≤ half * 2 ^ 53) by nia. lia.
  - rewrite Hdown. lia.
Qed.

Lemma random_below_range (n : Z) (st : State) :
  rnd_in_range rnd → 0 < n → 0 ≤ (random_below rnd n st).1 < n.
Proof.
  intros Hr Hn. unfold random_below, random. run.
  destruct (double_round_below (rnd (draws st)) n (Hr (draws st)) Hn) as [Hlo Hhi].
  split.
  - apply Z.div_pos; lia.
  - apply Z.div_lt_upper_bound; lia.
Qed.

Lemma chars_get (n : nat) :
  (n < 36)%nat → ∃ c, String.get n chars = Some c ∧ lower_alnum c = true.
Proof.
  intros Hn.
  do 36 (destruct n as [|n]; [eexists; split; reflexivity|]).
  lia.
Qed.

Lemma append_char_in_range (id : string) (i : Z) :
  0 ≤ i < 36 →
  ∃ c, append_char id i = id +:+ String c EmptyString ∧ lower_alnum c = true.
Proof.
  intros Hi. unfold append_char.
  destruct (Z.ltb_spec i 0); [lia|].
  destruct (chars_get (Z.to_nat i) ltac:(lia)) as (c & -> & Hc). eauto.
Qed.

Lemma has_char_app (c : ascii) (a b : string) :
  has_char c (a +:+ b) = has_char c a || has_char c b.
Proof.
  induction a as [|d a IH]; [done|].
  change (has_char c (String d (a +:+ b)) = has_char c (String d a) || has_char c b).
  simpl. by rewrite IH, orb_assoc.
Qed.

Lemma lower_alnum_not_underscore (c : ascii) :
  lower_alnum c = true → Ascii.eqb c "_" = false.
Proof.
  intros Hc. destruct (Ascii.eqb_spec c "_") as [->|]; [|done].
  vm_compute in Hc. discriminate.
Qed.

Lemma string_app_nil_r (a : string) : a +:+ "" = a.
Proof.
  induction a as [|c a IH]; [done|].
  change (String c (a +:+ "") = String c a). by rewrite IH.
Qed.

Lemma string_app_assoc (a b c : string) : (a +:+ b) +:+ c = a +:+ (b +:+ c).
Proof.
  induction a as [|d a IH]; [done|].
  change (String d ((a +:+ b) +:+ c) = String d (a +:+ (b +:+ c))). by rewrite IH.
Qed.

Lemma instance_id_loop_format (n : nat) (id : string) (st : State) :
  rnd_in_range rnd →
  ∃ suffix,
    (instance_id_loop rnd n id st).1 = id +:+ suffix ∧
    String.length suffix = n ∧
    has_char "_" suffix = false ∧
    (∀ k c, String.get k suffix = Some c → lower_alnum c = true).
Proof.
  intros Hr. revert id st. induction n as [|n IH]; intros id st; cbn [instance_id_loop].
  - exists "". split_and!; try done.
    unfold mret, M_ret. simpl. by rewrite string_app_nil_r.
  - unfold mbind, M_bind.
    pose proof (random_below_range (Z.of_nat (String.length chars)) st Hr ltac:(simpl; lia))
      as Hrange.
    destruct (random_below rnd (Z.of_nat (String.length chars)) st) as [i st1].
    simpl in Hrange.
    destruct (append_char_in_range id i Hrange) as (c & -> & Hc).
    destruct (IH (id +:+ String c "") st1) as (suffix & Heq & Hlen & Hno & Hall).
    exists (String c suffix). split_and!.
    + rewrite Heq. by rewrite string_app_assoc.
    + simpl. by rewrite Hlen.
    + simpl. by rewrite Hno, (lower_alnum_not_underscore c Hc).
    + intros k d. destruct k as [|k]; simpl; [by intros [= <-]|apply Hall].
Qed.

Lemma generateCardInstanceId_run (st : State) :
  rnd_in_range rnd →
  ∃ suffix,
    generateCardInstanceId rnd st = ("po" +:+ suffix, with_draws (4 + draws st) st) ∧
    String.length suffix = 4%nat.
Proof.
  intros Hr.
  destruct (instance_id_loop_format 4 "po" st Hr) as (suffix & Heq & Hlen & _).
  exists suffix. split; [|done]. unfold generateCardInstanceId in *.
  destruct (instance_id_loop_post rnd 4 "po" st) as [id' Hpost].
  rewrite Hpost in *. simpl in Heq. by rewrite Heq.
Qed.

(** X1. With the random source in range, [generateCardInstanceId] yields
    ["po"] followed by exactly four characters, each a lower-case letter or
    a digit; so the id is six characters long and holds no underscore, the
    separator of the trade button identifiers. *)
Theorem generateCardInstanceId_format (st : State) :
  rnd_in_range rnd →
  ∃ suffix,
    (generateCardInstanceId rnd st).1 = "po" +:+ suffix ∧
    String.length suffix = 4%nat ∧
    String.length (generateCardInstanceId rnd st).1 = 6%nat ∧
    has_char "_" (generateCardInstanceId rnd st).1 = false ∧
    (∀ k c, String.get k suffix = Some c → lower_alnum c = true) ∧
    (generateCardInstanceId rnd st).2 = with_draws (4 + draws st) st.
Proof.
  intros Hr.
  destruct (instance_id_loop_format 4 "po" st Hr) as (suffix & Heq & Hlen & Hno & Hall).
  exists suffix. unfold generateCardInstanceId. rewrite Heq.
  split_and!; [done|done| | |done|].
  - change (String.length (String "p" (String "o" suffix)) = 6%nat).
    simpl. by rewrite Hlen.
  - by rewrite has_char_app, Hno.
  - destruct (instance_id_loop_post rnd 4 "po" st) as [id' ->]. done.
Qed.

Lemma randomCard_nonempty (st : State) :
  rnd_in_range rnd →
  cards ≠ [] →
  ∃ card, randomCard cards rnd st = (Some card, with_draws (S (draws st)) st) ∧
          card ∈ cards.
Proof.
  intros Hr Hne. unfold randomCard. rewrite bool_decide_eq_false_2 by done.
  unfold mbind, M_bind.
  pose proof (random_below_range (Z.of_nat (length cards)) st Hr) as Hrange.
  destruct (random_below_post rnd (Z.of_nat (length cards)) st) as [i Hi].
  rewrite Hi in *. simpl in Hrange.
  assert (0 < Z.of_nat (length cards)) as Hlen by (destruct cards; [done|simpl; lia]).
  specialize (Hrange Hlen).
  unfold at_index. destruct (Z.ltb_spec i 0); [lia|].
  destruct (lookup_lt_is_Some_2 cards (Z.to_nat i) ltac:(lia)) as [card Hcard].
  exists card. unfold mret, M_ret. rewrite Hcard. split; [done|].
  by eapply list_elem_of_lookup_2.
Qed.

(** X2. [randomCard] on an empty catalog answers [null] without drawing a
    random number; on a non-empty catalog, with the random source in range,
    it answers a card of the catalog after exactly one draw. *)
Theorem randomCard_in_catalog (st : State) :
  rnd_in_range rnd →
  (cards = [] → randomCard cards rnd st = (None, st)) ∧
  (cards ≠ [] →
     ∃ card, randomCard cards rnd st = (Some card, with_draws (S (draws st)) st) ∧
             card ∈ cards).
Proof.
  intros Hr. split.
  - intros ->. done.
  - intros Hne. by apply randomCard_nonempty.
Qed.

(** ** The catalog map *)

Lemma cardMap_snoc (l : list Card.t) (c : Card.t) :
  cardMap (l ++ [c]) = <[Card.id c := c]> (cardMap l).
Proof. unfold cardMap. by rewrite foldl_app. Qed.

Lemma cardMap_lookup (l : list Card.t) (k : string) :
  cardMap l !! k = last (filter (λ c, Card.id c = k) l).
Proof.
  induction l as [|c l IH] using rev_ind; [done|].
  rewrite cardMap_snoc, filter_app, filter_cons, filter_nil.
  destruct (decide (Card.id c = k)) as [<-|Hne].
  - by rewrite lookup_insert_eq, last_snoc.
  - rewrite lookup_insert_ne by done. by rewrite app_nil_r.
Qed.

(** X3. [cardMap.get(id) || cards.find(...)] answers the last card of the
    catalog that has this id, and nothing for an id that no card has or for
    a value that is not a string: every card of the catalog is found by its
    id, and of two files with the same base name the later one wins. *)
Theorem find_card_last_with_id (cardId : jsval) :
  find_card cards cardId =
    match cardId with
    | JStr k => last (filter (λ c, Card.id c = k) cards)
    | _ => None
    end
  ∧ (∀ c, c ∈ cards →
       ∃ c', find_card cards (JStr (Card.id c)) = Some c' ∧
             Card.id c' = Card.id c ∧ c' ∈ cards).
Proof.
  assert (∀ k, find_card cards (JStr k) = last (filter (λ c, Card.id c = k) cards)) as Hfind.
  { intros k. unfold find_card. rewrite cardMap_lookup.
    destruct (last (filter (λ c, Card.id c = k) cards)) as [c|] eqn:Hlast; [done|].
    apply last_None in Hlast.
    destruct (List.find _ cards) as [c|] eqn:Hf; [|done].
    apply List.find_some in Hf as [Hin Hid].
    apply bool_decide_eq_true in Hid.
    assert (c ∈ filter (λ c, Card.id c = k) cards) as Hc
      by (apply list_elem_of_filter; split; [done|by apply list_elem_of_In]).
    rewrite Hlast in Hc. by apply elem_of_nil in Hc. }
  split.
  - destruct cardId; first [apply Hfind|done].
  - intros c Hc. rewrite Hfind.
    destruct (last (filter (λ c0, Card.id c0 = Card.id c) cards)) as [c'|] eqn:Hlast.
    + apply last_Some_elem_of, list_elem_of_filter in Hlast as [Hid Hin]. eauto.
    + apply last_None in Hlast.
      assert (c ∈ filter (λ c0, Card.id c0 = Card.id c) cards) as Hin
        by (by apply list_elem_of_filter).
      rewrite Hlast in Hin. by apply elem_of_nil in Hin.
Qed.

(** ** Draws *)

#[local] Arguments gate : simpl never.
#[local] Arguments randomCard : simpl never.
#[local] Arguments generateCardInstanceId : simpl never.
#[local] Arguments random_quality : simpl never.
#[local] Arguments pack_loop : simpl never.
#[local] Arguments choices_loop : simpl never.
#[local] Arguments combineCardImages : simpl never.

Lemma random_quality_range (st : State) :
  rnd_in_range rnd → 1 ≤ (random_quality rnd st).1 ≤ 10.
Proof.
  intros Hr. unfold random_quality. unfold mbind, M_bind.
  pose proof (random_below_range 10 st Hr ltac:(lia)) as Hq.
  destruct (random_below rnd 10 st) as [q st1]. unfold mret, M_ret.
  simpl in *. lia.
Qed.

(** The steps of a draw after the card is chosen. *)
Lemma draw_tail (mk : Card.t → Z → string → Entry) (card : Card.t) (user : string)
    (now : Z) (st : State) (d : Session) :
  userData st !! user = Some d →
  let iid := (generateCardInstanceId rnd st).1 in
  let quality := (random_quality rnd (with_draws (4 + draws st) st)).1 in
  (instanceId ← generateCardInstanceId rnd;
   modify_session user (push_entry (mk card now instanceId));;
   modify_session user (set_lastDraw now);;
   addCardToInventory user (JStr (Card.id card)) now (JStr instanceId);;
   data ← deref user;
   saveUserCooldowns user data;;
   quality ← random_quality rnd;
   mret (Drew card quality)) st
  = (Drew card quality,
     {| userData := <[user := set_lastDraw now (push_entry (mk card now iid) d)]> (userData st);
        imageCache := imageCache st;
        combinedImageCache := combinedImageCache st;
        requests := requests st ++
          [insert_of user now (card, iid);
           UpsertCooldowns user now (lastPack d) (lastPick d)];
        fetches := fetches st;
        draws := S (4 + draws st) |}).
Proof.
  intros Hd iid quality. subst iid quality.
  unfold mbind at 1. unfold M_bind at 1.
  destruct (generateCardInstanceId_post rnd st) as [id Hid]. rewrite Hid.
  unfold addCardToInventory, saveUserCooldowns, insert_of. run.
  rewrite !lookup_alter_eq, Hd. simpl.
  f_equal. f_equal.
  - apply map_eq. intros v. destruct (decide (v = user)) as [->|Hne].
    + by rewrite !lookup_alter_eq, Hd, lookup_insert_eq.
    + by rewrite !lookup_alter_ne, lookup_insert_ne.
  - by rewrite <-app_assoc.
Qed.

(** Every front end reaches the same steps once its gate has passed. *)
Lemma draw_via_passes (fe : FrontEnd) (user : string) (now : Z) (st : State) :
  let st0 := (getUserData db user st).2 in
  let data := session_at user st0 in
  rnd_in_range rnd →
  cards ≠ [] →
  gate TEST_MODE Draw data now = None →
  ∃ card,
    card ∈ cards ∧
    randomCard cards rnd st0 = (Some card, with_draws (S (draws st0)) st0) ∧
    draw_via TEST_MODE cards db rnd fe user now st =
      (instanceId ← generateCardInstanceId rnd;
       modify_session user (push_entry (draw_entry fe card now instanceId));;
       modify_session user (set_lastDraw now);;
       addCardToInventory user (JStr (Card.id card)) now (JStr instanceId);;
       data ← deref user;
       saveUserCooldowns user data;;
       quality ← random_quality rnd;
       mret (Drew card quality)) (with_draws (S (draws st0)) st0).
Proof.
  intros st0 data Hr Hne Hg.
  destruct (randomCard_nonempty st0 Hr Hne) as (card & Hcard & Hin).
  exists card. split_and!; [done..|].
  unfold data, session_at, st0 in *.
  destruct (getUserData_post db user st) as (d & st' & Heq & Hu & _).
  rewrite Heq in *. simpl in *. rewrite Hu in Hg. simpl in Hg.
  destruct fe; unfold draw_via, cmd_draw, btn_draw, msg_draw;
    unfold mbind at 1; unfold M_bind at 1; rewrite Heq;
    rewrite ?bool_decide_eq_false_2 by done; rewrite Hg;
    unfold mbind at 1; unfold M_bind at 1; rewrite Hcard; done.
Qed.

Lemma draw_via_denied (fe : FrontEnd) (user : string) (now r : Z) (st : State) :
  let st0 := (getUserData db user st).2 in
  cards ≠ [] →
  gate TEST_MODE Draw (session_at user st0) now = Some r →
  draw_via TEST_MODE cards db rnd fe user now st = (OnCooldown Draw r, st0).
Proof.
  intros st0 Hne Hg. unfold session_at, st0 in *.
  destruct (getUserData_post db user st) as (d & st' & Heq & Hu & _).
  rewrite Heq in *. simpl in *. rewrite Hu in Hg. simpl in Hg.
  destruct fe; unfold draw_via, cmd_draw, btn_draw, msg_draw;
    unfold mbind at 1; unfold M_bind at 1; rewrite Heq;
    rewrite ?bool_decide_eq_false_2 by done; rewrite Hg; done.
Qed.

Lemma draw_via_run (fe : FrontEnd) (user : string) (now : Z) (st : State) :
  let st0 := (getUserData db user st).2 in
  let data := session_at user st0 in
  rnd_in_range rnd →
  cards ≠ [] →
  gate TEST_MODE Draw data now = None →
  ∃ (card : Card.t) (suffix : string) (quality : Z),
    card ∈ cards ∧ String.length suffix = 4%nat ∧ 1 ≤ quality ≤ 10 ∧
    draw_via TEST_MODE cards db rnd fe user now st =
      (Drew card quality,
       {| userData :=
            <[user := set_lastDraw now
                        (push_entry (draw_entry fe card now ("po" +:+ suffix)) data)]>
              (userData st0);
          imageCache := imageCache st0;
          combinedImageCache := combinedImageCache st0;
          requests := requests st0 ++
            [insert_of user now (card, "po" +:+ suffix);
             UpsertCooldowns user now (lastPack data) (lastPick data)];
          fetches := fetches st0;
          draws := (6 + draws st0)%nat |}).
Proof.
  intros st0 data Hr Hne Hg.
  destruct (draw_via_passes fe user now st Hr Hne Hg) as (card & Hin & _ & Hrun).
  fold st0 in Hrun.
  pose proof (getUserData_loaded db user st) as Hloaded. fold st0 data in Hloaded.
  rewrite (draw_tail _ card user now (with_draws (S (draws st0)) st0) data Hloaded) in Hrun.
  destruct (generateCardInstanceId_run (with_draws (S (draws st0)) st0) Hr)
    as (suffix & Hid & Hlen).
  rewrite Hid in Hrun.
  pose proof (random_quality_range
                (with_draws (4 + draws (with_draws (S (draws st0)) st0))
                   (with_draws (S (draws st0)) st0)) Hr) as Hq.
  set (q := (random_quality rnd _).1) in *.
  exists card, suffix, q. split_and!; [done|done|lia|lia|].
  rewrite Hrun. done.
Qed.

(** X4. Whichever front end issues it, a draw that passes its gate, on a
    non-empty catalog and with the random source in range, answers with a
    card of the catalog and a quality from 1 to 10; it appends exactly one
    entry to the drawer's inventory, for that card, acquired now, under an
    id ["po"] plus four characters; it sets [lastDraw] to now and leaves
    the other timestamps, the pick session and every other user alone; and
    it sends exactly two requests, the insert of that entry and the upsert
    of the cooldowns. *)
Theorem draw_adds_one_entry (fe : FrontEnd) (user : string) (now : Z) (st : State) :
  let st0 := (getUserData db user st).2 in
  let data := session_at user st0 in
  let result := draw_via TEST_MODE cards db rnd fe user now st in
  rnd_in_range rnd →
  cards ≠ [] →
  gate TEST_MODE Draw data now = None →
  ∃ (card : Card.t) (quality : Z) (suffix : string),
    card ∈ cards ∧ String.length suffix = 4%nat ∧ 1 ≤ quality ≤ 10 ∧
    result.1 = Drew card quality ∧
    inventory_at user result.2
      = (inventory data ++ [draw_entry fe card now ("po" +:+ suffix)])%list ∧
    lastDraw (session_at user result.2) = now ∧
    lastPack (session_at user result.2) = lastPack data ∧
    lastPick (session_at user result.2) = lastPick data ∧
    pickChoices (session_at user result.2) = pickChoices data ∧
    (∀ v, v ≠ user → userData result.2 !! v = userData st0 !! v) ∧
    requests result.2 = (requests st0 ++
      [insert_of user now (card, "po" +:+ suffix);
       UpsertCooldowns user now (lastPack data) (lastPick data)])%list.
Proof.
  intros st0 data result Hr Hne Hg.
  destruct (draw_via_run fe user now st Hr Hne Hg)
    as (card & suffix & q & Hin & Hlen & Hq & Hrun).
  fold st0 data result in Hrun.
  exists card, q, suffix.
  rewrite Hrun. unfold inventory_at, session_at. simpl.
  rewrite lookup_insert_eq. simpl.
  split_and!; try done; try lia.
  intros v Hv. by rewrite lookup_insert_ne.
Qed.

(** X5. The draw cooldown is one timestamp for the three front ends: after
    a draw at [now] by any of them, a draw at a later instant [now'] with
    [now' - now] below the draw cooldown, by any of them, is refused with
    the wait [cooldown - (now' - now)] and changes nothing. *)
Theorem draw_then_draw_is_refused (fe fe' : FrontEnd) (user : string) (now now' : Z)
    (st : State) :
  let st0 := (getUserData db user st).2 in
  let first := draw_via TEST_MODE cards db rnd fe user now st in
  let second := draw_via TEST_MODE cards db rnd fe' user now' first.2 in
  rnd_in_range rnd →
  cards ≠ [] →
  gate TEST_MODE Draw (session_at user st0) now = None →
  now' - now < cooldown_of TEST_MODE Draw →
  second = (OnCooldown Draw (cooldown_of TEST_MODE Draw - (now' - now)), first.2).
Proof.
  intros st0 first second Hr Hne Hg Hsoon.
  destruct (draw_via_run fe user now st Hr Hne Hg)
    as (card & suffix & q & _ & _ & _ & Hrun).
  fold st0 first in Hrun.
  assert (∃ d, userData first.2 !! user = Some d ∧ lastDraw d = now) as (d & Hd & Hlast).
  { rewrite Hrun. simpl. rewrite lookup_insert_eq. eauto. }
  pose proof (getUserData_cached db user first.2 d Hd) as Hcached.
  pose proof (draw_via_denied fe' user now'
                (cooldown_of TEST_MODE Draw - (now' - now)) first.2 Hne) as Hden.
  rewrite Hcached in Hden. simpl in Hden. apply Hden.
  unfold gate. apply cooldown_gate_Some. simpl.
  unfold session_at. rewrite Hd. simpl in *. rewrite Hlast. lia.
Qed.

(** ** Packs *)

Lemma set_inventory_app_nil (d : Session) :
  set_inventory (inventory d ++ []) d = d.
Proof. destruct d. unfold set_inventory. simpl. by rewrite app_nil_r. Qed.

Lemma pack_loop_S (mk : Card.t → Z → string → Entry) (user : string) (now : Z)
    (n : nat) (pulled : list Card.t) :
  pack_loop cards rnd mk user now (S n) pulled =
    (card ← randomCard cards rnd;
     match card with
     | None => mret pulled
     | Some card =>
         instanceId ← generateCardInstanceId rnd;
         modify_session user (push_entry (mk card now instanceId));;
         addCardToInventory user (JStr (Card.id card)) now (JStr instanceId);;
         pack_loop cards rnd mk user now n (pulled ++ [card])
     end).
Proof. reflexivity. Qed.

(** The loop of a pack on a non-empty catalog never stops early: it pulls
    [n] cards, pushes their entries in order and sends their inserts in the
    same order. *)
Lemma pack_loop_full (mk : Card.t → Z → string → Entry) (user : string) (now : Z)
    (n : nat) (pulled : list Card.t) (st : State) (d : Session) :
  rnd_in_range rnd →
  cards ≠ [] →
  userData st !! user = Some d →
  ∃ pairs : list (Card.t * string),
    length pairs = n ∧ Forall (pulled_ok cards) pairs ∧
    pack_loop cards rnd mk user now n pulled st =
      ((pulled ++ pairs.*1)%list,
       {| userData :=
            <[user := set_inventory
                        (inventory d ++ ((λ p, mk p.1 now p.2) <$> pairs))%list d]>
              (userData st);
          imageCache := imageCache st;
          combinedImageCache := combinedImageCache st;
          requests := (requests st ++ (insert_of user now <$> pairs))%list;
          fetches := fetches st;
          draws := (5 * n + draws st)%nat |}).
Proof.
  intros Hr Hne. revert pulled st d.
  induction n as [|n IH]; intros pulled st d Hd.
  - exists []. split_and!; [done|constructor|].
    unfold pack_loop, mret, M_ret. simpl.
    rewrite set_inventory_app_nil, insert_id by done.
    rewrite !app_nil_r. by destruct st.
  - rewrite pack_loop_S.
    unfold mbind at 1. unfold M_bind at 1.
    destruct (randomCard_nonempty st Hr Hne) as (card & Hcard & Hin). rewrite Hcard.
    unfold mbind at 1. unfold M_bind at 1.
    destruct (generateCardInstanceId_run (with_draws (S (draws st)) st) Hr)
      as (suffix & Hid & Hlen).
    rewrite Hid.
    unfold addCardToInventory. run.
    match goal with
    | |- context [pack_loop _ _ _ _ _ _ _ ?s] => set (st3 := s)
    end.
    assert (userData st3 !! user = Some (push_entry (mk card now ("po" +:+ suffix)) d))
      as Hd3 by (unfold st3; simpl; by rewrite lookup_alter_eq, Hd).
    destruct (IH (pulled ++ [card])%list st3 _ Hd3) as (pairs & Hlenp & Hok & Hrun).
    exists ((card, "po" +:+ suffix) :: pairs).
    split_and!.
    + simpl. by rewrite Hlenp.
    + constructor; [|done]. split; [done|]. simpl. eauto.
    + rewrite Hrun. unfold st3. simpl. f_equal.
      * by rewrite <-app_assoc.
      * f_equal.
        -- apply map_eq. intros v. destruct (decide (v = user)) as [->|Hv].
           ++ rewrite !lookup_insert_eq. f_equal.
              unfold set_inventory, push_entry. simpl. by rewrite <-app_assoc.
           ++ by rewrite !lookup_insert_ne, lookup_alter_ne.
        -- by rewrite <-app_assoc.
        -- lia.
Qed.

Lemma pack_via_run (fe : FrontEnd) (user : string) (now : Z) (st : State) :
  let st0 := (getUserData db user st).2 in
  let data := session_at user st0 in
  rnd_in_range rnd →
  cards ≠ [] →
  gate TEST_MODE Pack data now = None →
  ∃ pairs : list (Card.t * string),
    length pairs = 5%nat ∧ Forall (pulled_ok cards) pairs ∧
    pack_via TEST_MODE cards db rnd fe user now st =
      (OpenedPack pairs.*1,
       {| userData :=
            <[user := set_lastPack now
                        (set_inventory
                           (inventory data ++
                              ((λ p, pack_entry fe p.1 now p.2) <$> pairs))%list data)]>
              (userData st0);
          imageCache := imageCache st0;
          combinedImageCache := combinedImageCache st0;
          requests := (requests st0 ++ (insert_of user now <$> pairs) ++
            [UpsertCooldowns user (lastDraw data) now (lastPick data)])%list;
          fetches := fetches st0;
          draws := (25 + draws st0)%nat |}).
Proof.
  intros st0 data Hr Hne Hg.
  pose proof (getUserData_loaded db user st) as Hloaded. fold st0 data in Hloaded.
  destruct (pack_loop_full (pack_entry fe) user now 5 [] st0 data Hr Hne Hloaded)
    as (pairs & Hlen & Hok & Hloop).
  exists pairs. split_and!; [done..|].
  assert (bool_decide (pairs.*1 = []) = false) as Hnonempty.
  { apply bool_decide_eq_false_2. destruct pairs; [simpl in Hlen; lia|done]. }
  assert (getUserData db user st = (data, st0)) as Heq.
  { unfold data, session_at, st0.
    destruct (getUserData_post db user st) as (d & st' & -> & Hu & _). simpl.
    by rewrite Hu. }
  assert (∀ (m : gmap string Session) (x : Session),
            alter (set_lastPack now) user (<[user := x]> m)
            = <[user := set_lastPack now x]> m) as Halter.
  { intros m x. apply map_eq. intros v. destruct (decide (v = user)) as [->|Hv].
    - by rewrite lookup_alter_eq, !lookup_insert_eq.
    - by rewrite lookup_alter_ne, !lookup_insert_ne. }
  destruct fe; unfold pack_via, cmd_pack, btn_pack, msg_pack, pack_entry in *;
    unfold mbind at 1; unfold M_bind at 1; rewrite Heq;
    rewrite ?bool_decide_eq_false_2 by done; rewrite Hg;
    unfold mbind at 1; unfold M_bind at 1; rewrite Hloop;
    unfold saveUserCooldowns; run;
    rewrite ?Hnonempty, Halter, lookup_insert_eq; simpl;
    by rewrite <-app_assoc.
Qed.

(** X6. Whichever front end issues it, a pack that passes its gate, on a
    non-empty catalog and with the random source in range, pulls exactly
    five cards of the catalog: it answers with the five, appends their five
    entries in order to the inventory of the user, sets [lastPack] to now,
    leaves the other timestamps and every other user alone, and sends the
    five inserts in the same order, then the upsert of the cooldowns. *)
Theorem pack_adds_five_entries (fe : FrontEnd) (user : string) (now : Z) (st : State) :
  let st0 := (getUserData db user st).2 in
  let data := session_at user st0 in
  let result := pack_via TEST_MODE cards db rnd fe user now st in
  rnd_in_range rnd →
  cards ≠ [] →
  gate TEST_MODE Pack data now = None →
  ∃ pairs : list (Card.t * string),
    length pairs = 5%nat ∧ Forall (pulled_ok cards) pairs ∧
    result.1 = OpenedPack pairs.*1 ∧
    inventory_at user result.2
      = (inventory data ++ ((λ p, pack_entry fe p.1 now p.2) <$> pairs))%list ∧
    lastPack (session_at user result.2) = now ∧
    lastDraw (session_at user result.2) = lastDraw data ∧
    lastPick (session_at user result.2) = lastPick data ∧
    (∀ v, v ≠ user → userData result.2 !! v = userData st0 !! v) ∧
    requests result.2 = (requests st0 ++ (insert_of user now <$> pairs) ++
      [UpsertCooldowns user (lastDraw data) now (lastPick data)])%list.
Proof.
  intros st0 data result Hr Hne Hg.
  destruct (pack_via_run fe user now st Hr Hne Hg) as (pairs & Hlen & Hok & Hrun).
  fold st0 data result in Hrun.
  exists pairs. rewrite Hrun. unfold inventory_at, session_at. simpl.
  rewrite lookup_insert_eq. simpl.
  split_and!; try done.
  intros v Hv. by rewrite lookup_insert_ne.
Qed.

Lemma same_ids_pulled (mk : Card.t → Z → string → Entry) (user : string) (now : Z)
    (p : Card.t * string) :
  mk = camel_entry ∨ mk = snake_entry →
  Card.id p.1 ≠ "" → p.2 ≠ "" →
  same_ids (mk p.1 now p.2) (insert_of user now p).
Proof.
  intros Hmk Hc Hi. unfold same_ids, insert_of. simpl.
  eexists. split; [reflexivity|].
  unfold entryCardId, entryInstanceId, instanceId, entry_of_row, js_or. simpl.
  assert (String.eqb (Card.id p.1) "" = false) as -> by (by apply String.eqb_neq).
  assert (String.eqb p.2 "" = false) as -> by (by apply String.eqb_neq).
  destruct Hmk as [-> | ->]; simpl;
    rewrite ?(proj2 (String.eqb_neq _ _) Hc), ?(proj2 (String.eqb_neq _ _) Hi); done.
Qed.

(** X7. When no card of the catalog has an empty id, every entry that a pack
    appends in memory and the insert sent for it agree: the row that the
    insert writes, read back the way [getUserData] reads rows, shows the
    same card id and the same instance id as the entry in memory. *)
Theorem pack_entries_match_their_inserts (fe : FrontEnd) (user : string) (now : Z)
    (st : State) :
  let st0 := (getUserData db user st).2 in
  let data := session_at user st0 in
  let result := pack_via TEST_MODE cards db rnd fe user now st in
  rnd_in_range rnd →
  cards ≠ [] →
  (∀ c, c ∈ cards → Card.id c ≠ "") →
  gate TEST_MODE Pack data now = None →
  ∃ (entries : list Entry) (inserts : list DbRequest) (last_request : DbRequest),
    inventory_at user result.2 = (inventory data ++ entries)%list ∧
    requests result.2 = (requests st0 ++ inserts ++ [last_request])%list ∧
    length entries = 5%nat ∧
    Forall2 same_ids entries inserts ∧
    Forall (λ r, ∃ row, row_written r = Some row ∧ InventoryRow.user_id row = user) inserts.
Proof.
  intros st0 data result Hr Hne Hids Hg.
  destruct (pack_via_run fe user now st Hr Hne Hg) as (pairs & Hlen & Hok & Hrun).
  fold st0 data result in Hrun.
  exists ((λ p, pack_entry fe p.1 now p.2) <$> pairs), (insert_of user now <$> pairs),
    (UpsertCooldowns user (lastDraw data) now (lastPick data)).
  split_and!.
  1: { rewrite Hrun. unfold inventory_at, session_at. simpl.
       by rewrite lookup_insert_eq. }
  1: { by rewrite Hrun. }
  1: { by rewrite length_fmap. }
  - clear Hrun Hlen. induction Hok as [|p pairs [Hin (suffix & Hp & _)] _ IH];
      [constructor|].
    rewrite !fmap_cons. constructor; [|exact IH].
    apply same_ids_pulled.
    + destruct fe; auto.
    + by apply Hids.
    + rewrite Hp. done.
  - apply Forall_fmap, Forall_forall. intros p _. simpl. eauto.
Qed.

(** ** A trade from proposal to resolution *)

Lemma prefix_app (a b : string) : String.prefix a (a +:+ b) = true.
Proof.
  induction a as [|c a IH]; [by destruct b|].
  change (String.prefix (String c a) (String c (a +:+ b)) = true).
  simpl. by destruct (ascii_dec c c).
Qed.

Lemma after_loads_keeps (user other v : string) (s : Session) (st : State) :
  userData st !! v = Some s →
  userData (after_loads db user other st) !! v = Some s.
Proof.
  intros Hv. unfold after_loads.
  destruct (getUserData_post db user st) as (s1 & st1 & -> & _ & Hkeep1 & _). simpl.
  destruct (getUserData_post db other st1) as (s2 & st2 & -> & _ & Hkeep2 & _). simpl.
  auto.
Qed.

(** What [/trade] answers when it proposes, and on which entry. *)
Lemma cmd_trade_run (user targetUser instanceId : string) (targetIsBot : bool)
    (now : Z) (st : State) (acceptId declineId cardName : string) :
  let st0 := (getUserData db user st).2 in
  let result := cmd_trade cards db user now instanceId targetUser targetIsBot st in
  result.1 = TradeProposed acceptId declineId cardName →
  ∃ (i : nat) (e : Entry),
    result.2 = st0 ∧ targetUser ≠ user ∧
    is_Some (userData st0 !! user) ∧
    findIndex (λ entry, js_eq (entryInstanceId entry) (JStr instanceId))
      (inventory_at user st0) = Some i ∧
    inventory_at user st0 !! i = Some e ∧
    entryInstanceId e = JStr instanceId ∧
    cardName = card_name (find_card cards (entryCardId e)) ∧
    acceptId = "trade_accept_" +:+ user +:+ "_" +:+ targetUser +:+ "_" +:+ instanceId ∧
    declineId = "trade_decline_" +:+ user +:+ "_" +:+ targetUser +:+ "_" +:+ instanceId.
Proof.
  intros st0 result Hreply.
  destruct result as [reply st2] eqn:Hres. simpl in Hreply. subst reply.
  unfold result, cmd_trade in Hres.
  unfold mbind at 1 in Hres. unfold M_bind at 1 in Hres.
  unfold inventory_at, session_at, st0.
  destruct (getUserData_post db user st) as (d & st' & Heq & Hu & _).
  rewrite Heq in *. simpl. rewrite Hu. simpl.
  destruct (bool_decide_reflect (targetUser = user)); [done|].
  destruct targetIsBot; [done|].
  destruct (findIndex _ (inventory d)) as [i|] eqn:Hfind; [|done].
  destruct (findIndex_instance_Some _ _ _ Hfind) as (e & He & Hid).
  rewrite He in Hres. injection Hres as <- <- <- <-.
  exists i, e. split_and!; eauto.
Qed.

(** The accept identifier of a proposal, pressed by anyone, reaches the
    trade code and splits into the names of the proposal. *)
Lemma accept_identifier (user targetUser instanceId : string) :
  has_char "_" user = false →
  has_char "_" targetUser = false →
  has_char "_" instanceId = false →
  let acceptId := "trade_accept_" +:+ user +:+ "_" +:+ targetUser +:+ "_" +:+ instanceId in
  String.prefix "trade_accept_" acceptId || String.prefix "trade_decline_" acceptId = true ∧
  split_on "_" acceptId = ["trade"; "accept"; user; targetUser; instanceId].
Proof.
  intros Hu Ht Hi acceptId. split.
  - unfold acceptId. by rewrite prefix_app.
  - apply (trade_identifier_parts "accept" user targetUser instanceId); done.
Qed.

Lemma decline_identifier (user targetUser instanceId : string) :
  has_char "_" user = false →
  has_char "_" targetUser = false →
  has_char "_" instanceId = false →
  let declineId := "trade_decline_" +:+ user +:+ "_" +:+ targetUser +:+ "_" +:+ instanceId in
  String.prefix "trade_accept_" declineId || String.prefix "trade_decline_" declineId = true ∧
  split_on "_" declineId = ["trade"; "decline"; user; targetUser; instanceId].
Proof.
  intros Hu Ht Hi declineId. split.
  - unfold declineId. rewrite (prefix_app "trade_decline_"). apply orb_true_r.
  - apply (trade_identifier_parts "decline" user targetUser instanceId); done.
Qed.

(** X10. A proposal made by [/trade] and accepted by its receiver moves the
    card: when none of the two user ids and the instance id holds an
    underscore, the accept button of the proposal, pressed by the receiver,
    answers "Trade completed" with the card name the proposal showed; the
    entry under which the proposal found the id leaves the sender's
    inventory, an entry with the same card id and instance id, acquired at
    the time of acceptance, is appended to the receiver's, and the delete
    for the sender and the insert for the receiver are sent. *)
Theorem proposal_accepted_moves_the_card
    (user targetUser instanceId acceptId declineId cardName : string)
    (targetIsBot : bool) (now now' : Z) (st : State) :
  let proposal := cmd_trade cards db user now instanceId targetUser targetIsBot st in
  let st1 := after_loads db targetUser user proposal.2 in
  let accepted := on_button TEST_MODE cards db rnd parseInt acceptId targetUser now'
                    proposal.2 in
  has_char "_" user = false →
  has_char "_" targetUser = false →
  has_char "_" instanceId = false →
  proposal.1 = TradeProposed acceptId declineId cardName →
  ∃ (i : nat) (removed : Entry),
    inventory_at user proposal.2 !! i = Some removed ∧
    entryInstanceId removed = JStr instanceId ∧
    accepted.1 = TradeCompleted (JStr user) cardName (JStr instanceId) (JStr targetUser) ∧
    inventory_at user accepted.2 = splice1 i (inventory_at user proposal.2) ∧
    inventory_at targetUser accepted.2
      = (inventory_at targetUser st1 ++
           [traded_entry (entryCardId removed) now' (JStr instanceId)])%list ∧
    requests accepted.2 = (requests st1 ++
      [DeleteByInstance user (JStr instanceId);
       InsertInventory targetUser (entryCardId removed) now' (JStr instanceId)])%list.
Proof.
  intros proposal st1 accepted Hu Ht Hi Hprop.
  destruct (cmd_trade_run user targetUser instanceId targetIsBot now st _ _ _ Hprop)
    as (i & e & Hst & Hne & [d Hd] & Hfind & He & Hid & -> & -> & _).
  fold proposal in Hst.
  destruct (accept_identifier user targetUser instanceId Hu Ht Hi) as [Hp Hsplit].
  set (acceptId := "trade_accept_" +:+ user +:+ "_" +:+ targetUser +:+ "_" +:+ instanceId)
    in *.
  assert (part (split_on "_" acceptId) 3 = JStr targetUser) as Hrecv by (by rewrite Hsplit).
  assert (part (split_on "_" acceptId) 1 ≠ JStr "decline") as Hacc by (by rewrite Hsplit).
  assert (part (split_on "_" acceptId) 2 = JStr user) as Hpart2 by (by rewrite Hsplit).
  assert (part (split_on "_" acceptId) 4 = JStr instanceId) as Hpart4 by (by rewrite Hsplit).
  pose proof (btn_trade_accept cards db acceptId targetUser now' proposal.2 Hrecv Hacc)
    as Hrun.
  cbv zeta in Hrun. rewrite Hpart2, Hpart4 in Hrun.
  change (to_string (JStr user)) with user in Hrun. fold st1 in Hrun.
  rewrite <-Hst in Hd, Hfind, He.
  pose proof (after_loads_keeps targetUser user user d proposal.2 Hd) as Hd1.
  fold st1 in Hd1.
  assert (inventory_at user st1 = inventory_at user proposal.2) as Hsame
    by (unfold inventory_at, session_at; by rewrite Hd, Hd1).
  rewrite Hsame, Hfind, He in Hrun.
  destruct (after_loads_Some db targetUser user proposal.2) as [[rd Hrd] _].
  fold st1 in Hrd.
  exists i, e. unfold accepted. rewrite on_button_trade by done. rewrite Hrun.
  split_and!; [exact He|exact Hid|done| | |done].
  - unfold inventory_at, session_at. simpl.
    rewrite lookup_alter_ne by done. by rewrite lookup_alter_eq, Hd1, Hd.
  - unfold inventory_at, session_at. simpl.
    rewrite lookup_alter_eq, lookup_alter_ne by done. by rewrite Hrd.
Qed.

(** X9. A proposal declined by its receiver changes nothing: the decline
    button of the proposal, pressed by the receiver, answers that the
    receiver declined; the only effect is the load of the receiver's own
    session, so the sender still holds the card and nothing is asked of
    the durable store on behalf of the trade. *)
Theorem proposal_declined_changes_nothing
    (user targetUser instanceId acceptId declineId cardName : string)
    (targetIsBot : bool) (now now' : Z) (st : State) :
  let proposal := cmd_trade cards db user now instanceId targetUser targetIsBot st in
  let declined := on_button TEST_MODE cards db rnd parseInt declineId targetUser now'
                    proposal.2 in
  has_char "_" user = false →
  has_char "_" targetUser = false →
  has_char "_" instanceId = false →
  proposal.1 = TradeProposed acceptId declineId cardName →
  declined.1 = TradeDeclined (JStr targetUser) ∧
  declined.2 = (getUserData db targetUser proposal.2).2 ∧
  inventory_at user declined.2 = inventory_at user proposal.2 ∧
  count_instance (JStr instanceId) (inventory_at user declined.2) ≠ 0%nat ∧
  (∀ v s, userData proposal.2 !! v = Some s → userData declined.2 !! v = Some s).
Proof.
  intros proposal declined Hu Ht Hi Hprop.
  destruct (cmd_trade_run user targetUser instanceId targetIsBot now st _ _ _ Hprop)
    as (i & e & Hst & Hne & [d Hd] & Hfind & He & Hid & _ & _ & ->).
  fold proposal in Hst. rewrite <-Hst in Hd, Hfind, He.
  destruct (decline_identifier user targetUser instanceId Hu Ht Hi) as [Hp Hsplit].
  set (declineId := "trade_decline_" +:+ user +:+ "_" +:+ targetUser +:+ "_" +:+ instanceId)
    in *.
  assert (part (split_on "_" declineId) 3 = JStr targetUser) as Hrecv by (by rewrite Hsplit).
  assert (part (split_on "_" declineId) 1 = JStr "decline") as Hdecl by (by rewrite Hsplit).
  unfold declined. rewrite on_button_trade by done.
  rewrite (btn_trade_decline cards db declineId targetUser now' proposal.2 Hrecv Hdecl).
  simpl.
  destruct (getUserData_post db targetUser proposal.2) as (s & st' & Heq & _ & Hkeep & _).
  rewrite Heq. simpl.
  assert (inventory_at user st' = inventory_at user proposal.2) as Hsame
    by (unfold inventory_at, session_at; by rewrite Hd, (Hkeep _ _ Hd)).
  split_and!; try done.
  rewrite Hsame. intros Hzero. apply findIndex_instance_None in Hzero. congruence.
Qed.

(** X11. A proposal whose card the sender trashes before the receiver
    answers cannot be accepted: when the sender held exactly one entry with
    the offered id and trashes it by its index, the accept button, pressed
    by the receiver, answers "Trade failed", and beyond the load of the
    receiver's session nothing changes, in memory or in what is sent to the
    durable store. *)
Theorem proposal_fails_after_trash
    (user targetUser instanceId acceptId declineId cardName : string)
    (targetIsBot : bool) (now now1 now2 : Z) (st : State) (i : nat) (e : Entry) :
  let proposal := cmd_trade cards db user now instanceId targetUser targetIsBot st in
  let trashed := cmd_trash cards db user now1 (Z.of_nat i) proposal.2 in
  let accepted := on_button TEST_MODE cards db rnd parseInt acceptId targetUser now2
                    trashed.2 in
  has_char "_" user = false →
  has_char "_" targetUser = false →
  has_char "_" instanceId = false →
  proposal.1 = TradeProposed acceptId declineId cardName →
  inventory_at user proposal.2 !! i = Some e →
  entryInstanceId e = JStr instanceId →
  count_instance (JStr instanceId) (inventory_at user proposal.2) = 1%nat →
  inventory_at user trashed.2 = splice1 i (inventory_at user proposal.2) ∧
  accepted.1 = TradeFailed ∧
  accepted.2 = after_loads db targetUser user trashed.2 ∧
  inventory_at user accepted.2 = inventory_at user trashed.2 ∧
  requests accepted.2 = requests (getUserData db targetUser trashed.2).2.
Proof.
  intros proposal trashed accepted Hu Ht Hi Hprop He Hid Hone.
  destruct (cmd_trade_run user targetUser instanceId targetIsBot now st _ _ _ Hprop)
    as (i0 & e0 & Hst & Hne & [d Hd] & _ & _ & _ & _ & -> & _).
  fold proposal in Hst. rewrite <-Hst in Hd.
  destruct (accept_identifier user targetUser instanceId Hu Ht Hi) as [Hp Hsplit].
  set (acceptId := "trade_accept_" +:+ user +:+ "_" +:+ targetUser +:+ "_" +:+ instanceId)
    in *.
  assert (inventory_at user proposal.2 = inventory d) as Hinv
    by (unfold inventory_at, session_at; by rewrite Hd).
  (* the trash *)
  pose proof (cmd_trash_run cards db user now1 (Z.of_nat i) proposal.2) as Htrash.
  cbv zeta in Htrash. rewrite (getUserData_cached db user proposal.2 d Hd) in Htrash.
  simpl in Htrash. unfold session_at in Htrash. rewrite Hd in Htrash. simpl in Htrash.
  rewrite Hinv in He, Hone.
  pose proof (lookup_lt_Some _ _ _ He) as Hlt.
  destruct (Z.ltb_spec (Z.of_nat i) 0); [lia|].
  destruct (Z.leb_spec (Z.of_nat (length (inventory d))) (Z.of_nat i)); [lia|].
  simpl in Htrash. rewrite Nat2Z.id, He in Htrash. fold trashed in Htrash.
  assert (userData trashed.2 !! user
          = Some (set_inventory (splice1 i (inventory d)) d)) as Hd2
    by (rewrite Htrash; simpl; by rewrite lookup_alter_eq, Hd).
  assert (inventory_at user trashed.2 = splice1 i (inventory d)) as Hinv2
    by (unfold inventory_at, session_at; by rewrite Hd2).
  (* the accept *)
  assert (part (split_on "_" acceptId) 3 = JStr targetUser) as Hrecv by (by rewrite Hsplit).
  assert (part (split_on "_" acceptId) 1 ≠ JStr "decline") as Hacc by (by rewrite Hsplit).
  assert (part (split_on "_" acceptId) 2 = JStr user) as Hpart2 by (by rewrite Hsplit).
  assert (part (split_on "_" acceptId) 4 = JStr instanceId) as Hpart4 by (by rewrite Hsplit).
  pose proof (btn_trade_accept cards db acceptId targetUser now2 trashed.2 Hrecv Hacc)
    as Hrun.
  cbv zeta in Hrun. rewrite Hpart2, Hpart4 in Hrun.
  change (to_string (JStr user)) with user in Hrun.
  pose proof (after_loads_keeps targetUser user user _ trashed.2 Hd2) as Hd3.
  assert (inventory_at user (after_loads db targetUser user trashed.2)
          = splice1 i (inventory d)) as Hinv3
    by (unfold inventory_at, session_at; by rewrite Hd3).
  assert (count_instance (JStr instanceId) (splice1 i (inventory d)) = 0%nat) as Hzero.
  { pose proof (count_instance_splice1 (JStr instanceId) _ i e He Hid). lia. }
  rewrite Hinv3 in Hrun.
  rewrite (proj2 (findIndex_instance_None _ _) Hzero) in Hrun.
  unfold accepted. rewrite on_button_trade by done. rewrite Hrun. simpl.
  split_and!; [by rewrite Hinv2, Hinv|done|done|by rewrite Hinv3, Hinv2|].
  unfold after_loads.
  destruct (getUserData_post db targetUser trashed.2) as (s1 & st1 & Heq1 & _ & Hkeep & _).
  rewrite Heq1. simpl.
  by rewrite (getUserData_cached db user st1 _ (Hkeep _ _ Hd2)).
Qed.

Lemma accept_identifier_cut (user targetUser a b : string) :
  has_char "_" user = false →
  has_char "_" targetUser = false →
  has_char "_" a = false →
  let acceptId := "trade_accept_" +:+ user +:+ "_" +:+ targetUser +:+ "_"
                    +:+ (a +:+ "_" +:+ b) in
  String.prefix "trade_accept_" acceptId || String.prefix "trade_decline_" acceptId = true ∧
  split_on "_" acceptId
    = (["trade"; "accept"; user; targetUser; a] ++ split_on "_" b)%list.
Proof.
  intros Hu Ht Ha acceptId. split.
  - unfold acceptId. by rewrite prefix_app.
  - unfold acceptId.
    change ("trade_accept_" +:+ ?x) with ("trade" +:+ String "_" ("accept" +:+ String "_" x)).
    rewrite !split_on_app by done.
    change (user +:+ "_" +:+ ?x) with (user +:+ String "_" x).
    rewrite split_on_app by done.
    change (targetUser +:+ "_" +:+ ?x) with (targetUser +:+ String "_" x).
    rewrite split_on_app by done.
    change (a +:+ "_" +:+ b) with (a +:+ String "_" b).
    by rewrite split_on_app.
Qed.

(** X12. The instance id does not survive the button identifier when it
    holds an underscore: [/trade] proposes a card whose id is
    [a ++ "_" ++ b], but the accept button looks in the sender's inventory
    for the id [a]; when the sender holds no entry with the id [a] the
    receiver's acceptance answers "Trade failed" and the sender keeps the
    card. *)
Theorem proposal_with_underscore_cannot_be_accepted
    (user targetUser a b acceptId declineId cardName : string)
    (targetIsBot : bool) (now now' : Z) (st : State) :
  let instanceId := a +:+ "_" +:+ b in
  let proposal := cmd_trade cards db user now instanceId targetUser targetIsBot st in
  let accepted := on_button TEST_MODE cards db rnd parseInt acceptId targetUser now'
                    proposal.2 in
  has_char "_" user = false →
  has_char "_" targetUser = false →
  has_char "_" a = false →
  proposal.1 = TradeProposed acceptId declineId cardName →
  count_instance (JStr a) (inventory_at user proposal.2) = 0%nat →
  part (split_on "_" acceptId) 4 = JStr a ∧
  accepted.1 = TradeFailed ∧
  inventory_at user accepted.2 = inventory_at user proposal.2 ∧
  count_instance (JStr instanceId) (inventory_at user accepted.2) ≠ 0%nat.
Proof.
  intros instanceId proposal accepted Hu Ht Ha Hprop Hzero.
  destruct (cmd_trade_run user targetUser instanceId targetIsBot now st _ _ _ Hprop)
    as (i & e & Hst & Hne & [d Hd] & Hfind & _ & _ & _ & -> & _).
  fold proposal in Hst. rewrite <-Hst in Hd, Hfind.
  destruct (accept_identifier_cut user targetUser a b Hu Ht Ha) as [Hp Hsplit].
  fold instanceId in Hp, Hsplit.
  set (acceptId := "trade_accept_" +:+ user +:+ "_" +:+ targetUser +:+ "_" +:+ instanceId)
    in *.
  assert (part (split_on "_" acceptId) 3 = JStr targetUser) as Hrecv by (by rewrite Hsplit).
  assert (part (split_on "_" acceptId) 1 ≠ JStr "decline") as Hacc by (by rewrite Hsplit).
  assert (part (split_on "_" acceptId) 2 = JStr user) as Hpart2 by (by rewrite Hsplit).
  assert (part (split_on "_" acceptId) 4 = JStr a) as Hpart4 by (by rewrite Hsplit).
  pose proof (btn_trade_accept cards db acceptId targetUser now' proposal.2 Hrecv Hacc)
    as Hrun.
  cbv zeta in Hrun. rewrite Hpart2, Hpart4 in Hrun.
  change (to_string (JStr user)) with user in Hrun.
  pose proof (after_loads_keeps targetUser user user d proposal.2 Hd) as Hd1.
  assert (inventory_at user (after_loads db targetUser user proposal.2)
          = inventory_at user proposal.2) as Hsame
    by (unfold inventory_at, session_at; by rewrite Hd, Hd1).
  rewrite Hsame in Hrun.
  rewrite (proj2 (findIndex_instance_None _ _) Hzero) in Hrun.
  unfold accepted. rewrite on_button_trade by done. rewrite Hrun. simpl.
  split_and!; [done|done|exact Hsame|].
  rewrite Hsame. intros Hz. apply findIndex_instance_None in Hz. congruence.
Qed.

(** ** Reset *)

(** X8. [/reset_me] replaces the session of the user by an empty inventory
    and zero timestamps, without a [pickChoices] property, touches no other
    session, and asks the store to delete the inventory rows and to reset
    the [users] row.  A pick session that was open is gone: a press on any
    pick button afterwards is answered "No active pick session" and adds
    nothing. *)
Theorem reset_me_clears_the_session (user customId : string) (now now' : Z) (st : State) :
  let st0 := (getUserData db user st).2 in
  let reset := cmd_reset_me db user now st in
  let pressed := btn_pick db rnd parseInt customId user now' reset.2 in
  reset.1 = DataReset ∧
  userData reset.2 !! user
    = Some {| inventory := []; lastDraw := 0; lastPack := 0; lastPick := 0;
              pickChoices := None |} ∧
  (∀ v, v ≠ user → userData reset.2 !! v = userData st0 !! v) ∧
  requests reset.2 = (requests st0 ++ [DeleteInventoryOf user; ResetUserRow user])%list ∧
  pressed = (NoActivePick, reset.2).
Proof.
  intros st0 reset pressed.
  assert (reset = (DataReset,
            {| userData := <[user := {| inventory := []; lastDraw := 0; lastPack := 0;
                                        lastPick := 0; pickChoices := None |}]>
                             (userData st0);
               imageCache := imageCache st0;
               combinedImageCache := combinedImageCache st0;
               requests := (requests st0 ++ [DeleteInventoryOf user; ResetUserRow user])%list;
               fetches := fetches st0; draws := draws st0 |})) as Hrun.
  { unfold reset, cmd_reset_me, st0. unfold mbind at 1. unfold M_bind at 1.
    destruct (getUserData db user st) as [d st']. run. by rewrite <-app_assoc. }
  assert (userData reset.2 !! user
          = Some {| inventory := []; lastDraw := 0; lastPack := 0; lastPick := 0;
                    pickChoices := None |}) as Hu
    by (rewrite Hrun; simpl; by rewrite lookup_insert_eq).
  split_and!; try (by rewrite Hrun).
  - done.
  - intros v Hv. rewrite Hrun. simpl. by rewrite lookup_insert_ne.
  - unfold pressed. rewrite btn_pick_run.
    rewrite (getUserData_cached db user reset.2 _ Hu). simpl.
    unfold session_at. by rewrite Hu.
Qed.

(** ** The channel restriction *)

(** X13. After [setGuildChannel g c] the bot answers in guild [g] in the
    channel [c] and in no other, whether or not the upsert to the durable
    store went through (the caller is told of a failure, but the map has
    already been written); other guilds, and interactions without a guild,
    are as before. *)
Theorem setGuildChannel_restricts_the_guild (upsert_rejects : bool)
    (guildId channelId : string) (serverConfig : gmap string string) :
  let result := setGuildChannel upsert_rejects guildId channelId serverConfig in
  result.1 = negb upsert_rejects ∧
  (∀ ch, isAllowedChannel result.2 (Some guildId) ch = true ↔ ch = channelId) ∧
  (∀ g ch, g ≠ guildId →
     isAllowedChannel result.2 (Some g) ch = isAllowedChannel serverConfig (Some g) ch) ∧
  (∀ ch, isAllowedChannel result.2 None ch = true).
Proof.
  clear TEST_MODE cards db rnd net canvas parseInt.
  unfold setGuildChannel, isAllowedChannel. simpl. split_and!; try done.
  - intros ch. rewrite lookup_insert_eq. rewrite bool_decide_eq_true. naive_solver.
  - intros g ch Hg. by rewrite lookup_insert_ne.
Qed.

Lemma loadServerConfigs_lookup (rows : list (string * string))
    (serverConfig : gmap string string) (g : string) :
  NoDup rows.*1 →
  loadServerConfigs (Data rows) serverConfig !! g =
    match list_find (λ config, config.1 = g) rows with
    | Some (_, config) => Some config.2
    | None => serverConfig !! g
    end.
Proof.
  clear TEST_MODE cards db rnd net canvas parseInt.
  unfold loadServerConfigs. revert serverConfig.
  induction rows as [|[g' c'] rows IH]; intros serverConfig Hnd; [done|].
  apply NoDup_cons in Hnd as [Hnotin Hnd]. simpl in Hnotin.
  simpl. rewrite IH by done.
  destruct (decide (g' = g)) as [->|Hne]; simpl.
  - destruct (list_find _ rows) as [[j config]|] eqn:Hfind.
    + apply list_find_Some in Hfind as (Hj & Hg & _).
      exfalso. apply Hnotin. apply list_elem_of_fmap. exists config. split; [done|].
      by eapply list_elem_of_lookup_2.
    + by rewrite lookup_insert_eq.
  - destruct (list_find _ rows) as [[j config]|]; simpl; [done|].
    by rewrite lookup_insert_ne.
Qed.

(** X14. [loadServerConfigs] on the rows of [server_config], whose guild ids
    are distinct (the primary key), starting from the empty map: a guild
    with a row is answered in the channel of its row only, a guild without
    a row in every channel.  When the read fails the map stays as it was,
    so from the empty map every channel of every guild is answered. *)
Theorem loadServerConfigs_restricts_listed_guilds (rows : list (string * string))
    (g ch : string) :
  NoDup rows.*1 →
  (isAllowedChannel (loadServerConfigs (Data rows) ∅) (Some g) ch = true ↔
     (g ∉ rows.*1 ∨ (g, ch) ∈ rows)) ∧
  (∀ code serverConfig, loadServerConfigs (Err code) serverConfig = serverConfig) ∧
  (∀ serverConfig, loadServerConfigs Throws serverConfig = serverConfig) ∧
  (∀ code, isAllowedChannel (loadServerConfigs (Err code) ∅) (Some g) ch = true).
Proof.
  clear TEST_MODE cards db rnd net canvas parseInt.
  intros Hnd. split_and!; try done.
  unfold isAllowedChannel. rewrite loadServerConfigs_lookup by done.
  destruct (list_find (λ config, config.1 = g) rows) as [[j [g' c']]|] eqn:Hfind.
  - apply list_find_Some in Hfind as (Hj & Hg & _). simpl in Hg. subst g'.
    simpl. rewrite bool_decide_eq_true. split.
    + intros ->. right. by eapply list_elem_of_lookup_2.
    + intros [Hnot|Hin].
      * exfalso. apply Hnot. apply list_elem_of_fmap. exists (g, c'). split; [done|].
        by eapply list_elem_of_lookup_2.
      * apply list_elem_of_lookup in Hin as [k Hk].
        assert (rows.*1 !! j = Some g) as Hj1 by (by rewrite list_lookup_fmap, Hj).
        assert (rows.*1 !! k = Some g) as Hk1 by (by rewrite list_lookup_fmap, Hk).
        pose proof (NoDup_lookup _ _ _ _ Hnd Hj1 Hk1) as ->. congruence.
  - rewrite lookup_empty. split; [|done]. intros _. left.
    apply list_find_None in Hfind. intros Hin.
    apply list_elem_of_fmap in Hin as ([g' c'] & Hg & Hin). simpl in Hg. subst g'.
    rewrite Forall_forall in Hfind. by apply (Hfind _ Hin).
Qed.

(** X15. Once a guild is restricted to a channel, a button press or a text
    command in any other channel of that guild is refused before anything
    is read or written: the state is exactly as it was, not even the
    session of the user is loaded.  In the configured channel the press is
    handled as usual. *)
Theorem refused_interaction_touches_nothing (upsert_rejects : bool)
    (guildId channelId ch customId command user : string) (now : Z)
    (serverConfig : gmap string string) (st : State) :
  let restricted := (setGuildChannel upsert_rejects guildId channelId serverConfig).2 in
  ch ≠ channelId →
  button_interaction TEST_MODE cards db rnd parseInt restricted (Some guildId) ch
    customId user now st = (ChannelRefused, st) ∧
  (String.prefix "kd" command = true →
   on_message TEST_MODE cards db rnd net canvas restricted false (Some guildId) ch
     command user now st = (ChannelRefused, st)) ∧
  button_interaction TEST_MODE cards db rnd parseInt restricted (Some guildId) channelId
    customId user now st
    = (Answered (on_button TEST_MODE cards db rnd parseInt customId user now st).1,
       (on_button TEST_MODE cards db rnd parseInt customId user now st).2).
Proof.
  intros restricted Hch.
  assert (isAllowedChannel restricted (Some guildId) ch = false) as Hno.
  { unfold restricted, setGuildChannel, isAllowedChannel. simpl.
    rewrite lookup_insert_eq. apply bool_decide_eq_false_2. congruence. }
  assert (isAllowedChannel restricted (Some guildId) channelId = true) as Hyes.
  { unfold restricted, setGuildChannel, isAllowedChannel. simpl.
    rewrite lookup_insert_eq. by apply bool_decide_eq_true_2. }
  split_and!.
  - unfold button_interaction. by rewrite Hno.
  - intros Hkd. unfold on_message. by rewrite Hkd, Hno.
  - unfold button_interaction. rewrite Hyes. simpl.
    unfold mbind, M_bind. by destruct (on_button _ _ _ _ _ _ _ _ st).
Qed.

(** ** Text commands *)

Lemma msg_pick_outcome (user : string) (now : Z) (st : State) :
  match (msg_pick TEST_MODE cards db rnd net canvas user now st).1 with
  | Answered _ | PickPrompt _ => True
  | _ => False
  end.
Proof.
  unfold msg_pick. unfold mbind at 1. unfold M_bind at 1.
  destruct (getUserData db user st) as [d st0].
  destruct (gate TEST_MODE Pick d now); [done|].
  unfold mbind at 1. unfold M_bind at 1.
  destruct (choices_loop cards rnd 3 [] st0) as [choices st1].
  destruct choices as [|c0 [|c1 [|c2 [|c3 cs]]]]; try done.
  unfold saveUserCooldowns. run.
  match goal with
  | |- context [combineCardImages ?n ?c ?u1 ?u2 ?u3 ?s] =>
      destruct (combineCardImages n c u1 u2 u3 s) as [[b|] st3]
  end; done.
Qed.

(** X16. Which messages are answered.  A message from a bot, or one that
    neither starts with [kd] nor is [pick] or [pk], is ignored and changes
    nothing.  So the binder page is shown for [kd binder] and [kd b] only,
    and the help text for [kd help] only: the plain [binder] and [help]
    that the dispatch also tests for never get an answer. *)
Theorem on_message_ignores_plain_binder_and_help (serverConfig : gmap string string)
    (authorIsBot : bool) (guildId : option string) (channelId command user : string)
    (now : Z) (st : State) :
  let result := on_message TEST_MODE cards db rnd net canvas serverConfig authorIsBot
                  guildId channelId command user now st in
  (result.1 = Ignored → result.2 = st) ∧
  (authorIsBot = true ∨
   (String.prefix "kd" command = false ∧ command ≠ "pick" ∧ command ≠ "pk") →
   result = (Ignored, st)) ∧
  (result.1 = BinderPage → command = "kd binder" ∨ command = "kd b") ∧
  (result.1 = HelpText → command = "kd help") ∧
  (command = "binder" ∨ command = "help" → result = (Ignored, st)).
Proof.
  intros result.
  assert (authorIsBot = true ∨
          (String.prefix "kd" command = false ∧ command ≠ "pick" ∧ command ≠ "pk") →
          result = (Ignored, st)) as Hignored.
  { unfold result, on_message. intros [->|(Hkd & Hpick & Hpk)]; [done|].
    destruct authorIsBot; [done|].
    rewrite Hkd. apply String.eqb_neq in Hpick, Hpk. by rewrite Hpick, Hpk. }
  assert (result = (Ignored, st) ∨
          result.1 = ChannelRefused ∨
          (∃ reply, result.1 = Answered reply) ∨
          (∃ choices, result.1 = PickPrompt choices) ∨
          result.1 = InventoryText ∨
          (result.1 = BinderPage ∧ (command = "kd binder" ∨ command = "kd b")) ∨
          (result.1 = HelpText ∧ command = "kd help") ∨
          result.1 = Silent) as Hcases.
  { unfold result, on_message.
    destruct authorIsBot; [by left|].
    destruct (negb (String.prefix "kd" command) && negb (String.eqb command "pick")
              && negb (String.eqb command "pk")) eqn:Hfilter; [by left|].
    destruct (negb (isAllowedChannel serverConfig guildId channelId)); [by right; left|].
    unfold one_of.
    destruct (bool_decide_reflect (command ∈ ["kd"; "kd draw"; "kd d"])).
    { unfold mbind, M_bind. destruct (msg_draw _ _ _ _ _ _ st). simpl. eauto 10. }
    destruct (bool_decide_reflect (command ∈ ["kd pack"; "kd p"])).
    { unfold mbind, M_bind. destruct (msg_pack _ _ _ _ _ _ st). simpl. eauto 10. }
    destruct (bool_decide_reflect (command ∈ ["kd inventory"; "kd inv"; "kd i"])).
    { unfold mbind, M_bind. destruct (getUserData db user st). simpl. eauto 10. }
    destruct (bool_decide_reflect (command ∈ ["kd binder"; "kd b"; "binder"])) as [Hb|].
    { unfold mbind, M_bind. destruct (getUserData db user st). simpl.
      do 5 right. left. split; [done|].
      apply elem_of_cons in Hb as [->|Hb]; [by left|].
      apply elem_of_cons in Hb as [->|Hb]; [by right|].
      apply list_elem_of_singleton in Hb as ->. discriminate Hfilter. }
    destruct (bool_decide_reflect (command ∈ ["kd pick"; "kd pk"; "pk"; "pick"])).
    { pose proof (msg_pick_outcome user now st) as Hpick.
      destruct (msg_pick _ _ _ _ _ _ _ _ st) as [[] st']; simpl in *; try done; eauto 10. }
    destruct (bool_decide_reflect (command ∈ ["kd help"; "help"])) as [Hh|].
    { unfold mbind, M_bind. destruct (getUserData db user st). simpl.
      do 6 right. left. split; [done|].
      apply elem_of_cons in Hh as [->|Hh]; [done|].
      apply list_elem_of_singleton in Hh as ->. discriminate Hfilter. }
    unfold mbind, M_bind. destruct (getUserData db user st). simpl. eauto 10. }
  split_and!.
  - intros Hi. destruct Hcases as [H|[H|[[? H]|[[? H]|[H|[[H _]|[[H _]|H]]]]]]];
      first [by rewrite H|congruence].
  - exact Hignored.
  - intros Hb. destruct Hcases as [H|[H|[[? H]|[[? H]|[H|[[_ H]|[[H _]|H]]]]]]];
      first [exact H|by rewrite H in Hb|congruence].
  - intros Hh. destruct Hcases as [H|[H|[[? H]|[[? H]|[H|[[H _]|[[_ H]|H]]]]]]];
      first [exact H|by rewrite H in Hh|congruence].
  - intros [-> | ->]; apply Hignored; right; done.
Qed.

(** ** Picks, from the command to the button *)

Lemma choices_loop_S (n : nat) (choices : list Card.t) :
  choices_loop cards rnd (S n) choices =
    (card ← randomCard cards rnd;
     match card with
     | None => mret choices
     | Some card => choices_loop cards rnd n (choices ++ [card])
     end).
Proof. reflexivity. Qed.

Lemma choices_loop_full (n : nat) (choices : list Card.t) (st : State) :
  rnd_in_range rnd →
  cards ≠ [] →
  ∃ cs, length cs = n ∧ Forall (λ c, c ∈ cards) cs ∧
        choices_loop cards rnd n choices st
          = ((choices ++ cs)%list, with_draws (n + draws st) st).
Proof.
  intros Hr Hne. revert choices st. induction n as [|n IH]; intros choices st.
  - exists []. split_and!; [done|constructor|].
    unfold choices_loop, mret, M_ret. rewrite app_nil_r. by destruct st.
  - rewrite choices_loop_S. unfold mbind, M_bind.
    destruct (randomCard_nonempty st Hr Hne) as (card & -> & Hin).
    destruct (IH (choices ++ [card])%list (with_draws (S (draws st)) st))
      as (cs & Hlen & Hall & ->).
    exists (card :: cs). split_and!.
    + simpl. by rewrite Hlen.
    + by constructor.
    + rewrite <-app_assoc. simpl. f_equal. unfold with_draws. simpl. f_equal. lia.
Qed.

Lemma fetchAndCacheImage_seen_frame (seen : gmap string Image) (url : string) (st : State) :
  let st' := (fetchAndCacheImage_seen net seen url st).2 in
  userData st' = userData st ∧ requests st' = requests st ∧ draws st' = draws st.
Proof.
  unfold fetchAndCacheImage_seen.
  destruct (seen !! url); [done|].
  unfold mbind, M_bind, network_get. simpl.
  by destruct (net (length (fetches st)) url).
Qed.

(** Composing images touches the two image caches and the download log
    only. *)
Lemma combineCardImages_frame (card1Url card2Url card3Url : string) (st : State) :
  let st' := (combineCardImages net canvas card1Url card2Url card3Url st).2 in
  userData st' = userData st ∧ requests st' = requests st ∧ draws st' = draws st.
Proof.
  unfold combineCardImages.
  destruct (combinedImageCache st !! (card1Url +:+ _)); [done|].
  unfold mbind, M_bind.
  pose proof (fetchAndCacheImage_seen_frame (imageCache st) card1Url st) as (H1 & H1' & H1'').
  destruct (fetchAndCacheImage_seen net (imageCache st) card1Url st) as [r1 st1].
  pose proof (fetchAndCacheImage_seen_frame (imageCache st) card2Url st1) as (H2 & H2' & H2'').
  destruct (fetchAndCacheImage_seen net (imageCache st) card2Url st1) as [r2 st2].
  pose proof (fetchAndCacheImage_seen_frame (imageCache st) card3Url st2) as (H3 & H3' & H3'').
  destruct (fetchAndCacheImage_seen net (imageCache st) card3Url st2) as [r3 st3].
  simpl in *. destruct r1, r2, r3; simpl; split_and!; congruence.
Qed.

(** A text pick that passes its gate. *)
Lemma msg_pick_run (user : string) (now : Z) (st : State) :
  let st0 := (getUserData db user st).2 in
  let data := session_at user st0 in
  rnd_in_range rnd →
  cards ≠ [] →
  gate TEST_MODE Pick data now = None →
  ∃ c0 c1 c2,
    c0 ∈ cards ∧ c1 ∈ cards ∧ c2 ∈ cards ∧
    let committed :=
      {| userData := <[user := set_pickChoices (Some [c0; c1; c2]) (set_lastPick now data)]>
                       (userData st0);
         imageCache := imageCache st0;
         combinedImageCache := combinedImageCache st0;
         requests := (requests st0 ++
           [UpsertCooldowns user (lastDraw data) (lastPack data) now])%list;
         fetches := fetches st0;
         draws := (3 + draws st0)%nat |} in
    let composed := combineCardImages net canvas
                      (Card.imageUrl c0) (Card.imageUrl c1) (Card.imageUrl c2) committed in
    msg_pick TEST_MODE cards db rnd net canvas user now st =
      (match composed.1 with
       | Some _ => PickPrompt [c0; c1; c2]
       | None => Answered ImagesFailed
       end, composed.2).
Proof.
  intros st0 data Hr Hne Hg.
  destruct (choices_loop_full 3 [] st0 Hr Hne) as (cs & Hlen & Hall & Hloop).
  destruct cs as [|c0 [|c1 [|c2 [|c3 cs]]]]; try discriminate Hlen.
  apply Forall_cons in Hall as [H0 Hall].
  apply Forall_cons in Hall as [H1 Hall].
  apply Forall_cons in Hall as [H2 _].
  exists c0, c1, c2. split_and!; [done..|].
  assert (getUserData db user st = (data, st0)) as Heq.
  { unfold data, session_at, st0.
    destruct (getUserData_post db user st) as (d & st' & -> & Hu & _). simpl.
    by rewrite Hu. }
  pose proof (getUserData_loaded db user st) as Hloaded. fold st0 data in Hloaded.
  intros committed composed.
  unfold msg_pick. unfold mbind at 1. unfold M_bind at 1. rewrite Heq, Hg.
  unfold mbind at 1. unfold M_bind at 1. rewrite Hloop. simpl app.
  unfold saveUserCooldowns. run.
  rewrite !lookup_alter_eq, Hloaded. simpl.
  assert (alter (set_pickChoices (Some [c0; c1; c2])) user
            (alter (set_lastPick now) user (userData st0))
          = <[user := set_pickChoices (Some [c0; c1; c2]) (set_lastPick now data)]>
              (userData st0)) as ->.
  { apply map_eq. intros v. destruct (decide (v = user)) as [->|Hv].
    - by rewrite !lookup_alter_eq, Hloaded, lookup_insert_eq.
    - by rewrite !lookup_alter_ne, lookup_insert_ne. }
  unfold composed, committed. simpl.
  match goal with
  | |- context [combineCardImages ?n ?c ?u1 ?u2 ?u3 ?s] =>
      destruct (combineCardImages n c u1 u2 u3 s) as [[b|] st3]
  end; done.
Qed.

(** X17. A text pick that passes its gate, on a non-empty catalog and with
    the random source in range, commits before it composes the images: it
    stores three cards of the catalog as [pickChoices], sets [lastPick] to
    now and sends the upsert of the cooldowns, whether the prompt is then
    shown or the images fail.  A press on the pick button of slot 0, 1 or 2
    afterwards appends exactly the card stored in that slot and closes the
    pick session. *)
Theorem text_pick_then_button (user customId : string) (now now' i : Z) (st : State) :
  let st0 := (getUserData db user st).2 in
  let data := session_at user st0 in
  let prompted := msg_pick TEST_MODE cards db rnd net canvas user now st in
  let pressed := btn_pick db rnd parseInt customId user now' prompted.2 in
  rnd_in_range rnd →
  cards ≠ [] →
  gate TEST_MODE Pick data now = None →
  parseInt (to_string (part (split_on "_" customId) 2)) = Some i →
  0 ≤ i < 3 →
  ∃ (choices : list Card.t) (card : Card.t) (quality : Z) (instanceId : string),
    length choices = 3%nat ∧ Forall (λ c, c ∈ cards) choices ∧
    (prompted.1 = PickPrompt choices ∨ prompted.1 = Answered ImagesFailed) ∧
    session_at user prompted.2 = set_pickChoices (Some choices) (set_lastPick now data) ∧
    requests prompted.2 = (requests st0 ++
      [UpsertCooldowns user (lastDraw data) (lastPack data) now])%list ∧
    at_index choices i = Some card ∧
    pressed.1 = Picked card quality ∧
    inventory_at user pressed.2
      = (inventory data ++ [camel_entry card now' instanceId])%list ∧
    pickChoices (session_at user pressed.2) = Some [].
Proof.
  intros st0 data prompted pressed Hr Hne Hg Hparse Hi.
  destruct (msg_pick_run user now st Hr Hne Hg) as (c0 & c1 & c2 & H0 & H1 & H2 & Hrun).
  fold st0 data in Hrun. cbv zeta in Hrun. fold prompted in Hrun.
  set (committed := {| userData := _ |}) in Hrun.
  pose proof (combineCardImages_frame (Card.imageUrl c0) (Card.imageUrl c1)
                (Card.imageUrl c2) committed) as (Hud & Hreq & Hdr).
  set (composed := combineCardImages net canvas _ _ _ committed) in *.
  assert (prompted.2 = composed.2) as Hst by (by rewrite Hrun).
  assert (userData prompted.2 !! user
          = Some (set_pickChoices (Some [c0; c1; c2]) (set_lastPick now data))) as Hu.
  { rewrite Hst, Hud. unfold committed. simpl. by rewrite lookup_insert_eq. }
  destruct (at_index_in_bounds [c0; c1; c2] i ltac:(simpl; lia)) as [card Hcard].
  pose proof (btn_pick_run db rnd parseInt customId user now' prompted.2) as Hpress.
  cbv zeta in Hpress. fold pressed in Hpress.
  rewrite (getUserData_cached db user prompted.2 _ Hu) in Hpress. simpl in Hpress.
  unfold session_at in Hpress. rewrite Hu in Hpress. simpl in Hpress.
  rewrite Hparse in Hpress. simpl in Hpress. rewrite Hcard in Hpress.
  exists [c0; c1; c2], card,
    (random_quality rnd (with_draws (4 + draws prompted.2) prompted.2)).1,
    (generateCardInstanceId rnd prompted.2).1.
  split_and!.
  - done.
  - by repeat constructor.
  - rewrite Hrun. simpl. destruct composed.1; auto.
  - unfold session_at. by rewrite Hu.
  - by rewrite Hst, Hreq.
  - done.
  - by rewrite Hpress.
  - rewrite Hpress. unfold inventory_at, session_at. simpl.
    by rewrite !lookup_alter_eq, Hu.
  - rewrite Hpress. unfold session_at. simpl.
    by rewrite !lookup_alter_eq, Hu.
Qed.



(** ** What a load writes *)

(** X19. [getUserData] leaves the image caches, the download log and the
    random source alone, and writes to the durable store in one case only:
    on a cache miss where neither read rejects and the [users] read brought
    no row, it sends one insert of a [users] row with zero timestamps.
    That happens for a user who has no row, and also when the [users] read
    came back with any other error. *)
Theorem getUserData_inserts_only_a_missing_user (userId : string) (st : State) :
  let result := getUserData db userId st in
  let inserts :=
    bool_decide (userData st !! userId = None) &&
    negb (rejects (users_single (db userId))) &&
    negb (rejects (inventory_select (db userId))) &&
    bool_decide (resp_data (users_single (db userId)) = None) in
  requests result.2
    = (requests st ++ if inserts then [InsertUser userId 0 0 0] else [])%list ∧
  imageCache result.2 = imageCache st ∧
  combinedImageCache result.2 = combinedImageCache st ∧
  fetches result.2 = fetches st ∧
  draws result.2 = draws st ∧
  (∀ code, userData st !! userId = None →
     users_single (db userId) = Err code →
     inventory_select (db userId) ≠ Throws →
     inserts = true).
Proof.
  clear TEST_MODE cards rnd net canvas parseInt.
  intros result inserts. unfold result, inserts, getUserData, getUserData_fallback. run.
  destruct (userData st !! userId) as [s|] eqn:Hc; simpl.
  { rewrite app_nil_r. split_and!; try done. }
  destruct (users_single (db userId)) as [u|code|] eqn:Hu;
    destruct (inventory_select (db userId)) as [rows|code'|] eqn:Hi;
    destruct (users_insert_rejects (db userId)); simpl;
    rewrite ?app_nil_r; split_and!; try done.
Qed.

(** ** The text of a refusal *)

Lemma String_app_cons (c : ascii) (a b : string) :
  String c a +:+ b = String c (a +:+ b).
Proof. reflexivity. Qed.

Lemma app_s_is_0s (a : string) : a +:+ "s" = "0s" → a = "0".
Proof.
  destruct a as [|c [|d a]]; rewrite ?String_app_cons.
  - discriminate.
  - intros H. injection H as ->. done.
  - intros H. injection H as _ _ H. destruct a; discriminate.
Qed.

Lemma minutes_text_is_not_0s (x y : string) : x +:+ "m " +:+ y ≠ "0s".
Proof.
  destruct x as [|c [|d x]]; rewrite ?String_app_cons.
  - discriminate.
  - intros H. injection H as _ H. discriminate.
  - intros H. injection H as _ _ H. destruct x; discriminate.
Qed.

Lemma msToNice_0s (ms : Z) : 0 ≤ ms → msToNice ms = "0s" → ms = 0.
Proof.
  clear TEST_MODE cards db rnd net canvas parseInt.
  intros Hms. unfold msToNice.
  pose proof (ceil_div_bounds ms 1000 ltac:(lia)) as Hb.
  set (t := ceil_div ms 1000) in *.
  destruct (Z.ltb_spec 0 (t / 60)) as [Hm|Hm].
  - intros H. by apply minutes_text_is_not_0s in H.
  - intros H. apply app_s_is_0s in H.
    assert (0 ≤ t) by lia.
    rewrite Z.rem_mod_nonneg in H by lia.
    assert (t < 60).
    { destruct (Z.lt_ge_cases t 60) as [|Hge]; [done|].
      assert (0 < t / 60) by (apply Z.div_str_pos; lia). lia. }
    rewrite Z.mod_small in H by lia.
    change "0" with (pretty 0) in H. apply (inj pretty) in H. lia.
Qed.

Ltac refusal_steps :=
  repeat (unfold mbind at 1; unfold M_bind at 1;
          match goal with
          | |- context [let '(_, _) := ?m in _] =>
              let a := fresh "a" in let st := fresh "st" in
              destruct m as [a st]; try destruct a
          end; simpl).

(** Load the session and split on the gate of action [act]: a refusal
    reports what the gate computed, and past the gate no reply is a
    refusal. *)
Ltac refusal_cases user now st act :=
  let d := fresh "d" in let st' := fresh "st'" in
  let Heq := fresh "Heq" in let Hu := fresh "Hu" in let Hg := fresh "Hg" in
  unfold session_at;
  destruct (getUserData_post db user st) as (d & st' & Heq & Hu & _);
  unfold mbind at 1; unfold M_bind at 1;
  rewrite Heq; simpl; rewrite Hu; simpl;
  rewrite ?(bool_decide_eq_false_2 (cards = [])) by done;
  destruct (gate TEST_MODE act d now) eqn:Hg;
  [simpl; intros [= <- <-]; split; reflexivity|].

(** Only the gate makes a handler answer with a refusal, and the wait it
    reports is the one the gate computed on the session just loaded. *)
Lemma refusal_is_the_gate (fe : FrontEnd) (user : string) (now : Z) (st : State)
    (a : Action) (r : Z) :
  let data := session_at user (getUserData db user st).2 in
  ((draw_via TEST_MODE cards db rnd fe user now st).1 = OnCooldown a r →
     a = Draw ∧ gate TEST_MODE Draw data now = Some r) ∧
  ((pack_via TEST_MODE cards db rnd fe user now st).1 = OnCooldown a r →
     a = Pack ∧ gate TEST_MODE Pack data now = Some r) ∧
  ((cmd_pick TEST_MODE cards db rnd net canvas user now st).1 = OnCooldown a r →
     a = Pick ∧ gate TEST_MODE Pick data now = Some r) ∧
  ((msg_pick TEST_MODE cards db rnd net canvas user now st).1 = Answered (OnCooldown a r) →
     a = Pick ∧ gate TEST_MODE Pick data now = Some r).
Proof.
  intros data. unfold data. clear data. clear parseInt.
  split_and!.
  - destruct fe; unfold draw_via, cmd_draw, btn_draw, msg_draw.
    + destruct (decide (cards = [])) as [Hnil|Hcards].
      * unfold mbind at 1. unfold M_bind at 1.
        destruct (getUserData db user st) as [d st']. simpl.
        rewrite bool_decide_eq_true_2 by done. discriminate.
      * refusal_cases user now st Draw. refusal_steps; discriminate.
    + refusal_cases user now st Draw. refusal_steps; discriminate.
    + refusal_cases user now st Draw. refusal_steps; discriminate.
  - destruct fe; unfold pack_via, cmd_pack, btn_pack, msg_pack.
    + destruct (decide (cards = [])) as [Hnil|Hcards].
      * unfold mbind at 1. unfold M_bind at 1.
        destruct (getUserData db user st) as [d st']. simpl.
        rewrite bool_decide_eq_true_2 by done. discriminate.
      * refusal_cases user now st Pack.
        unfold mbind at 1. unfold M_bind at 1.
        match goal with
        | |- context [pack_loop ?c ?r ?m ?u ?t ?n ?p ?s] =>
            destruct (pack_loop c r m u t n p s) as [pulled st2]
        end.
        run. by destruct (bool_decide (pulled = [])).
    + refusal_cases user now st Pack.
      unfold mbind at 1. unfold M_bind at 1.
      match goal with
      | |- context [pack_loop ?c ?r ?m ?u ?t ?n ?p ?s] =>
          destruct (pack_loop c r m u t n p s) as [pulled st2]
      end.
      run. try destruct (bool_decide (pulled = [])); discriminate.
    + refusal_cases user now st Pack.
      unfold mbind at 1. unfold M_bind at 1.
      match goal with
      | |- context [pack_loop ?c ?r ?m ?u ?t ?n ?p ?s] =>
          destruct (pack_loop c r m u t n p s) as [pulled st2]
      end.
      run. try destruct (bool_decide (pulled = [])); discriminate.
  - unfold cmd_pick. refusal_cases user now st Pick.
    unfold mbind at 1. unfold M_bind at 1.
    match goal with
    | |- context [choices_loop ?c ?r ?n ?p ?s] =>
        destruct (choices_loop c r n p s) as [choices st2]
    end.
    destruct choices as [|c0 [|c1 [|c2 [|c3 cs]]]]; try discriminate.
    run.
    match goal with
    | |- context [combineCardImages ?n ?c ?u1 ?u2 ?u3 ?s] =>
        destruct (combineCardImages n c u1 u2 u3 s) as [[b|] st3]
    end; discriminate.
  - unfold msg_pick.
    unfold session_at.
    destruct (getUserData_post db user st) as (d & st' & Heq & Hu & _).
    unfold mbind at 1. unfold M_bind at 1.
    rewrite Heq. simpl. rewrite Hu. simpl.
    destruct (gate TEST_MODE Pick d now) eqn:Hg;
      [simpl; intros [= <- <-]; split; reflexivity|].
    unfold mbind at 1. unfold M_bind at 1.
    match goal with
    | |- context [choices_loop ?c ?r ?n ?p ?s] =>
        destruct (choices_loop c r n p s) as [choices st2]
    end.
    destruct choices as [|c0 [|c1 [|c2 [|c3 cs]]]]; try discriminate.
    unfold saveUserCooldowns. run.
    match goal with
    | |- context [combineCardImages ?n ?c ?u1 ?u2 ?u3 ?s] =>
        destruct (combineCardImages n c u1 u2 u3 s) as [[b|] st3]
    end; discriminate.
Qed.

(** X21. A refused user is never told to wait ["0s"].  Whenever a draw or a
    pack, from any front end, or a slash or text pick answers with a
    refusal, the action it names is its own, the wait it hands to [msToNice]
    is the cooldown less the time since the last such action of the session
    just loaded, that wait is positive, and [msToNice] shows it rounded up
    to at least one whole second, never as ["0s"]. *)
Theorem refusal_never_shows_zero_seconds (fe : FrontEnd) (user : string) (now : Z)
    (st : State) (a : Action) (r : Z) :
  let data := session_at user (getUserData db user st).2 in
  let draw := (draw_via TEST_MODE cards db rnd fe user now st).1 in
  let pack := (pack_via TEST_MODE cards db rnd fe user now st).1 in
  let slash_pick := (cmd_pick TEST_MODE cards db rnd net canvas user now st).1 in
  let text_pick := (msg_pick TEST_MODE cards db rnd net canvas user now st).1 in
  draw = OnCooldown a r ∨ pack = OnCooldown a r ∨ slash_pick = OnCooldown a r ∨
  text_pick = Answered (OnCooldown a r) →
  (draw = OnCooldown a r → a = Draw) ∧
  (pack = OnCooldown a r → a = Pack) ∧
  (slash_pick = OnCooldown a r ∨ text_pick = Answered (OnCooldown a r) → a = Pick) ∧
  r = cooldown_of TEST_MODE a - (now - last_of a data) ∧
  now - last_of a data < cooldown_of TEST_MODE a ∧
  0 < r ∧ 1 ≤ ceil_div r 1000 ∧ msToNice r ≠ "0s".
Proof.
  intros data draw pack slash_pick text_pick Hrefused.
  destruct (refusal_is_the_gate fe user now st a r) as (Hd & Hp & Hs & Ht).
  fold data draw in Hd. fold data pack in Hp. fold data slash_pick in Hs.
  fold data text_pick in Ht.
  assert (gate TEST_MODE a data now = Some r) as Hg.
  { destruct Hrefused as [H|[H|[H|H]]];
      [destruct (Hd H) as [-> ?]|destruct (Hp H) as [-> ?]
      |destruct (Hs H) as [-> ?]|destruct (Ht H) as [-> ?]]; done. }
  unfold gate in Hg. apply cooldown_gate_Some in Hg as [Hlt Hr].
  pose proof (ceil_div_bounds r 1000 ltac:(lia)) as Hb.
  split_and!; [by intros H; apply Hd in H as [-> _]|by intros H; apply Hp in H as [-> _]
              | |exact Hr|exact Hlt|lia|lia|].
  - intros [H|H]; [by apply Hs in H as [-> _]|by apply Ht in H as [-> _]].
  - intros H. apply msToNice_0s in H; lia.
Qed.

(** ** A composite that is not cached yet *)

Lemma fetchAndCacheImage_seen_effect (seen : gmap string Image) (url : string) (st : State) :
  let r := fetchAndCacheImage_seen net seen url st in
  fetches r.2 = (fetches st ++ if bool_decide (is_Some (seen !! url)) then [] else [url])%list ∧
  combinedImageCache r.2 = combinedImageCache st ∧
  (∀ u img, imageCache st !! u = Some img → seen !! u = Some img →
            imageCache r.2 !! u = Some img) ∧
  (∀ u img, imageCache st !! u = Some img → u ≠ url → imageCache r.2 !! u = Some img) ∧
  (is_Some r.1 → is_Some (seen !! url) ∨ is_Some (imageCache r.2 !! url)).
Proof.
  unfold fetchAndCacheImage_seen.
  destruct (seen !! url) as [img0|] eqn:Hseen; simpl.
  { rewrite ?bool_decide_eq_true_2 by eauto. rewrite app_nil_r.
    split_and!; eauto. }
  rewrite ?bool_decide_eq_false_2 by (by intros [? ?]).
  unfold mbind, M_bind, network_get. simpl.
  destruct (net (length (fetches st)) url) as [img|]; simpl.
  - split_and!; try done.
    + intros u img' Hu Hs. destruct (decide (u = url)) as [->|Hne]; [congruence|].
      by rewrite lookup_insert_ne.
    + intros u img' Hu Hne. by rewrite lookup_insert_ne.
    + intros _. right. rewrite lookup_insert_eq. eauto.
  - split_and!; first [done|by intros [? ?]].
Qed.

(** X22. A call of [combineCardImages] whose composite is not cached
    downloads, in order, exactly those of its three URLs that the image
    cache did not hold when the call started, a URL given twice being
    downloaded twice.  Images that were cached stay cached.  When a
    download or a decoding fails the call answers [null] and caches no
    composite; when it answers bytes, all three URLs are in the image
    cache afterwards. *)
Theorem combineCardImages_on_a_miss (card1Url card2Url card3Url : string) (st : State) :
  let result := combineCardImages net canvas card1Url card2Url card3Url st in
  combinedImageCache st !! (card1Url +:+ "|" +:+ card2Url +:+ "|" +:+ card3Url) = None →
  fetches result.2
    = (fetches st ++
         filter (λ url, ¬ is_Some (imageCache st !! url)) [card1Url; card2Url; card3Url])%list ∧
  (result.1 = None → combinedImageCache result.2 = combinedImageCache st) ∧
  (∀ u img, imageCache st !! u = Some img → imageCache result.2 !! u = Some img) ∧
  (is_Some result.1 →
     is_Some (imageCache result.2 !! card1Url) ∧
     is_Some (imageCache result.2 !! card2Url) ∧
     is_Some (imageCache result.2 !! card3Url)).
Proof.
  intros result Hmiss. unfold result, combineCardImages. rewrite Hmiss.
  unfold mbind, M_bind.
  pose proof (fetchAndCacheImage_seen_effect (imageCache st) card1Url st)
    as (F1 & C1 & K1 & O1 & S1).
  destruct (fetchAndCacheImage_seen net (imageCache st) card1Url st) as [r1 st1].
  pose proof (fetchAndCacheImage_seen_effect (imageCache st) card2Url st1)
    as (F2 & C2 & K2 & O2 & S2).
  destruct (fetchAndCacheImage_seen net (imageCache st) card2Url st1) as [r2 st2].
  pose proof (fetchAndCacheImage_seen_effect (imageCache st) card3Url st2)
    as (F3 & C3 & K3 & O3 & S3).
  destruct (fetchAndCacheImage_seen net (imageCache st) card3Url st2) as [r3 st3].
  simpl in *.
  assert (∀ u img, imageCache st !! u = Some img → imageCache st3 !! u = Some img) as Hkeep.
  { intros u img Hu. apply K3; [|done]. apply K2; [|done]. by apply K1. }
  assert (fetches st3
          = (fetches st ++
               filter (λ url, ¬ is_Some (imageCache st !! url))
                 [card1Url; card2Url; card3Url])%list) as Hf.
  { rewrite F3, F2, F1. rewrite <-!app_assoc. f_equal.
    rewrite !filter_cons, filter_nil.
    destruct (imageCache st !! card1Url), (imageCache st !! card2Url),
      (imageCache st !! card3Url); reflexivity. }
  assert (∀ u, is_Some (imageCache st !! u) → is_Some (imageCache st3 !! u)) as Hkeep'.
  { intros u [img Hu]. rewrite (Hkeep _ _ Hu). eauto. }
  destruct r1 as [i1|], r2 as [i2|], r3 as [i3|]; simpl;
    (split_and!; [exact Hf|try done; congruence|exact Hkeep|]);
    try (by intros [? ?]).
  intros _. split_and!.
  - destruct (S1 ltac:(eauto)) as [H|[img H]]; [by apply Hkeep'|].
    destruct (decide (card1Url = card3Url)) as [->|Hne3];
      [destruct (S3 ltac:(eauto)) as [H3|H3]; [by apply Hkeep'|done]|].
    destruct (decide (card1Url = card2Url)) as [->|Hne2].
    + destruct (S2 ltac:(eauto)) as [H2|[img2 H2]]; [by apply Hkeep'|].
      rewrite (O3 _ _ H2) by done. eauto.
    + rewrite (O3 _ img) by (try apply O2; done). eauto.
  - destruct (S2 ltac:(eauto)) as [H|[img H]]; [by apply Hkeep'|].
    destruct (decide (card2Url = card3Url)) as [->|Hne3];
      [destruct (S3 ltac:(eauto)) as [H3|H3]; [by apply Hkeep'|done]|].
    rewrite (O3 _ _ H) by done. eauto.
  - destruct (S3 ltac:(eauto)) as [H|H]; [by apply Hkeep'|done].
Qed.

(** ** Draw, pack, trash *)

Lemma cached_of_inventory (user : string) (st : State) :
  inventory_at user st ≠ [] → userData st !! user = Some (session_at user st).
Proof.
  clear TEST_MODE cards db rnd net canvas parseInt.
  unfold inventory_at, session_at. by destruct (userData st !! user).
Qed.

(** X20. The inventory is kept in order of acquisition and [/trash] counts
    from its start: after a draw and then a pack, by any front ends, the
    inventory is what it was, then the drawn entry, then the five pulled
    ones; [/trash] with the index that the drawn entry got (the length the
    inventory had before, 0 for a new user) removes exactly that entry and
    leaves the five pulled ones in place. *)
Theorem draw_pack_trash (fe fe' : FrontEnd) (user : string) (now1 now2 now3 : Z)
    (st : State) :
  let st0 := (getUserData db user st).2 in
  let data := session_at user st0 in
  let drawn := draw_via TEST_MODE cards db rnd fe user now1 st in
  let packed := pack_via TEST_MODE cards db rnd fe' user now2 drawn.2 in
  let trashed := cmd_trash cards db user now3 (Z.of_nat (length (inventory data)))
                   packed.2 in
  rnd_in_range rnd →
  cards ≠ [] →
  gate TEST_MODE Draw data now1 = None →
  gate TEST_MODE Pack data now2 = None →
  ∃ (entry : Entry) (pulled : list Entry),
    length pulled = 5%nat ∧
    inventory_at user drawn.2 = (inventory data ++ [entry])%list ∧
    inventory_at user packed.2 = (inventory data ++ entry :: pulled)%list ∧
    inventory_at user trashed.2 = (inventory data ++ pulled)%list ∧
    (∃ name, trashed.1 = Trashed name (Z.of_nat (length (inventory data)))) ∧
    requests trashed.2
      = (requests packed.2 ++
           [DeleteByCardAndTime user (cardId entry) (obtainedAt entry)])%list.
Proof.
  intros st0 data drawn packed trashed Hr Hne Hgd Hgp.
  destruct (draw_via_run fe user now1 st Hr Hne Hgd)
    as (card & suffix & q & _ & _ & _ & Hrun1).
  fold st0 data drawn in Hrun1.
  assert (inventory_at user drawn.2
            = (inventory data ++ [draw_entry fe card now1 ("po" +:+ suffix)])%list ∧
          lastPack (session_at user drawn.2) = lastPack data) as [Hinv1 Hlp].
  { rewrite Hrun1. unfold inventory_at, session_at. simpl.
    by rewrite lookup_insert_eq. }
  set (entry := draw_entry fe card now1 ("po" +:+ suffix)) in *.
  assert (userData drawn.2 !! user = Some (session_at user drawn.2)) as Hc1.
  { apply cached_of_inventory. rewrite Hinv1. by destruct (inventory data). }
  pose proof (getUserData_cached db user drawn.2 _ Hc1) as Hload1.
  assert (gate TEST_MODE Pack (session_at user (getUserData db user drawn.2).2) now2 = None)
    as Hgp'.
  { rewrite Hload1. simpl. unfold gate in *. simpl in *. by rewrite Hlp. }
  destruct (pack_via_run fe' user now2 drawn.2 Hr Hne Hgp')
    as (pairs & Hlen & _ & Hrun2).
  fold packed in Hrun2.
  assert (inventory_at user packed.2
            = (inventory (session_at user (getUserData db user drawn.2).2) ++
                 ((λ p, pack_entry fe' p.1 now2 p.2) <$> pairs))%list) as Hinv2.
  { rewrite Hrun2. unfold inventory_at at 1. unfold session_at at 1. simpl.
    by rewrite lookup_insert_eq. }
  clear Hrun2. rewrite Hload1 in Hinv2. simpl in Hinv2.
  fold (inventory_at user drawn.2) in Hinv2. rewrite Hinv1, <-app_assoc in Hinv2.
  simpl in Hinv2.
  set (pulled := (λ p, pack_entry fe' p.1 now2 p.2) <$> pairs) in *.
  assert (userData packed.2 !! user = Some (session_at user packed.2)) as Hc2.
  { apply cached_of_inventory. rewrite Hinv2. by destruct (inventory data). }
  pose proof (cmd_trash_in_memory cards db user now3 (Z.of_nat (length (inventory data)))
                packed.2) as (_ & _ & Hok).
  rewrite (getUserData_cached db user packed.2 _ Hc2) in Hok. simpl in Hok.
  fold trashed in Hok. rewrite Hinv2 in Hok.
  destruct Hok as (removed & Hrem & Hinv3 & Hreq).
  { rewrite length_app. simpl. lia. }
  rewrite Nat2Z.id in Hrem, Hinv3.
  rewrite lookup_app_r, Nat.sub_diag in Hrem by lia. simpl in Hrem.
  injection Hrem as <-.
  exists entry, pulled. split_and!.
  - unfold pulled. by rewrite length_fmap.
  - exact Hinv1.
  - exact Hinv2.
  - rewrite Hinv3. rewrite take_app_length.
    change (S (length (inventory data))) with (1 + length (inventory data))%nat.
    rewrite Nat.add_comm, <-drop_drop, drop_app_length. done.
  - pose proof (cmd_trash_run cards db user now3 (Z.of_nat (length (inventory data)))
                  packed.2) as Hrun.
    cbv zeta in Hrun. rewrite (getUserData_cached db user packed.2 _ Hc2) in Hrun.
    simpl in Hrun. fold (inventory_at user packed.2) in Hrun. rewrite Hinv2 in Hrun.
    destruct (Z.ltb_spec (Z.of_nat (length (inventory data))) 0); [lia|].
    destruct (Z.leb_spec (Z.of_nat (length (inventory data ++ entry :: pulled)))
                (Z.of_nat (length (inventory data)))) as [Hbad|_].
    { rewrite length_app in Hbad. simpl in Hbad. lia. }
    simpl in Hrun. rewrite Nat2Z.id, lookup_app_r, Nat.sub_diag in Hrun by lia.
    simpl in Hrun. fold trashed in Hrun. rewrite Hrun. eauto.
  - exact Hreq.
Qed.

End MoreProperties.

(** * The further properties on the example world *)

Lemma example_rnd_in_range : rnd_in_range example_rnd.
Proof. intros k. unfold example_rnd. apply Z.mod_pos_bound. lia. Qed.

Lemma example_cards_nonempty : example_cards ≠ [].
Proof. discriminate. Qed.

Lemma example_cards_ids (c : Card.t) : c ∈ example_cards → Card.id c ≠ "".
Proof.
  unfold example_cards. intros Hc.
  repeat (apply elem_of_cons in Hc as [->|Hc]; [discriminate|]).
  by apply not_elem_of_nil in Hc.
Qed.

Lemma generateCardInstanceId_format_witness :
  rnd_in_range example_rnd ∧
  ∃ suffix,
    (generateCardInstanceId example_rnd empty_state).1 = "po" +:+ suffix ∧
    String.length suffix = 4%nat ∧
    has_char "_" (generateCardInstanceId example_rnd empty_state).1 = false.
Proof.
  split; [exact example_rnd_in_range|].
  destruct (generateCardInstanceId_format example_rnd empty_state example_rnd_in_range)
    as (suffix & Hid & Hlen & _ & Hno & _).
  exists suffix. split_and!; assumption.
Defined.

Lemma randomCard_in_catalog_witness :
  rnd_in_range example_rnd ∧ example_cards ≠ [] ∧
  ∃ card,
    randomCard example_cards example_rnd empty_state
      = (Some card, with_draws 1 empty_state) ∧
    card ∈ example_cards.
Proof.
  split; [exact example_rnd_in_range|]. split; [exact example_cards_nonempty|].
  destruct (randomCard_in_catalog example_cards example_rnd empty_state
              example_rnd_in_range) as [_ Hsome].
  exact (Hsome example_cards_nonempty).
Defined.

Lemma draw_adds_one_entry_witness :
  let st0 := (getUserData example_db "carol" empty_state).2 in
  let result := draw_via false example_cards example_db example_rnd Text "carol"
                  1700000000000 empty_state in
  gate false Draw (session_at "carol" st0) 1700000000000 = None ∧
  length (inventory_at "carol" result.2) = 1%nat ∧
  lastDraw (session_at "carol" result.2) = 1700000000000 ∧
  length (requests result.2) = 3%nat.
Proof.
  intros st0 result.
  assert (gate false Draw (session_at "carol" st0) 1700000000000 = None) as Hg
    by reflexivity.
  destruct (draw_adds_one_entry false example_cards example_db example_rnd Text "carol"
              1700000000000 empty_state example_rnd_in_range example_cards_nonempty Hg)
    as (card & quality & suffix & _ & _ & _ & _ & Hinv & Hlast & _ & _ & _ & _ & Hreq).
  fold result in Hinv, Hlast, Hreq.
  split_and!; [exact Hg| |exact Hlast|].
  - by rewrite Hinv.
  - by rewrite Hreq.
Defined.

Lemma draw_then_draw_is_refused_witness :
  let st0 := (getUserData example_db "carol" empty_state).2 in
  let first := draw_via false example_cards example_db example_rnd Text "carol"
                 1700000000000 empty_state in
  let second := draw_via false example_cards example_db example_rnd Slash "carol"
                  1700000060000 first.2 in
  gate false Draw (session_at "carol" st0) 1700000000000 = None ∧
  1700000060000 - 1700000000000 < cooldown_of false Draw ∧
  second = (OnCooldown Draw 840000, first.2).
Proof.
  intros st0 first second.
  assert (gate false Draw (session_at "carol" st0) 1700000000000 = None) as Hg
    by reflexivity.
  assert (1700000060000 - 1700000000000 < cooldown_of false Draw) as Hsoon
    by (vm_compute; reflexivity).
  split_and!; [exact Hg|exact Hsoon|].
  exact (draw_then_draw_is_refused false example_cards example_db example_rnd Text Slash
           "carol" 1700000000000 1700000060000 empty_state example_rnd_in_range
           example_cards_nonempty Hg Hsoon).
Defined.

Lemma pack_adds_five_entries_witness :
  let st0 := (getUserData example_db "alice" empty_state).2 in
  let result := pack_via false example_cards example_db example_rnd Button "alice"
                  1700000000000 empty_state in
  gate false Pack (session_at "alice" st0) 1700000000000 = None ∧
  length (inventory_at "alice" st0) = 1%nat ∧
  length (inventory_at "alice" result.2) = 6%nat ∧
  lastPack (session_at "alice" result.2) = 1700000000000 ∧
  length (requests result.2) = 6%nat.
Proof.
  intros st0 result.
  assert (gate false Pack (session_at "alice" st0) 1700000000000 = None) as Hg
    by reflexivity.
  destruct (pack_adds_five_entries false example_cards example_db example_rnd Button
              "alice" 1700000000000 empty_state example_rnd_in_range
              example_cards_nonempty Hg)
    as (pairs & Hlen & _ & _ & Hinv & Hlast & _ & _ & _ & Hreq).
  fold st0 result in Hinv, Hlast, Hreq.
  split_and!; [exact Hg|reflexivity| |exact Hlast|].
  - rewrite Hinv, length_app, length_fmap, Hlen. reflexivity.
  - rewrite Hreq, !length_app, length_fmap, Hlen. reflexivity.
Defined.

Lemma pack_entries_match_their_inserts_witness :
  let st0 := (getUserData example_db "alice" empty_state).2 in
  let result := pack_via false example_cards example_db example_rnd Slash "alice"
                  1700000000000 empty_state in
  gate false Pack (session_at "alice" st0) 1700000000000 = None ∧
  (∀ c, c ∈ example_cards → Card.id c ≠ "") ∧
  ∃ (entries : list Entry) (inserts : list DbRequest),
    length entries = 5%nat ∧
    drop 1 (inventory_at "alice" result.2) = entries ∧
    Forall2 same_ids entries inserts.
Proof.
  intros st0 result.
  assert (gate false Pack (session_at "alice" st0) 1700000000000 = None) as Hg
    by reflexivity.
  destruct (pack_entries_match_their_inserts false example_cards example_db example_rnd
              Slash "alice" 1700000000000 empty_state example_rnd_in_range
              example_cards_nonempty example_cards_ids Hg)
    as (entries & inserts & last_request & Hinv & _ & Hlen & Hsame & _).
  fold st0 result in Hinv.
  split_and!; [exact Hg|exact example_cards_ids|].
  exists entries, inserts. split_and!; [exact Hlen| |exact Hsame].
  rewrite Hinv. reflexivity.
Defined.

Lemma proposal_accepted_moves_the_card_witness :
  let proposal := cmd_trade example_cards example_db "alice" 4000 "po1a2b" "bob" false
                    empty_state in
  let accepted := on_button false example_cards example_db example_rnd example_parseInt
                    "trade_accept_alice_bob_po1a2b" "bob" 5000 proposal.2 in
  proposal.1 = TradeProposed "trade_accept_alice_bob_po1a2b"
                 "trade_decline_alice_bob_po1a2b" "Pikachu" ∧
  accepted.1 = TradeCompleted (JStr "alice") "Pikachu" (JStr "po1a2b") (JStr "bob") ∧
  inventory_at "alice" accepted.2 = [] ∧
  length (inventory_at "bob" accepted.2) = 1%nat.
Proof.
  intros proposal accepted.
  assert (proposal.1 = TradeProposed "trade_accept_alice_bob_po1a2b"
                         "trade_decline_alice_bob_po1a2b" "Pikachu") as Hp
    by (vm_compute; reflexivity).
  destruct (proposal_accepted_moves_the_card false example_cards example_db example_rnd
              example_parseInt "alice" "bob" "po1a2b" _ _ _ false 4000 5000 empty_state
              eq_refl eq_refl eq_refl Hp)
    as (i & removed & Hat & _ & Hreply & Hsender & Hreceiver & _).
  fold proposal accepted in Hat, Hreply, Hsender, Hreceiver.
  assert (inventory_at "alice" proposal.2 = [entry_of_row example_row]) as Hinv
    by (vm_compute; reflexivity).
  split_and!; [exact Hp|exact Hreply| |].
  - rewrite Hsender, Hinv. rewrite Hinv in Hat.
    destruct i as [|i]; [reflexivity|by destruct i].
  - rewrite Hreceiver, length_app. reflexivity.
Defined.

Lemma proposal_declined_changes_nothing_witness :
  let proposal := cmd_trade example_cards example_db "alice" 4000 "po1a2b" "bob" false
                    empty_state in
  let declined := on_button false example_cards example_db example_rnd example_parseInt
                    "trade_decline_alice_bob_po1a2b" "bob" 5000 proposal.2 in
  proposal.1 = TradeProposed "trade_accept_alice_bob_po1a2b"
                 "trade_decline_alice_bob_po1a2b" "Pikachu" ∧
  declined.1 = TradeDeclined (JStr "bob") ∧
  inventory_at "alice" declined.2 = inventory_at "alice" proposal.2.
Proof.
  intros proposal declined.
  assert (proposal.1 = TradeProposed "trade_accept_alice_bob_po1a2b"
                         "trade_decline_alice_bob_po1a2b" "Pikachu") as Hp
    by (vm_compute; reflexivity).
  destruct (proposal_declined_changes_nothing false example_cards example_db example_rnd
              example_parseInt "alice" "bob" "po1a2b" _ _ _ false 4000 5000 empty_state
              eq_refl eq_refl eq_refl Hp)
    as (Hreply & _ & Hinv & _).
  split_and!; [exact Hp|exact Hreply|exact Hinv].
Defined.

Lemma proposal_fails_after_trash_witness :
  let proposal := cmd_trade example_cards example_db "alice" 4000 "po1a2b" "bob" false
                    empty_state in
  let trashed := cmd_trash example_cards example_db "alice" 4500 0 proposal.2 in
  let accepted := on_button false example_cards example_db example_rnd example_parseInt
                    "trade_accept_alice_bob_po1a2b" "bob" 5000 trashed.2 in
  proposal.1 = TradeProposed "trade_accept_alice_bob_po1a2b"
                 "trade_decline_alice_bob_po1a2b" "Pikachu" ∧
  inventory_at "alice" proposal.2 !! 0%nat = Some (entry_of_row example_row) ∧
  entryInstanceId (entry_of_row example_row) = JStr "po1a2b" ∧
  count_instance (JStr "po1a2b") (inventory_at "alice" proposal.2) = 1%nat ∧
  accepted.1 = TradeFailed ∧
  inventory_at "alice" accepted.2 = inventory_at "alice" trashed.2.
Proof.
  intros proposal trashed accepted.
  assert (proposal.1 = TradeProposed "trade_accept_alice_bob_po1a2b"
                         "trade_decline_alice_bob_po1a2b" "Pikachu") as Hp
    by (vm_compute; reflexivity).
  assert (inventory_at "alice" proposal.2 !! 0%nat = Some (entry_of_row example_row))
    as Hat by (vm_compute; reflexivity).
  assert (entryInstanceId (entry_of_row example_row) = JStr "po1a2b") as Hiid
    by reflexivity.
  assert (count_instance (JStr "po1a2b") (inventory_at "alice" proposal.2) = 1%nat)
    as Hone by (vm_compute; reflexivity).
  destruct (proposal_fails_after_trash false example_cards example_db example_rnd
              example_parseInt "alice" "bob" "po1a2b" _ _ _ false 4000 4500 5000
              empty_state 0%nat _ eq_refl eq_refl eq_refl Hp Hat Hiid Hone)
    as (_ & Hreply & _ & Hinv & _).
  split_and!; [exact Hp|exact Hat|exact Hiid|exact Hone|exact Hreply|exact Hinv].
Defined.

Lemma proposal_with_underscore_cannot_be_accepted_witness :
  let proposal := cmd_trade example_cards example_db "frank" 4000 "po_x1" "bob" false
                    example_underscore in
  let accepted := on_button false example_cards example_db example_rnd example_parseInt
                    "trade_accept_frank_bob_po_x1" "bob" 5000 proposal.2 in
  proposal.1 = TradeProposed "trade_accept_frank_bob_po_x1"
                 "trade_decline_frank_bob_po_x1" "Eevee" ∧
  count_instance (JStr "po") (inventory_at "frank" proposal.2) = 0%nat ∧
  part (split_on "_" "trade_accept_frank_bob_po_x1") 4 = JStr "po" ∧
  accepted.1 = TradeFailed ∧
  length (inventory_at "frank" accepted.2) = 1%nat.
Proof.
  intros proposal accepted.
  assert (proposal.1 = TradeProposed "trade_accept_frank_bob_po_x1"
                         "trade_decline_frank_bob_po_x1" "Eevee") as Hp
    by (vm_compute; reflexivity).
  assert (count_instance (JStr "po") (inventory_at "frank" proposal.2) = 0%nat) as Hnone
    by (vm_compute; reflexivity).
  destruct (proposal_with_underscore_cannot_be_accepted false example_cards example_db
              example_rnd example_parseInt "frank" "bob" "po" "x1" _ _ _ false 4000 5000
              example_underscore eq_refl eq_refl eq_refl Hp Hnone)
    as (Hpart & Hreply & Hinv & _).
  change (inventory_at "frank" accepted.2 = inventory_at "frank" proposal.2) in Hinv.
  split_and!; [exact Hp|exact Hnone|exact Hpart|exact Hreply|].
  rewrite Hinv. vm_compute. reflexivity.
Defined.

Lemma loadServerConfigs_restricts_listed_guilds_witness :
  let rows := [("guild1", "channel1"); ("guild2", "channel2")] in
  NoDup rows.*1 ∧
  isAllowedChannel (loadServerConfigs (Data rows) ∅) (Some "guild1") "channel1" = true ∧
  isAllowedChannel (loadServerConfigs (Data rows) ∅) (Some "guild1") "channel2" ≠ true ∧
  isAllowedChannel (loadServerConfigs (Data rows) ∅) (Some "guild3") "channel2" = true.
Proof.
  intros rows.
  assert (NoDup rows.*1) as Hnd.
  { apply NoDup_cons. split; [|apply NoDup_singleton].
    intros Hin. apply list_elem_of_singleton in Hin. discriminate. }
  split_and!; [exact Hnd| | |].
  - apply (loadServerConfigs_restricts_listed_guilds rows "guild1" "channel1" Hnd).
    right. apply list_elem_of_here.
  - intros Hyes.
    apply (loadServerConfigs_restricts_listed_guilds rows "guild1" "channel2" Hnd) in Hyes.
    destruct Hyes as [Hout|Hin].
    + apply Hout. apply list_elem_of_here.
    + apply elem_of_cons in Hin as [Hin|Hin]; [discriminate|].
      apply list_elem_of_singleton in Hin. discriminate.
  - apply (loadServerConfigs_restricts_listed_guilds rows "guild3" "channel2" Hnd).
    left. intros Hin.
    apply elem_of_cons in Hin as [Hin|Hin]; [discriminate|].
    apply list_elem_of_singleton in Hin. discriminate.
Defined.

Lemma refused_interaction_touches_nothing_witness :
  let restricted := (setGuildChannel false "guild1" "channel1" ∅).2 in
  "channel2" ≠ "channel1" ∧
  button_interaction false example_cards example_db example_rnd example_parseInt
    restricted (Some "guild1") "channel2" "btn_draw" "carol" 1700000000000 empty_state
    = (ChannelRefused, empty_state) ∧
  on_message false example_cards example_db example_rnd example_net example_canvas
    restricted false (Some "guild1") "channel2" "kd pack" "carol" 1700000000000
    empty_state
    = (ChannelRefused, empty_state).
Proof.
  intros restricted.
  assert ("channel2" ≠ "channel1") as Hne by discriminate.
  destruct (refused_interaction_touches_nothing false example_cards example_db
              example_rnd example_net example_canvas example_parseInt false "guild1"
              "channel1" "channel2" "btn_draw" "kd pack" "carol" 1700000000000 ∅
              empty_state Hne) as (Hbutton & Htext & _).
  split_and!; [exact Hne|exact Hbutton|exact (Htext eq_refl)].
Defined.

Lemma text_pick_then_button_witness :
  let st0 := (getUserData example_db "carol" empty_state).2 in
  let prompted := msg_pick false example_cards example_db example_rnd example_net
                    example_canvas "carol" 1700000000000 empty_state in
  let pressed := btn_pick example_db example_rnd example_parseInt "btn_pick_1" "carol"
                   1700000005000 prompted.2 in
  gate false Pick (session_at "carol" st0) 1700000000000 = None ∧
  example_parseInt (to_string (part (split_on "_" "btn_pick_1") 2)) = Some 1 ∧
  (∃ card quality, pressed.1 = Picked card quality) ∧
  length (inventory_at "carol" pressed.2) = 1%nat ∧
  pickChoices (session_at "carol" pressed.2) = Some [].
Proof.
  intros st0 prompted pressed.
  assert (gate false Pick (session_at "carol" st0) 1700000000000 = None) as Hg
    by reflexivity.
  assert (example_parseInt (to_string (part (split_on "_" "btn_pick_1") 2)) = Some 1)
    as Hparse by reflexivity.
  destruct (text_pick_then_button false example_cards example_db example_rnd example_net
              example_canvas example_parseInt "carol" "btn_pick_1" 1700000000000
              1700000005000 1 empty_state example_rnd_in_range example_cards_nonempty
              Hg Hparse ltac:(lia))
    as (choices & card & quality & iid & _ & _ & _ & _ & _ & _ & Hreply & Hinv & Hpick).
  fold st0 prompted pressed in Hreply, Hinv, Hpick.
  split_and!; [exact Hg|exact Hparse|eauto| |exact Hpick].
  rewrite Hinv. reflexivity.
Defined.


Lemma refusal_never_shows_zero_seconds_witness :
  let text_pick := (msg_pick false example_cards example_db example_rnd example_net
                      example_canvas "bob" 1800999 example_picking).1 in
  text_pick = Answered (OnCooldown Pick 1) ∧
  1 = cooldown_of false Pick
        - (1800999 - lastPick (session_at "bob" (getUserData example_db "bob"
                                                    example_picking).2)) ∧
  msToNice 1 ≠ "0s" ∧ msToNice 1 = "1s".
Proof.
  intros text_pick.
  assert (text_pick = Answered (OnCooldown Pick 1)) as Hrefused
    by (vm_compute; reflexivity).
  destruct (refusal_never_shows_zero_seconds false example_cards example_db example_rnd
              example_net example_canvas Text "bob" 1800999 example_picking Pick 1
              (or_intror (or_intror (or_intror Hrefused))))
    as (_ & _ & _ & Hwait & _ & _ & _ & Hshown).
  split_and!; [exact Hrefused|exact Hwait|exact Hshown|reflexivity].
Defined.

Lemma combineCardImages_on_a_miss_witness :
  let u1 := Card.imageUrl pikachu in
  let u2 := Card.imageUrl onix in
  let result := combineCardImages example_net example_canvas u1 u2 u1 empty_state in
  combinedImageCache empty_state !! (u1 +:+ "|" +:+ u2 +:+ "|" +:+ u1) = None ∧
  fetches result.2 = [u1; u2; u1] ∧
  is_Some (imageCache result.2 !! u1).
Proof.
  intros u1 u2 result.
  assert (combinedImageCache empty_state !! (u1 +:+ "|" +:+ u2 +:+ "|" +:+ u1) = None)
    as Hmiss by reflexivity.
  destruct (combineCardImages_on_a_miss example_net example_canvas u1 u2 u1 empty_state
              Hmiss) as (Hfetch & _ & _ & Hcached).
  fold result in Hfetch, Hcached.
  split_and!; [exact Hmiss| |].
  - rewrite Hfetch. vm_compute. reflexivity.
  - apply Hcached. vm_compute. eauto.
Defined.

Lemma draw_pack_trash_witness :
  let st0 := (getUserData example_db "alice" empty_state).2 in
  let drawn := draw_via false example_cards example_db example_rnd Text "alice"
                 1700000000000 empty_state in
  let packed := pack_via false example_cards example_db example_rnd Slash "alice"
                  1700000000500 drawn.2 in
  let trashed := cmd_trash example_cards example_db "alice" 1700000001000 1 packed.2 in
  gate false Draw (session_at "alice" st0) 1700000000000 = None ∧
  gate false Pack (session_at "alice" st0) 1700000000500 = None ∧
  length (inventory_at "alice" st0) = 1%nat ∧
  length (inventory_at "alice" drawn.2) = 2%nat ∧
  length (inventory_at "alice" packed.2) = 7%nat ∧
  length (inventory_at "alice" trashed.2) = 6%nat ∧
  take 1 (inventory_at "alice" trashed.2) = [entry_of_row example_row].
Proof.
  intros st0 drawn packed trashed.
  assert (gate false Draw (session_at "alice" st0) 1700000000000 = None) as Hgd
    by reflexivity.
  assert (gate false Pack (session_at "alice" st0) 1700000000500 = None) as Hgp
    by reflexivity.
  destruct (draw_pack_trash false example_cards example_db example_rnd Text Slash "alice"
              1700000000000 1700000000500 1700000001000 empty_state example_rnd_in_range
              example_cards_nonempty Hgd Hgp)
    as (entry & pulled & Hlen & Hdrawn & Hpacked & Htrashed & _).
  assert (inventory (session_at "alice" st0) = [entry_of_row example_row]) as Hinv
    by (vm_compute; reflexivity).
  fold st0 in Hdrawn, Hpacked, Htrashed. rewrite Hinv in Hdrawn, Hpacked, Htrashed.
  change (Z.of_nat (length [entry_of_row example_row])) with 1 in Htrashed.
  fold drawn in Hdrawn. fold drawn packed in Hpacked. fold drawn packed trashed in Htrashed.
  split_and!; [exact Hgd|exact Hgp|reflexivity| | | |].
  - by rewrite Hdrawn.
  - rewrite Hpacked. simpl. by rewrite Hlen.
  - rewrite Htrashed. simpl. by rewrite Hlen.
  - by rewrite Htrashed.
Defined.
